(** * Accommodation agent: scheduler, tracked-item store and search pass

    A shallow embedding of [scheduler.py], [database.py], [filter.py],
    [email_notifier.py] and [main.py] of the accommodation agent, with the
    properties of its specification stated and settled against it.

    Modelling conventions, used throughout:
    - a [datetime] is the number of microseconds since the epoch, in [Z];
      the range limits of [datetime] and [timedelta] are not modelled;
    - the process clock and the clock of the database engine are one clock
      (the process runs in UTC);
    - a Python [float] and an SQL [REAL] are read as the rational number
      they denote, arithmetic on them is exact;
    - text is ASCII;
    - the database is its committed tables; a [with sqlite3.connect(...)]
      block commits when it is left and rolls back when an exception leaves
      it, and a connection that writes while another one holds a write it
      has not committed raises [OperationalError: database is locked];
      other storage failures are not modelled. *)

From Stdlib Require Import ZArith QArith List String Ascii Bool Lia.
From Stdlib Require Import Permutation Sorted Qround DecimalString.
Import ListNotations.

Local Open Scope Z_scope.
Local Open Scope string_scope.

(** ** datetime and timedelta *)

Module Time.

Definition datetime := Z.

Definition us_per_second : Z := 1000000.

(** [timedelta(days=d, hours=h, minutes=m)] in microseconds. *)
Definition timedelta (days hours minutes : Z) : Z :=
  ((days * 24 + hours) * 60 + minutes) * 60 * us_per_second.

(** SQL [CURRENT_TIMESTAMP] and [datetime('now')] have the format
    [YYYY-MM-DD HH:MM:SS]: the clock cut down to whole seconds. *)
Definition whole_seconds (clock : Z) : datetime :=
  clock / us_per_second * us_per_second.

End Time.

(** ** scheduler.py *)

Module Scheduler.
Import Time.

(** What a Python call can raise: an instance of [Exception], or a
    [BaseException] outside it ([SystemExit], [KeyboardInterrupt],
    [GeneratorExit]). *)
Inductive PyError : Type :=
| ExceptionInstance (message : string)
| BaseExceptionOnly (message : string).

Inductive Outcome : Type :=
| Returned
| Raised (e : PyError).

(** A task's bound function, seen from the scheduler: called at some
    clock reading, it ends with an outcome at a later reading. *)
Definition Callable := datetime -> Outcome * datetime.

Record ScheduledTask : Type := {
  name : string;
  function : Callable;
  interval_type : string;
  interval_value : Z;
  next_run : datetime;
  last_run : option datetime;
  is_running : bool;
  enabled : bool
}.

Definition set_is_running (b : bool) (t : ScheduledTask) : ScheduledTask :=
  {| name := name t; function := function t;
     interval_type := interval_type t; interval_value := interval_value t;
     next_run := next_run t; last_run := last_run t;
     is_running := b; enabled := enabled t |}.

Definition set_last_run (d : datetime) (t : ScheduledTask) : ScheduledTask :=
  {| name := name t; function := function t;
     interval_type := interval_type t; interval_value := interval_value t;
     next_run := next_run t; last_run := Some d;
     is_running := is_running t; enabled := enabled t |}.

Definition set_next_run (d : datetime) (t : ScheduledTask) : ScheduledTask :=
  {| name := name t; function := function t;
     interval_type := interval_type t; interval_value := interval_value t;
     next_run := d; last_run := last_run t;
     is_running := is_running t; enabled := enabled t |}.

(** [_calculate_next_run]; [now] is the reading of [datetime.now()]. *)
Definition _calculate_next_run (task : ScheduledTask) (now : datetime) : datetime :=
  if interval_type task =? "minutes" then now + timedelta 0 0 (interval_value task)
  else if interval_type task =? "hours" then now + timedelta 0 (interval_value task) 0
  else if interval_type task =? "days" then now + timedelta (interval_value task) 0 0
  else now + timedelta 0 1 0.

(** What is left of an outcome after [except Exception]: an instance of
    [Exception] is logged and dropped, anything else goes on to the
    caller once the [finally] block has run. *)
Definition except_Exception (o : Outcome) : option PyError :=
  match o with
  | Returned => None
  | Raised (ExceptionInstance _) => None
  | Raised (BaseExceptionOnly m) => Some (BaseExceptionOnly m)
  end.

(** [_run_task], run from its first line to its last without another
    thread in between; [now] is the clock when it is entered.  The
    result is the task as the call leaves it and the error that leaves
    the call, if any. *)
Definition _run_task (task : ScheduledTask) (now : datetime)
  : ScheduledTask * option PyError :=
  if negb (enabled task) || is_running task then (task, None)
  else
    let task1 := set_last_run now (set_is_running true task) in
    let '(outcome, finished) := function task1 now in
    let task2 := set_is_running false task1 in
    let task3 := set_next_run (_calculate_next_run task2 finished) task2 in
    (task3, except_Exception outcome).

(** The test of [_scheduler_loop] on one task. *)
Definition due (now : datetime) (task : ScheduledTask) : bool :=
  enabled task && negb (is_running task) && (next_run task <=? now)%Z.

Record AccommodationScheduler : Type := {
  tasks : list ScheduledTask;
  scheduler_is_running : bool
}.

Fixpoint due_from (i : nat) (now : datetime) (ts : list ScheduledTask) : list nat :=
  match ts with
  | [] => []
  | t :: rest =>
      if due now t then i :: due_from (S i) now rest
      else due_from (S i) now rest
  end.

(** One turn of the [while] loop of [_scheduler_loop]: the positions of
    the tasks for which a thread is started, in order. *)
Definition dispatched (s : AccommodationScheduler) (now : datetime) : list nat :=
  if scheduler_is_running s then due_from 0 now (tasks s) else [].

Fixpoint replace_nth {A : Type} (i : nat) (x : A) (l : list A) : list A :=
  match l, i with
  | [], _ => []
  | _ :: rest, O => x :: rest
  | y :: rest, S j => y :: replace_nth j x rest
  end.

(** The thread started for the task at position [i]: it runs
    [_run_task] on that task object, which the scheduler's list
    shares.  An error that leaves [_run_task] ends the thread, not the
    loop. *)
Definition task_thread (s : AccommodationScheduler) (i : nat) (now : datetime)
  : AccommodationScheduler * option PyError :=
  match nth_error (tasks s) i with
  | None => (s, None)
  | Some task =>
      let '(task', escaped) := _run_task task now in
      ({| tasks := replace_nth i task' (tasks s);
          scheduler_is_running := scheduler_is_running s |}, escaped)
  end.

(** *** Threads interleaved

    The loop thread and the task threads share the task objects.  Each
    task thread is at one of the program points of [_run_task]; an
    event carries the clock reading at which it happens. *)
Inductive ProgramPoint : Type :=
| AtGuard          (* before [if not task.enabled or task.is_running] *)
| AtSetRunning     (* guard passed, before [task.is_running = True] *)
| InFunction (o : Outcome)
                   (* inside [task.function()], which will end with [o] *)
| AtClearRunning (o : Outcome)
                   (* in [finally], before [task.is_running = False] *)
| AtSetNextRun (o : Outcome)
                   (* in [finally], before [task.next_run = ...] *)
| Ended (escaped : option PyError).

Record Thread : Type := { target : nat; point : ProgramPoint }.

Record System : Type := {
  shared : list ScheduledTask;
  threads : list Thread
}.

Inductive Event : Type :=
| LoopVisit (i : nat) (now : datetime)  (* the loop tests task [i] *)
| ThreadStep (k : nat) (now : datetime). (* thread [k] runs one step *)

Definition update_task (i : nat) (f : ScheduledTask -> ScheduledTask)
    (l : list ScheduledTask) : list ScheduledTask :=
  match nth_error l i with
  | Some t => replace_nth i (f t) l
  | None => l
  end.

Definition thread_step (sys : System) (k : nat) (now : datetime) : System :=
  match nth_error (threads sys) k with
  | None => sys
  | Some th =>
      match nth_error (shared sys) (target th) with
      | None => sys
      | Some task =>
          let move p ts :=
            {| shared := ts;
               threads := replace_nth k {| target := target th; point := p |}
                            (threads sys) |} in
          match point th with
          | AtGuard =>
              if negb (enabled task) || is_running task
              then move (Ended None) (shared sys)
              else move AtSetRunning (shared sys)
          | AtSetRunning =>
              let task1 := set_last_run now (set_is_running true task) in
              move (InFunction (fst (function task1 now)))
                   (replace_nth (target th) task1 (shared sys))
          | InFunction o =>
              move (AtClearRunning o) (shared sys)
          | AtClearRunning o =>
              move (AtSetNextRun o)
                   (update_task (target th) (set_is_running false) (shared sys))
          | AtSetNextRun o =>
              move (Ended (except_Exception o))
                   (update_task (target th)
                      (fun t => set_next_run (_calculate_next_run t now) t)
                      (shared sys))
          | Ended _ => sys
          end
      end
  end.

Definition fire (sys : System) (e : Event) : System :=
  match e with
  | LoopVisit i now =>
      match nth_error (shared sys) i with
      | Some task =>
          if due now task
          then {| shared := shared sys;
                  threads := (threads sys ++ [{| target := i; point := AtGuard |}])%list |}
          else sys
      | None => sys
      end
  | ThreadStep k now => thread_step sys k now
  end.

Definition run_events (sys : System) (es : list Event) : System :=
  fold_left fire es sys.

Definition in_function (i : nat) (th : Thread) : bool :=
  (target th =? i)%nat &&
  match point th with InFunction _ => true | _ => false end.

(** How many threads are inside the function of task [i] at once. *)
Definition executions (i : nat) (sys : System) : nat :=
  List.length (filter (in_function i) (threads sys)).

(** *** The task list *)

Definition set_enabled (b : bool) (t : ScheduledTask) : ScheduledTask :=
  {| name := name t; function := function t;
     interval_type := interval_type t; interval_value := interval_value t;
     next_run := next_run t; last_run := last_run t;
     is_running := is_running t; enabled := b |}.

Definition with_tasks (ts : list ScheduledTask) (s : AccommodationScheduler)
  : AccommodationScheduler :=
  {| tasks := ts; scheduler_is_running := scheduler_is_running s |}.

(** [add_task]. *)
Definition add_task (s : AccommodationScheduler) (task : ScheduledTask)
  : AccommodationScheduler :=
  with_tasks (tasks s ++ [task])%list s.

(** The loop of [remove_task]: the first task with the name is deleted
    and the loop is left; [None] when no task has the name. *)
Fixpoint remove_named (task_name : string) (ts : list ScheduledTask)
  : option (list ScheduledTask) :=
  match ts with
  | [] => None
  | task :: rest =>
      if name task =? task_name then Some rest
      else option_map (cons task) (remove_named task_name rest)
  end.

(** [remove_task]. *)
Definition remove_task (s : AccommodationScheduler) (task_name : string)
  : AccommodationScheduler * bool :=
  match remove_named task_name (tasks s) with
  | Some ts => (with_tasks ts s, true)
  | None => (s, false)
  end.

(** The loop of [enable_task] and of [disable_task]: the flag of the
    first task with the name is set and the loop is left. *)
Fixpoint enable_named (b : bool) (task_name : string) (ts : list ScheduledTask)
  : option (list ScheduledTask) :=
  match ts with
  | [] => None
  | task :: rest =>
      if name task =? task_name then Some (set_enabled b task :: rest)
      else option_map (cons task) (enable_named b task_name rest)
  end.

(** [enable_task]. *)
Definition enable_task (s : AccommodationScheduler) (task_name : string)
  : AccommodationScheduler * bool :=
  match enable_named true task_name (tasks s) with
  | Some ts => (with_tasks ts s, true)
  | None => (s, false)
  end.

(** [disable_task]. *)
Definition disable_task (s : AccommodationScheduler) (task_name : string)
  : AccommodationScheduler * bool :=
  match enable_named false task_name (tasks s) with
  | Some ts => (with_tasks ts s, true)
  | None => (s, false)
  end.

(** [start] and [stop], as far as the flag the loop tests goes. *)
Definition start (s : AccommodationScheduler) : AccommodationScheduler :=
  if scheduler_is_running s then s
  else {| tasks := tasks s; scheduler_is_running := true |}.

Definition stop (s : AccommodationScheduler) : AccommodationScheduler :=
  if negb (scheduler_is_running s) then s
  else {| tasks := tasks s; scheduler_is_running := false |}.

(** [ScheduledTask(name, function, interval_type, interval_value)]:
    [__post_init__] sets [next_run] to the clock at creation. *)
Definition new_task (name' : string) (f : Callable) (interval_type' : string)
    (interval_value' : Z) (now : datetime) : ScheduledTask :=
  {| name := name'; function := f; interval_type := interval_type';
     interval_value := interval_value'; next_run := now; last_run := None;
     is_running := false; enabled := true |}.

Module TaskBuilder.

Definition search_task (search_function : Callable) (interval_hours : Z)
    (now : datetime) : ScheduledTask :=
  new_task "accommodation_search" search_function "hours" interval_hours now.

Definition price_alert_task (alert_function : Callable) (interval_minutes : Z)
    (now : datetime) : ScheduledTask :=
  new_task "price_alerts" alert_function "minutes" interval_minutes now.

Definition cleanup_task (cleanup_function : Callable) (interval_days : Z)
    (now : datetime) : ScheduledTask :=
  new_task "database_cleanup" cleanup_function "days" interval_days now.

Definition heartbeat_task (heartbeat_function : Callable) (interval_minutes : Z)
    (now : datetime) : ScheduledTask :=
  new_task "system_heartbeat" heartbeat_function "minutes" interval_minutes now.

End TaskBuilder.

(** [SchedulerConfig], the intervals. *)
Record SchedulerConfig : Type := {
  search_interval_hours : Z;
  price_alert_interval_minutes : Z;
  cleanup_interval_days : Z;
  heartbeat_interval_minutes : Z
}.

(** [SchedulerConfig()]. *)
Definition default_config : SchedulerConfig :=
  {| search_interval_hours := 6; price_alert_interval_minutes := 30;
     cleanup_interval_days := 1; heartbeat_interval_minutes := 15 |}.

(** The [heartbeat] of [create_default_scheduler] writes one log line. *)
Definition heartbeat : Callable := fun started => (Returned, started).

(** A fresh [AccommodationScheduler()]. *)
Definition new_scheduler : AccommodationScheduler :=
  {| tasks := []; scheduler_is_running := false |}.

(** [create_default_scheduler]; [created k] is the clock when the task
    at position [k] is built. *)
Definition create_default_scheduler (search_function alert_function
    cleanup_function : Callable) (config : option SchedulerConfig)
    (created : nat -> datetime) : AccommodationScheduler :=
  let config :=
    match config with Some c => c | None => default_config end in
  let scheduler := new_scheduler in
  let scheduler :=
    add_task scheduler
      (TaskBuilder.search_task search_function
         (search_interval_hours config) (created 0%nat)) in
  let scheduler :=
    add_task scheduler
      (TaskBuilder.price_alert_task alert_function
         (price_alert_interval_minutes config) (created 1%nat)) in
  let scheduler :=
    add_task scheduler
      (TaskBuilder.cleanup_task cleanup_function
         (cleanup_interval_days config) (created 2%nat)) in
  add_task scheduler
    (TaskBuilder.heartbeat_task heartbeat
       (heartbeat_interval_minutes config) (created 3%nat)).

End Scheduler.

(** ** str.lower and str.strip *)

Module Text.

Definition lower_char (c : ascii) : ascii :=
  let n := nat_of_ascii c in
  if ((65 <=? n) && (n <=? 90))%nat then ascii_of_nat (n + 32) else c.

Fixpoint lower (s : string) : string :=
  match s with
  | EmptyString => EmptyString
  | String c rest => String (lower_char c) (lower rest)
  end.

(** [str.isspace] on one ASCII character. *)
Definition isspace (c : ascii) : bool :=
  let n := nat_of_ascii c in
  (((9 <=? n) && (n <=? 13)) || ((28 <=? n) && (n <=? 32)))%nat.

Fixpoint lstrip (s : string) : string :=
  match s with
  | EmptyString => EmptyString
  | String c rest => if isspace c then lstrip rest else s
  end.

Fixpoint rstrip (s : string) : string :=
  match s with
  | EmptyString => EmptyString
  | String c rest =>
      match rstrip rest with
      | EmptyString => if isspace c then EmptyString else String c EmptyString
      | kept => String c kept
      end
  end.

Definition strip (s : string) : string := rstrip (lstrip s).

End Text.

(** ** Sorting, as [sorted] and [ORDER BY] do it

    A stable insertion sort; [before y x] says that [y] goes strictly
    before [x]. *)

Module Ordering.

Fixpoint insert_by {A : Type} (before : A -> A -> bool) (x : A) (l : list A) : list A :=
  match l with
  | [] => [x]
  | y :: rest => if before y x then y :: insert_by before x rest else x :: l
  end.

Definition sort_by {A : Type} (before : A -> A -> bool) (l : list A) : list A :=
  fold_right (insert_by before) [] l.

Definition Qlt_bool (x y : Q) : bool := negb (Qle_bool y x).

End Ordering.

(** ** database.py *)

Module Store.
Import Time Text Ordering.

(** [scraper.Accommodation]. *)
Record Accommodation : Type := {
  title : string;
  price : Q;
  currency : string;
  rating : Q;
  location : string;
  url : string;
  image_url : option string;
  description : option string;
  amenities : list string;
  platform : string
}.

(** [config.SearchCriteria]. *)
Record SearchCriteria : Type := {
  destination : string;
  check_in : datetime;
  check_out : datetime;
  guests : Z;
  max_price : Q;
  criteria_currency : string;
  property_types : list string;
  min_rating : Q
}.

(** A row of table [accommodations].  Column [amenities] holds the JSON
    text of a list of strings and is kept as that list. *)
Record AccommodationRow : Type := {
  acc_id : Z;
  acc_title : string;
  acc_price : Q;
  acc_currency : string;
  acc_rating : Q;
  acc_location : string;
  acc_url : string;
  acc_image_url : option string;
  acc_description : option string;
  acc_amenities : list string;
  acc_platform : string;
  first_seen : datetime;
  last_seen : datetime;
  times_seen : Z;
  accommodation_hash : string;
  is_notified : bool
}.

(** A row of table [price_history]. *)
Record PriceHistoryRow : Type := {
  ph_id : Z;
  accommodation_id : Z;
  ph_price : Q;
  ph_currency : string;
  ph_timestamp : datetime
}.

(** A row of table [searches]. *)
Record SearchRow : Type := {
  search_id : Z;
  search_timestamp : datetime;
  criteria_hash : string;
  results_count : Z;
  criteria_json : string;
  execution_time_ms : Z
}.

(** A row of table [notifications]. *)
Record NotificationRow : Type := {
  notification_id : Z;
  accommodation_ids : list Z;
  notification_timestamp : datetime;
  notification_type : string;
  success : bool;
  error_message : option string
}.

(** The tables in insertion order, and for each [AUTOINCREMENT] key the
    largest value handed out so far. *)
Record Database : Type := {
  accommodations : list AccommodationRow;
  price_history : list PriceHistoryRow;
  searches : list SearchRow;
  notifications : list NotificationRow;
  seq_accommodations : Z;
  seq_price_history : Z;
  seq_searches : Z;
  seq_notifications : Z
}.

Definition empty_database : Database :=
  {| accommodations := []; price_history := []; searches := [];
     notifications := [];
     seq_accommodations := 0; seq_price_history := 0;
     seq_searches := 0; seq_notifications := 0 |}.

(** The values a dataclass field can hold here. *)
Inductive PyValue : Type :=
| PyStr (s : string)
| PyInt (z : Z)
| PyFloat (q : Q)
| PyDatetime (d : datetime)
| PyStrList (l : list string).

(** What the program takes from its libraries and its machine: the MD5
    hex digest, the successive readings of the clock, [json.dumps] of a
    dict (with its [sort_keys] flag) and the text of a float in an
    f-string. *)
Record Runtime : Type := {
  md5_hexdigest : string -> string;
  clock : nat -> Z;
  json_dumps : bool -> list (string * PyValue) -> string;
  format_float : Q -> string
}.

(** What the running agent can change: the database, how many times the
    clock has been read, and [NotificationManager.sent_accommodations]. *)
Record World : Type := {
  database : Database;
  clock_reads : nat;
  sent_accommodations : list string
}.

Definition M (A : Type) : Type := World -> A * World.

Definition ret {A : Type} (a : A) : M A := fun w => (a, w).

Definition bind {A B : Type} (m : M A) (k : A -> M B) : M B :=
  fun w => let '(a, w') := m w in k a w'.

Notation "x <- m ;; k" := (bind m (fun x => k))
  (at level 61, m at next level, right associativity).
Notation "m ;;; k" := (bind m (fun _ => k))
  (at level 61, right associativity).

Fixpoint for_each {A B : Type} (f : A -> M B) (l : list A) : M (list B) :=
  match l with
  | [] => ret []
  | x :: rest => y <- f x ;; ys <- for_each f rest ;; ret (y :: ys)
  end.

(** What a call on the store can raise: [sqlite3.OperationalError]. *)
Inductive StoreError : Type :=
| OperationalError (message : string).

Definition database_is_locked : StoreError := OperationalError "database is locked".

(** How a call that can raise ends. *)
Inductive Attempt (A : Type) : Type :=
| Done (a : A)
| Failed (e : StoreError).

Arguments Done {A} a.
Arguments Failed {A} e.

(** One call after another: an exception ends the sequence. *)
Definition bind_try {A B : Type} (m : M (Attempt A)) (k : A -> M (Attempt B))
  : M (Attempt B) :=
  a <- m ;;
  match a with
  | Done a => k a
  | Failed e => ret (Failed e)
  end.

Notation "x <-? m ;; k" := (bind_try m (fun x => k))
  (at level 61, m at next level, right associativity).
Notation "m ;;? k" := (bind_try m (fun _ => k))
  (at level 61, right associativity).

(** A loop or a list comprehension over calls that can raise. *)
Fixpoint try_each {A B : Type} (f : A -> M (Attempt B)) (l : list A)
  : M (Attempt (list B)) :=
  match l with
  | [] => ret (Done [])
  | x :: rest => y <-? f x ;; ys <-? try_each f rest ;; ret (Done (y :: ys))
  end.

Definition get_database : M Database := fun w => (database w, w).

Definition with_database (d : Database) (w : World) : World :=
  {| database := d; clock_reads := clock_reads w;
     sent_accommodations := sent_accommodations w |}.

Definition put_database (d : Database) : M unit :=
  fun w => (tt, with_database d w).

(** The world after one more reading of the clock. *)
Definition tick (w : World) : World :=
  {| database := database w; clock_reads := S (clock_reads w);
     sent_accommodations := sent_accommodations w |}.

(** [INSERT INTO price_history (accommodation_id, price, currency)]; the
    timestamp takes its default, [now]. *)
Definition insert_observation (d : Database) (accommodation_id' : Z) (price : Q)
    (currency : string) (now : datetime) : Database :=
  let new_id := seq_price_history d + 1 in
  {| accommodations := accommodations d;
     price_history :=
       (price_history d ++
        [{| ph_id := new_id; accommodation_id := accommodation_id';
            ph_price := price; ph_currency := currency;
            ph_timestamp := now |}])%list;
     searches := searches d;
     notifications := notifications d;
     seq_accommodations := seq_accommodations d;
     seq_price_history := new_id;
     seq_searches := seq_searches d;
     seq_notifications := seq_notifications d |}.

Definition with_accommodations (rows : list AccommodationRow) (seq : Z) (d : Database)
  : Database :=
  {| accommodations := rows;
     price_history := price_history d;
     searches := searches d;
     notifications := notifications d;
     seq_accommodations := seq;
     seq_price_history := seq_price_history d;
     seq_searches := seq_searches d;
     seq_notifications := seq_notifications d |}.

Section WithRuntime.
Variable rt : Runtime.

(** [datetime.now()] and [time.time()]: the next reading of the clock. *)
Definition datetime_now : M datetime :=
  fun w => (clock rt (clock_reads w), tick w).

(** The value of [CURRENT_TIMESTAMP] in one SQL statement. *)
Definition CURRENT_TIMESTAMP : M datetime :=
  t <- datetime_now ;; ret (whole_seconds t).

Definition _create_accommodation_hash (accommodation : Accommodation) : string :=
  md5_hexdigest rt
    (strip (lower (title accommodation)) ++ "_" ++
     strip (lower (location accommodation)) ++ "_" ++
     platform accommodation).

Definition asdict (criteria : SearchCriteria) : list (string * PyValue) :=
  [ ("destination", PyStr (destination criteria));
    ("check_in", PyDatetime (check_in criteria));
    ("check_out", PyDatetime (check_out criteria));
    ("guests", PyInt (guests criteria));
    ("max_price", PyFloat (max_price criteria));
    ("currency", PyStr (criteria_currency criteria));
    ("property_types", PyStrList (property_types criteria));
    ("min_rating", PyFloat (min_rating criteria)) ].

Definition dict_pop (key : string) (d : list (string * PyValue)) : list (string * PyValue) :=
  filter (fun kv => negb (fst kv =? key)) d.

Definition _create_criteria_hash (criteria : SearchCriteria) : string :=
  md5_hexdigest rt
    (json_dumps rt true (dict_pop "check_out" (dict_pop "check_in" (asdict criteria)))).

(** [save_price_history]: one [INSERT INTO price_history], on a
    connection of its own.  [write_pending] says whether the caller's
    connection holds a write it has not committed: SQLite then refuses
    the second writer, and after the busy timeout the [INSERT] raises
    [OperationalError: database is locked]. *)
Definition save_price_history (write_pending : bool) (accommodation_id : Z)
    (price : Q) (currency : string) : M (Attempt unit) :=
  if write_pending then ret (Failed database_is_locked)
  else
    now <- CURRENT_TIMESTAMP ;;
    d <- get_database ;;
    put_database (insert_observation d accommodation_id price currency now) ;;;
    ret (Done tt).

(** The [SELECT ... WHERE accommodation_hash = ?] of [save_accommodation],
    with [fetchone]. *)
Definition select_by_hash (acc_hash : string) (d : Database) : option AccommodationRow :=
  find (fun r => accommodation_hash r =? acc_hash) (accommodations d).

(** The [UPDATE accommodations SET last_seen = CURRENT_TIMESTAMP,
    times_seen = times_seen + 1, price = ?, currency = ?, rating = ?
    WHERE id = ?] on one row. *)
Definition update_seen (now : datetime) (accommodation : Accommodation)
    (accommodation_id : Z) (r : AccommodationRow) : AccommodationRow :=
  if (acc_id r =? accommodation_id)%Z then
    {| acc_id := acc_id r; acc_title := acc_title r;
       acc_price := price accommodation;
       acc_currency := currency accommodation;
       acc_rating := rating accommodation;
       acc_location := acc_location r; acc_url := acc_url r;
       acc_image_url := acc_image_url r;
       acc_description := acc_description r;
       acc_amenities := acc_amenities r; acc_platform := acc_platform r;
       first_seen := first_seen r; last_seen := now;
       times_seen := times_seen r + 1;
       accommodation_hash := accommodation_hash r;
       is_notified := is_notified r |}
  else r.

(** The row that [INSERT INTO accommodations] adds; the columns it does
    not name take their defaults. *)
Definition new_row (new_id : Z) (now : datetime) (acc_hash : string)
    (accommodation : Accommodation) : AccommodationRow :=
  {| acc_id := new_id; acc_title := title accommodation;
     acc_price := price accommodation;
     acc_currency := currency accommodation;
     acc_rating := rating accommodation;
     acc_location := location accommodation;
     acc_url := url accommodation;
     acc_image_url := image_url accommodation;
     acc_description := description accommodation;
     acc_amenities := amenities accommodation;
     acc_platform := platform accommodation;
     first_seen := now; last_seen := now; times_seen := 1;
     accommodation_hash := acc_hash; is_notified := false |}.

(** [save_accommodation].  The database in the world is the committed
    one, which is what any other connection sees.

    For a stored item the connection of [save_accommodation] has only
    read when [save_price_history] is called, and its [UPDATE] comes
    after.  For an item that is not stored the [INSERT] has been executed
    and not committed when [save_price_history] is called: that call
    raises, the exception leaves the [with] block, and the block rolls
    the [INSERT] back. *)
Definition save_accommodation (accommodation : Accommodation) : M (Attempt Z) :=
  let acc_hash := _create_accommodation_hash accommodation in
  d <- get_database ;;
  match select_by_hash acc_hash d with
  | Some existing =>
      let accommodation_id := acc_id existing in
      (if negb (Qeq_bool (acc_price existing) (price accommodation))
          || negb (acc_currency existing =? currency accommodation)
       then save_price_history false accommodation_id
              (price accommodation) (currency accommodation)
       else ret (Done tt)) ;;?
      now <- CURRENT_TIMESTAMP ;;
      d1 <- get_database ;;
      put_database
        (with_accommodations
           (map (update_seen now accommodation accommodation_id) (accommodations d1))
           (seq_accommodations d1) d1) ;;;
      ret (Done accommodation_id)
  | None =>
      now <- CURRENT_TIMESTAMP ;;
      let accommodation_id := seq_accommodations d + 1 in
      let inserted := new_row accommodation_id now acc_hash accommodation in
      save_price_history true accommodation_id
        (price accommodation) (currency accommodation) ;;?
      d1 <- get_database ;;
      put_database
        (with_accommodations (accommodations d1 ++ [inserted])%list accommodation_id d1) ;;;
      ret (Done accommodation_id)
  end.

(** [save_search_record]. *)
Definition save_search_record (criteria : SearchCriteria) (results_count : Z)
    (execution_time_ms : Z) : M Z :=
  let criteria_hash := _create_criteria_hash criteria in
  let criteria_json := json_dumps rt false (asdict criteria) in
  now <- CURRENT_TIMESTAMP ;;
  d <- get_database ;;
  let new_id := seq_searches d + 1 in
  put_database
    {| accommodations := accommodations d;
       price_history := price_history d;
       searches :=
         (searches d ++
          [{| search_id := new_id; search_timestamp := now;
              criteria_hash := criteria_hash;
              results_count := results_count;
              criteria_json := criteria_json;
              execution_time_ms := execution_time_ms |}])%list;
       notifications := notifications d;
       seq_accommodations := seq_accommodations d;
       seq_price_history := seq_price_history d;
       seq_searches := new_id;
       seq_notifications := seq_notifications d |} ;;;
  ret new_id.

Definition _row_to_accommodation (row : AccommodationRow) : Accommodation :=
  {| title := acc_title row; price := acc_price row;
     currency := acc_currency row; rating := acc_rating row;
     location := acc_location row; url := acc_url row;
     image_url := acc_image_url row; description := acc_description row;
     amenities := acc_amenities row; platform := acc_platform row |}.

(** The [WHERE first_seen >= ? AND is_notified = FALSE] of
    [get_new_accommodations]. *)
Definition is_new (cutoff_time : datetime) (r : AccommodationRow) : bool :=
  (cutoff_time <=? first_seen r)%Z && negb (is_notified r).

(** [ORDER BY first_seen DESC]. *)
Definition newer_first (y x : AccommodationRow) : bool :=
  (first_seen x <? first_seen y)%Z.

(** [get_new_accommodations]. *)
Definition get_new_accommodations (hours_back : Z) : M (list Accommodation) :=
  now <- datetime_now ;;
  let cutoff_time := now - timedelta 0 hours_back 0 in
  d <- get_database ;;
  ret (map _row_to_accommodation
         (sort_by newer_first (filter (is_new cutoff_time) (accommodations d)))).

(** A row of the [price_changes] table expression of [get_price_drops];
    the percentage is [NULL] when the division is by zero. *)
Record PriceChange : Type := {
  pc_id : Z;
  pc_title : string;
  pc_location : string;
  pc_platform : string;
  current_price : Q;
  pc_currency : string;
  previous_price : Q;
  current_time : datetime;
  previous_time : datetime;
  price_drop_percentage : option Q
}.

(** SQL division of two [REAL]s. *)
Definition sql_div (x y : Q) : option Q :=
  if Qeq_bool y 0 then None else Some (x / y)%Q.

(** [((ph2.price - ph1.price) / ph2.price * 100)]. *)
Definition drop_percentage (ph1 ph2 : PriceHistoryRow) : option Q :=
  match sql_div (ph_price ph2 - ph_price ph1)%Q (ph_price ph2) with
  | Some q => Some (q * 100)%Q
  | None => None
  end.

(** The [JOIN ... ON] and [WHERE] conditions of [price_changes]; [now]
    is [datetime('now')]. *)
Definition joined (now : datetime) (a : AccommodationRow) (ph1 ph2 : PriceHistoryRow) : bool :=
  (acc_id a =? accommodation_id ph1)%Z &&
  (acc_id a =? accommodation_id ph2)%Z &&
  (ph_timestamp ph2 <? ph_timestamp ph1)%Z &&
  (now - timedelta 7 0 0 <=? ph_timestamp ph1)%Z &&
  (now - timedelta 14 0 0 <=? ph_timestamp ph2)%Z.

Definition price_change (a : AccommodationRow) (ph1 ph2 : PriceHistoryRow) : PriceChange :=
  {| pc_id := acc_id a; pc_title := acc_title a;
     pc_location := acc_location a; pc_platform := acc_platform a;
     current_price := ph_price ph1; pc_currency := ph_currency ph1;
     previous_price := ph_price ph2;
     current_time := ph_timestamp ph1; previous_time := ph_timestamp ph2;
     price_drop_percentage := drop_percentage ph1 ph2 |}.

Definition price_changes (now : datetime) (d : Database) : list PriceChange :=
  flat_map (fun a =>
    flat_map (fun ph1 =>
      flat_map (fun ph2 =>
        if joined now a ph1 ph2 then [price_change a ph1 ph2] else [])
      (price_history d))
    (price_history d))
  (accommodations d).

(** [WHERE price_drop_percentage >= ?]; a [NULL] percentage fails it. *)
Definition meets (percentage_threshold : Q) (c : PriceChange) : bool :=
  match price_drop_percentage c with
  | Some p => Qle_bool percentage_threshold p
  | None => false
  end.

(** [ORDER BY price_drop_percentage DESC]; [NULL] sorts below every
    number. *)
Definition larger_drop_first (y x : PriceChange) : bool :=
  match price_drop_percentage y, price_drop_percentage x with
  | Some py, Some px => Qlt_bool px py
  | Some _, None => true
  | None, _ => false
  end.

(** [get_price_drops]. *)
Definition get_price_drops (percentage_threshold : Q) : M (list PriceChange) :=
  now <- CURRENT_TIMESTAMP ;;
  d <- get_database ;;
  ret (sort_by larger_drop_first
         (filter (meets percentage_threshold) (price_changes now d))).

Definition set_notified (accommodation_ids : list Z) (r : AccommodationRow)
  : AccommodationRow :=
  if existsb (Z.eqb (acc_id r)) accommodation_ids then
    {| acc_id := acc_id r; acc_title := acc_title r;
       acc_price := acc_price r; acc_currency := acc_currency r;
       acc_rating := acc_rating r; acc_location := acc_location r;
       acc_url := acc_url r; acc_image_url := acc_image_url r;
       acc_description := acc_description r;
       acc_amenities := acc_amenities r; acc_platform := acc_platform r;
       first_seen := first_seen r; last_seen := last_seen r;
       times_seen := times_seen r;
       accommodation_hash := accommodation_hash r;
       is_notified := true |}
  else r.

(** [mark_as_notified]. *)
Definition mark_as_notified (accommodation_ids : list Z) : M unit :=
  match accommodation_ids with
  | [] => ret tt
  | _ =>
      d <- get_database ;;
      put_database
        (with_accommodations
           (map (set_notified accommodation_ids) (accommodations d))
           (seq_accommodations d) d)
  end.

(** [clean_old_data]; table [accommodations] is not touched. *)
Definition clean_old_data (days_to_keep : Z) : M unit :=
  now <- datetime_now ;;
  let cutoff_time := now - timedelta days_to_keep 0 0 in
  d <- get_database ;;
  put_database
    {| accommodations := accommodations d;
       price_history :=
         filter (fun r => (cutoff_time <=? ph_timestamp r)%Z) (price_history d);
       searches :=
         filter (fun r => (cutoff_time <=? search_timestamp r)%Z) (searches d);
       notifications :=
         filter (fun r => (cutoff_time <=? notification_timestamp r)%Z)
           (notifications d);
       seq_accommodations := seq_accommodations d;
       seq_price_history := seq_price_history d;
       seq_searches := seq_searches d;
       seq_notifications := seq_notifications d |}.

End WithRuntime.

(** The price observations of one item, in insertion order. *)
Definition observations (accommodation_id' : Z) (d : Database) : list PriceHistoryRow :=
  filter (fun r => (accommodation_id r =? accommodation_id')%Z) (price_history d).

(** The stored item with a given identity, if any. *)
Definition tracked (acc_hash : string) (d : Database) : option AccommodationRow :=
  find (fun r => accommodation_hash r =? acc_hash) (accommodations d).

(** What the schema and the way rows are added keep true of the tables:
    [id] is a key of [accommodations] and so is [accommodation_hash],
    no key is above its [AUTOINCREMENT] counter, and a price observation
    belongs to an item that has been given its [id]. *)
Record consistent (d : Database) : Prop := {
  ids_unique : NoDup (map acc_id (accommodations d));
  hashes_unique : NoDup (map accommodation_hash (accommodations d));
  ids_bounded : Forall (fun r => acc_id r <= seq_accommodations d) (accommodations d);
  observations_bounded :
    Forall (fun r => accommodation_id r <= seq_accommodations d) (price_history d)
}.

(** The clock never runs backwards. *)
Definition monotone (clock : nat -> Z) : Prop :=
  forall i j : nat, (i <= j)%nat -> clock i <= clock j.

Section MoreWithRuntime.
Variable rt : Runtime.

(** Every row carries the hash of its own title, location and
    platform. *)
Definition hashes_match (d : Database) : Prop :=
  Forall (fun r => accommodation_hash r
                   = _create_accommodation_hash rt (_row_to_accommodation r))
    (accommodations d).

(** [save_notification_record]. *)
Definition save_notification_record (accommodation_ids' : list Z)
    (notification_type' : string) (success' : bool)
    (error_message' : option string) : M unit :=
  now <- CURRENT_TIMESTAMP rt ;;
  d <- get_database ;;
  let new_id := seq_notifications d + 1 in
  put_database
    {| accommodations := accommodations d;
       price_history := price_history d;
       searches := searches d;
       notifications :=
         (notifications d ++
          [{| notification_id := new_id;
              accommodation_ids := accommodation_ids';
              notification_timestamp := now;
              notification_type := notification_type';
              success := success';
              error_message := error_message' |}])%list;
       seq_accommodations := seq_accommodations d;
       seq_price_history := seq_price_history d;
       seq_searches := seq_searches d;
       seq_notifications := new_id |}.

(** [get_accommodation_by_id]. *)
Definition get_accommodation_by_id (accommodation_id' : Z)
  : M (option Accommodation) :=
  d <- get_database ;;
  ret (option_map _row_to_accommodation
         (find (fun r => (acc_id r =? accommodation_id')%Z) (accommodations d))).

(** The dict that [get_search_statistics] returns; the breakdown is a
    dict from platform to count. *)
Record SearchStatistics : Type := {
  total_searches : Z;
  avg_results : Q;
  platform_breakdown : list (string * Z)
}.

(** SQL [AVG] over an integer column: [NULL] when there is no row. *)
Definition sql_avg (l : list Z) : option Q :=
  match l with
  | [] => None
  | _ => Some (Qdiv (inject_Z (fold_right Z.add 0 l))
                    (inject_Z (Z.of_nat (List.length l))))
  end.

(** [result['avg'] or 0]. *)
Definition or_zero (avg : option Q) : Q :=
  match avg with
  | Some q => if Qeq_bool q 0 then 0%Q else q
  | None => 0%Q
  end.

(** SQL [COUNT( * )] of the rows of one platform. *)
Definition count_platform (p : string) (rows : list AccommodationRow) : Z :=
  Z.of_nat (List.length (filter (fun r => acc_platform r =? p) rows)).

(** [SELECT a.platform, COUNT( * ) ... GROUP BY a.platform ORDER BY count DESC]. *)
Definition group_by_platform (rows : list AccommodationRow) : list (string * Z) :=
  sort_by (fun y x => (snd x <? snd y)%Z)
    (map (fun p => (p, count_platform p rows))
       (nodup string_dec (map acc_platform rows))).

(** [get_search_statistics]. *)
Definition get_search_statistics (days_back : Z) : M SearchStatistics :=
  now <- datetime_now rt ;;
  let cutoff_time := now - timedelta days_back 0 0 in
  d <- get_database ;;
  let recent := filter (fun r => (cutoff_time <=? search_timestamp r)%Z) (searches d) in
  ret {| total_searches := Z.of_nat (List.length recent);
         avg_results := or_zero (sql_avg (map results_count recent));
         platform_breakdown :=
           group_by_platform
             (filter (fun r => (cutoff_time <=? first_seen r)%Z) (accommodations d)) |}.

End MoreWithRuntime.

End Store.

(** ** filter.py *)

Module Filter.
Import Store Text Ordering.

(** The [exchange_rates] table of [_convert_currency]. *)
Definition exchange_rate (from_currency to_currency : string) : option Q :=
  if (from_currency =? "EUR") && (to_currency =? "RON") then Some (498 # 100)
  else if (from_currency =? "USD") && (to_currency =? "RON") then Some (452 # 100)
  else if (from_currency =? "RON") && (to_currency =? "EUR") then Some (20 # 100)
  else if (from_currency =? "RON") && (to_currency =? "USD") then Some (22 # 100)
  else if (from_currency =? "USD") && (to_currency =? "EUR") then Some (92 # 100)
  else if (from_currency =? "EUR") && (to_currency =? "USD") then Some (109 # 100)
  else None.

(** [_convert_currency] when one of the two currencies is RON: the
    branch that goes through RON is then out of reach. *)
Definition convert_with_ron (amount : Q) (from_currency to_currency : string) : Q :=
  if from_currency =? to_currency then amount
  else match exchange_rate from_currency to_currency with
       | Some rate => (amount * rate)%Q
       | None => amount
       end.

(** [_convert_currency]; its two inner calls have RON on one side. *)
Definition _convert_currency (amount : Q) (from_currency to_currency : string) : Q :=
  if from_currency =? to_currency then amount
  else match exchange_rate from_currency to_currency with
       | Some rate => (amount * rate)%Q
       | None =>
           if negb (from_currency =? "RON") && negb (to_currency =? "RON")
           then
             let ron_amount := convert_with_ron amount from_currency "RON" in
             convert_with_ron ron_amount "RON" to_currency
           else amount
       end.

Definition with_price (p : Q) (c : string) (a : Accommodation) : Accommodation :=
  {| title := title a; price := p; currency := c; rating := rating a;
     location := location a; url := url a; image_url := image_url a;
     description := description a; amenities := amenities a;
     platform := platform a |}.

(** [filter_by_price]; a kept item has its price and currency replaced
    by the converted ones. *)
Fixpoint filter_by_price (criteria : SearchCriteria) (accommodations : list Accommodation)
  : list Accommodation :=
  match accommodations with
  | [] => []
  | accommodation :: rest =>
      let price_in_target_currency :=
        _convert_currency (price accommodation) (currency accommodation)
          (criteria_currency criteria) in
      if Qle_bool price_in_target_currency (max_price criteria)
      then with_price price_in_target_currency (criteria_currency criteria) accommodation
           :: filter_by_price criteria rest
      else filter_by_price criteria rest
  end.

Definition filter_by_rating (criteria : SearchCriteria) (accommodations : list Accommodation)
  : list Accommodation :=
  filter (fun acc => Qle_bool (min_rating criteria) (rating acc)) accommodations.

Definition duplicate_key (accommodation : Accommodation) : string :=
  strip (lower (title accommodation)) ++ "_" ++ strip (lower (location accommodation)).

Fixpoint unique_from (seen : list string) (accommodations : list Accommodation)
  : list Accommodation :=
  match accommodations with
  | [] => []
  | accommodation :: rest =>
      let key := duplicate_key accommodation in
      if existsb (String.eqb key) seen then unique_from seen rest
      else accommodation :: unique_from (key :: seen) rest
  end.

(** [filter_duplicates]. *)
Definition filter_duplicates (accommodations : list Accommodation) : list Accommodation :=
  unique_from [] accommodations.

(** [sort_accommodations]; [sorted] is stable. *)
Definition sort_accommodations (accommodations : list Accommodation) (sort_by' : string)
  : list Accommodation :=
  if sort_by' =? "price"
  then sort_by (fun y x => Qlt_bool (price y) (price x)) accommodations
  else if sort_by' =? "rating"
  then sort_by (fun y x => Qlt_bool (- rating y) (- rating x)) accommodations
  else if sort_by' =? "title"
  then sort_by (fun y x => String.ltb (lower (title y)) (lower (title x))) accommodations
  else accommodations.

(** [apply_all_filters]. *)
Definition apply_all_filters (criteria : SearchCriteria) (accommodations : list Accommodation)
  : list Accommodation :=
  let filtered := filter_by_price criteria accommodations in
  let filtered := filter_by_rating criteria filtered in
  let filtered := filter_duplicates filtered in
  sort_accommodations filtered "price".

(** [PriceAlert]. *)
Record PriceAlert : Type := { target_price : Q; alert_currency : string }.

Definition check_alerts (alert : PriceAlert) (accommodations : list Accommodation)
  : list Accommodation :=
  filter (fun accommodation =>
            (currency accommodation =? alert_currency alert) &&
            Qle_bool (price accommodation) (target_price alert))
         accommodations.

End Filter.

(** ** email_notifier.py *)

Module Notifier.
Import Store.

(** [config.EmailConfig]; the three addresses may be [None]. *)
Record EmailConfig : Type := {
  smtp_server : string;
  smtp_port : Z;
  email : option string;
  password : option string;
  recipient : option string
}.

(** How the exchange with the mail server, from building the message to
    [send_message], ends. *)
Inductive SmtpResult : Type :=
| Delivered
| SMTPAuthenticationError
| SMTPRecipientsRefused
| OtherException (message : string).

(** Truth value of an optional string. *)
Definition truthy (s : option string) : bool :=
  match s with
  | Some EmptyString => false
  | Some _ => true
  | None => false
  end.

(** [_send_email]: every error of the exchange is caught and turned
    into [False]. *)
Definition _send_email (config : EmailConfig) (smtp : SmtpResult) : bool :=
  if negb (truthy (email config) && truthy (password config) && truthy (recipient config))
  then false
  else match smtp with
       | Delivered => true
       | SMTPAuthenticationError => false
       | SMTPRecipientsRefused => false
       | OtherException _ => false
       end.

Definition send_accommodation_alert (config : EmailConfig)
    (accommodations : list Accommodation) (smtp : SmtpResult) : bool :=
  match accommodations with
  | [] => true
  | _ => _send_email config smtp
  end.

Definition send_price_alert (config : EmailConfig)
    (accommodations : list Accommodation) (target_price : Q) (smtp : SmtpResult) : bool :=
  match accommodations with
  | [] => true
  | _ => _send_email config smtp
  end.

Section WithRuntime.
Variable rt : Runtime.

Definition acc_key (acc : Accommodation) : string :=
  title acc ++ "_" ++ location acc ++ "_" ++ format_float rt (price acc).

(** The loop of [should_send_notification]: the keys not sent yet are
    added to the set, and counted. *)
Fixpoint collect_new (sent : list string) (accommodations : list Accommodation)
  : list Accommodation * list string :=
  match accommodations with
  | [] => ([], sent)
  | acc :: rest =>
      if existsb (String.eqb (acc_key acc)) sent
      then collect_new sent rest
      else let '(new_accommodations, sent') := collect_new (acc_key acc :: sent) rest in
           (acc :: new_accommodations, sent')
  end.

Definition should_send_notification (accommodations : list Accommodation) : M bool :=
  match accommodations with
  | [] => ret false
  | _ =>
      fun w =>
        let found := collect_new (sent_accommodations w) accommodations in
        (negb (List.length (fst found) =? 0)%nat,
         {| database := database w; clock_reads := clock_reads w;
            sent_accommodations := snd found |})
  end.

Definition send_if_needed (config : EmailConfig)
    (accommodations : list Accommodation) (smtp : SmtpResult) : M bool :=
  needed <- should_send_notification accommodations ;;
  if needed then ret (send_accommodation_alert config accommodations smtp)
  else ret true.

End WithRuntime.

End Notifier.

(** ** main.py *)

Module Agent.
Import Time Store Filter Notifier.

(** [AccommodationAgent], the parts a search pass uses. *)
Record AccommodationAgent : Type := {
  search_criteria : SearchCriteria;
  email_config : EmailConfig;
  price_alert : PriceAlert
}.

(** [AccommodationAgent.__init__]: the alert price is 80% of the ceiling,
    in RON. *)
Definition new_agent (criteria : SearchCriteria) (config : EmailConfig)
  : AccommodationAgent :=
  {| search_criteria := criteria; email_config := config;
     price_alert := {| target_price := (max_price criteria * (8 # 10))%Q;
                       alert_currency := "RON" |} |}.

Section WithRuntime.
Variable rt : Runtime.

(** Step 3 of [search_and_process]: the loop stops at the first call
    that raises. *)
Definition save_all (accommodations : list Accommodation) : M (Attempt (list Z)) :=
  try_each (save_accommodation rt) accommodations.

(** Step 5 of [search_and_process]: the new items are mailed, and on
    success saved once more for their ids and marked. *)
Definition notify_new (agent : AccommodationAgent) (smtp : SmtpResult)
  : M (Attempt (list Accommodation)) :=
  new_accommodations <- get_new_accommodations rt 24 ;;
  match new_accommodations with
  | [] => ret (Done new_accommodations)
  | _ =>
      success <- send_if_needed rt (email_config agent) new_accommodations smtp ;;
      (if success
       then notified_ids <-? try_each (save_accommodation rt) new_accommodations ;;
            mark_as_notified notified_ids ;;;
            ret (Done tt)
       else ret (Done tt)) ;;?
      ret (Done new_accommodations)
  end.

(** Step 7 of [search_and_process]; [int((time.time() - start_time) * 1000)]. *)
Definition record_search (agent : AccommodationAgent) (start_time : datetime)
    (filtered_accommodations : list Accommodation) : M Z :=
  end_time <- datetime_now rt ;;
  let execution_time := Z.quot (end_time - start_time) 1000 in
  save_search_record rt (search_criteria agent)
    (Z.of_nat (List.length filtered_accommodations)) execution_time.

(** Steps 3 to 7 of [search_and_process], inside its [try]. *)
Definition process (agent : AccommodationAgent) (start_time : datetime)
    (filtered_accommodations : list Accommodation)
    (smtp_new smtp_alert : SmtpResult) : M (Attempt (list Accommodation)) :=
  save_all filtered_accommodations ;;?
  let price_alerts := check_alerts (price_alert agent) filtered_accommodations in
  notify_new agent smtp_new ;;?
  let _ := send_price_alert (email_config agent) price_alerts
             (target_price (price_alert agent)) smtp_alert in
  record_search agent start_time filtered_accommodations ;;;
  ret (Done filtered_accommodations).

(** [search_and_process].  [raw_accommodations] is what
    [search_all_platforms] returns, [smtp_new] and [smtp_alert] are how
    the two mail exchanges end if they take place.  One [try] spans the
    pass: [except Exception] logs the error and returns [[]]. *)
Definition search_and_process (agent : AccommodationAgent)
    (raw_accommodations : list Accommodation)
    (smtp_new smtp_alert : SmtpResult) : M (list Accommodation) :=
  start_time <- datetime_now rt ;;
  match raw_accommodations with
  | [] => ret []
  | _ =>
      let filtered_accommodations :=
        apply_all_filters (search_criteria agent) raw_accommodations in
      match filtered_accommodations with
      | [] => ret []
      | _ =>
          attempt <- process agent start_time filtered_accommodations
                       smtp_new smtp_alert ;;
          match attempt with
          | Done result => ret result
          | Failed _ => ret []
          end
      end
  end.

(** The loop of [run_price_alerts] that turns reports into
    accommodations. *)
Definition alerted (price_drops : list PriceChange) : M (list Accommodation) :=
  found <- for_each (fun drop => get_accommodation_by_id (pc_id drop)) price_drops ;;
  ret (flat_map (fun acc => match acc with Some a => [a] | None => [] end) found).

(** [run_price_alerts]; the result is the list handed to
    [send_price_alert], [None] when it is not called. *)
Definition run_price_alerts (agent : AccommodationAgent) (smtp : SmtpResult)
  : M (option (list Accommodation)) :=
  price_drops <- get_price_drops rt 10 ;;
  match price_drops with
  | [] => ret None
  | _ =>
      accommodations <- alerted price_drops ;;
      match accommodations with
      | [] => ret None
      | _ =>
          let _ := send_price_alert (email_config agent) accommodations
                     (target_price (price_alert agent)) smtp in
          ret (Some accommodations)
      end
  end.

(** [cleanup_database], after the backup copy. *)
Definition cleanup_database : M unit := clean_old_data rt 30.

End WithRuntime.

End Agent.

(** ** scraper.py, the part that [search_and_process] calls *)

Module Scraper.
Import Store.

(** How [scraper.search_accommodations(criteria)] ends on one platform. *)
Inductive ScrapeOutcome : Type :=
| Scraped (accommodations : list Accommodation)
| ScrapeRaised (message : string).

(** The keys of [ScraperFactory.scrapers]. *)
Definition get_supported_platforms : list string := ["booking"].

(** [ScraperFactory.create_scraper(platform)] followed by
    [search_accommodations]: a platform without a scraper raises
    [ValueError]. *)
Definition search_on (scrape : string -> ScrapeOutcome) (platform : string)
  : ScrapeOutcome :=
  if existsb (String.eqb platform) get_supported_platforms
  then scrape platform
  else ScrapeRaised "ValueError".

(** The loop of [search_all_platforms]: what a platform raises is
    printed and the loop goes on. *)
Fixpoint search_each (scrape : string -> ScrapeOutcome) (platforms : list string)
  : list Accommodation :=
  match platforms with
  | [] => []
  | platform :: rest =>
      match search_on scrape platform with
      | Scraped accommodations => (accommodations ++ search_each scrape rest)%list
      | ScrapeRaised _ => search_each scrape rest
      end
  end.

(** [search_all_platforms]. *)
Definition search_all_platforms (scrape : string -> ScrapeOutcome)
    (platforms : option (list string)) : list Accommodation :=
  search_each scrape
    (match platforms with
     | Some given => given
     | None => get_supported_platforms
     end).

End Scraper.

(** ** Sample data *)

Module Samples.
Import Time Scheduler.

(** A function that sleeps 45 seconds, longer than the 30 seconds
    between two turns of the loop. *)
Definition sleeper : Callable :=
  fun started => (Returned, started + 45 * us_per_second).

(** A function that raises after one second. *)
Definition failing : Callable :=
  fun started => (Raised (ExceptionInstance "connection refused"),
                  started + 1 * us_per_second).

Definition a_task (name' : string) (f : Callable) (unit' : string) (value : Z)
  : ScheduledTask :=
  {| name := name'; function := f; interval_type := unit';
     interval_value := value; next_run := 0; last_run := None;
     is_running := false; enabled := true |}.

Definition search_task : ScheduledTask := a_task "accommodation_search" sleeper "hours" 6.

Definition alerts_task : ScheduledTask := a_task "price_alerts" failing "minutes" 30.

Definition weekly_task : ScheduledTask := a_task "weekly_report" sleeper "weeks" 1.

Definition two_tasks : AccommodationScheduler :=
  {| tasks := [alerts_task; search_task]; scheduler_is_running := true |}.

(** The loop visits the search task at 0 s and again at 30 s; the thread
    started first has not reached its guard by then.  Both threads then
    pass the guard before either sets the flag. *)
Definition late_start : list Event :=
  [ LoopVisit 0 0;
    LoopVisit 0 (30 * us_per_second);
    ThreadStep 0 (30 * us_per_second + 1);
    ThreadStep 1 (30 * us_per_second + 2);
    ThreadStep 0 (30 * us_per_second + 3);
    ThreadStep 1 (30 * us_per_second + 4) ].

Definition one_task_system : System :=
  {| shared := [search_task]; threads := [] |}.

(** *** The store *)

Definition show_Z (z : Z) : string := NilZero.string_of_int (Z.to_int z).

(** A float written with one decimal. *)
Definition one_decimal (q : Q) : string :=
  show_Z (Qfloor q) ++ "." ++ show_Z (Qfloor (q * 10) mod 10).

(** A runtime for the samples: the digest of a text is the text, JSON
    is not written out. *)
Definition runtime (clock' : nat -> Z) : Store.Runtime :=
  {| Store.md5_hexdigest := fun s => s;
     Store.clock := clock';
     Store.json_dumps := fun _ _ => "{}";
     Store.format_float := one_decimal |}.

(** 14 November 2023, 22:13:20 UTC. *)
Definition t0 : Z := 1700000000 * us_per_second.

(** Each reading of the clock is a millisecond after the one before. *)
Definition fast_clock (n : nat) : Z := t0 + Z.of_nat n * 1000.

(** The clock is read twice a day. *)
Definition daily_clock (n : nat) : Z :=
  t0 + Z.of_nat (n / 2) * timedelta 1 0 0.

Definition fresh : Store.World :=
  {| Store.database := Store.empty_database; Store.clock_reads := 0;
     Store.sent_accommodations := [] |}.

Definition hotel (p : Q) : Store.Accommodation :=
  {| Store.title := "Hotel X "; Store.price := p; Store.currency := "RON";
     Store.rating := 85 # 10; Store.location := "Brasov";
     Store.url := "https://example.org/hotel-x";
     Store.image_url := None; Store.description := None;
     Store.amenities := ["wifi"]; Store.platform := "booking" |}.

(** The same hotel as a second source lists it. *)
Definition hotel_again : Store.Accommodation :=
  {| Store.title := "hotel x"; Store.price := 100; Store.currency := "RON";
     Store.rating := 85 # 10; Store.location := " brasov";
     Store.url := "https://example.org/hotel-x?ref=2";
     Store.image_url := None; Store.description := None;
     Store.amenities := []; Store.platform := "booking" |}.

Definition flat : Store.Accommodation :=
  {| Store.title := "Studio Central"; Store.price := 250; Store.currency := "RON";
     Store.rating := 9; Store.location := "Sibiu";
     Store.url := "https://example.org/studio";
     Store.image_url := None; Store.description := Some "Old town";
     Store.amenities := []; Store.platform := "booking" |}.

Definition criteria : Store.SearchCriteria :=
  {| Store.destination := "Romania"; Store.check_in := t0; Store.check_out := t0;
     Store.guests := 2; Store.max_price := 500; Store.criteria_currency := "RON";
     Store.property_types := ["hotel"; "apartment"]; Store.min_rating := 7 |}.

Definition mailbox : Notifier.EmailConfig :=
  {| Notifier.smtp_server := "smtp.example.org"; Notifier.smtp_port := 587;
     Notifier.email := Some "agent@example.org";
     Notifier.password := Some "app-password";
     Notifier.recipient := Some "me@example.org" |}.

Definition agent : Agent.AccommodationAgent := Agent.new_agent criteria mailbox.

(** The hotel as a page with stray blanks and capitals lists it. *)
Definition hotel_shouting : Store.Accommodation :=
  {| Store.title := "  HOTEL X "; Store.price := 130; Store.currency := "EUR";
     Store.rating := 6; Store.location := "BRASOV  ";
     Store.url := "https://example.org/HOTEL-X";
     Store.image_url := Some "https://example.org/x.png";
     Store.description := None;
     Store.amenities := ["parking"]; Store.platform := "booking" |}.

(** What the sources return in the end-to-end scenario. *)
Definition fetched : list Store.Accommodation := [hotel 100; hotel_again; flat].

(** The rows of the hotel and of the flat as an [INSERT] at [t0] writes
    them: seen once, not notified. *)
Definition hotel_row : Store.AccommodationRow :=
  Store.new_row 1 t0
    (Store._create_accommodation_hash (runtime fast_clock) (hotel 100)) (hotel 100).

Definition flat_row : Store.AccommodationRow :=
  Store.new_row 2 t0
    (Store._create_accommodation_hash (runtime fast_clock) flat) flat.

(** The first price observation of a row. *)
Definition first_observation (row : Store.AccommodationRow) : Store.PriceHistoryRow :=
  {| Store.ph_id := Store.acc_id row; Store.accommodation_id := Store.acc_id row;
     Store.ph_price := Store.acc_price row; Store.ph_currency := Store.acc_currency row;
     Store.ph_timestamp := Store.first_seen row |}.

(** A store that was given these rows, each with its first price
    observation, by other means than [save_accommodation]; the clock
    has been read [reads] times. *)
Definition stored (rows : list Store.AccommodationRow) (reads : nat) : Store.World :=
  {| Store.database :=
       {| Store.accommodations := rows;
          Store.price_history := map first_observation rows;
          Store.searches := []; Store.notifications := [];
          Store.seq_accommodations := Z.of_nat (List.length rows);
          Store.seq_price_history := Z.of_nat (List.length rows);
          Store.seq_searches := 0; Store.seq_notifications := 0 |};
     Store.clock_reads := reads;
     Store.sent_accommodations := [] |}.

(** The hotel is stored at 100 RON. *)
Definition seen_at_100 : Store.World := stored [hotel_row] 2.

(** The hotel, stored at 100 RON, is seen at 80 and at 60 RON on the
    next two days. *)
Definition falling : Store.World :=
  snd (Store.for_each (Store.save_accommodation (runtime daily_clock))
         [hotel 80; hotel 60] seen_at_100).

(** The hotel, stored at 100 RON, is seen at 80 and at 60 RON within one
    second. *)
Definition quick : Store.World :=
  snd (Store.for_each (Store.save_accommodation (runtime fast_clock))
         [hotel 80; hotel 60] seen_at_100).

(** The hotel and the flat are stored. *)
Definition both_stored : Store.World := stored [hotel_row; flat_row] 5.

(** Two passes of [search_and_process] on what was fetched, mail
    delivered, from the empty store. *)
Definition first_pass : Store.World :=
  snd (Agent.search_and_process (runtime fast_clock) agent fetched
         Notifier.Delivered Notifier.Delivered fresh).

Definition second_pass : Store.World :=
  snd (Agent.search_and_process (runtime fast_clock) agent fetched
         Notifier.Delivered Notifier.Delivered first_pass).

(** *** More samples *)

(** The four tasks are built one microsecond after the other. *)
Definition built_at (k : nat) : Z := t0 + Z.of_nat k.

(** The standing search a month later. *)
Definition criteria_next_month : Store.SearchCriteria :=
  {| Store.destination := "Romania";
     Store.check_in := t0 + timedelta 30 0 0;
     Store.check_out := t0 + timedelta 32 0 0;
     Store.guests := 2; Store.max_price := 500; Store.criteria_currency := "RON";
     Store.property_types := ["hotel"; "apartment"]; Store.min_rating := 7 |}.

(** The standing search with a ceiling in euros. *)
Definition criteria_in_euros : Store.SearchCriteria :=
  {| Store.destination := "Romania"; Store.check_in := t0; Store.check_out := t0;
     Store.guests := 2; Store.max_price := 100; Store.criteria_currency := "EUR";
     Store.property_types := ["hotel"; "apartment"]; Store.min_rating := 7 |}.

(** One pass on what was fetched, mail delivered, when both items are
    stored. *)
Definition pass_on_stored : Store.World :=
  snd (Agent.search_and_process (runtime fast_clock) agent fetched
         Notifier.Delivered Notifier.Delivered both_stored).

(** Step 5 of a pass when both items are stored and the mail is
    refused. *)
Definition after_failed_mail : Store.World :=
  snd (Agent.notify_new (runtime fast_clock) agent
         Notifier.SMTPAuthenticationError both_stored).

End Samples.

(** * Properties *)

Module TimeFacts.
Import Time.


End TimeFacts.

(** ** The scheduler *)

Module SchedulerFacts.
Import Time Scheduler.

Lemma nth_error_replace_nth_same {A : Type} (l : list A) (i : nat) (x y : A) :
  nth_error l i = Some y -> nth_error (replace_nth i x l) i = Some x.
Proof.
  revert i; induction l as [|z l IH]; intros [|i] H; simpl in *;
    try discriminate; auto.
Qed.

Lemma nth_error_replace_nth_other {A : Type} (l : list A) (i j : nat) (x : A) :
  j <> i -> nth_error (replace_nth i x l) j = nth_error l j.
Proof.
  revert i j; induction l as [|z l IH]; intros [|i] [|j] H; simpl;
    try reflexivity; try congruence.
  apply IH. congruence.
Qed.

Lemma due_from_spec (now : datetime) (ts : list ScheduledTask) (k j : nat) :
  In j (due_from k now ts) <->
  (k <= j)%nat /\ exists t, nth_error ts (j - k) = Some t /\ due now t = true.
Proof.
  revert k; induction ts as [|t ts IH]; intro k; simpl.
  - split; [tauto|]. intros [_ [t [H _]]]. destruct (j - k)%nat; discriminate.
  - destruct (due now t) eqn:Hd; simpl; rewrite IH; split.
    + intros [<- | [Hle [u [Hn Hu]]]].
      * split; [lia|]. exists t. rewrite Nat.sub_diag. auto.
      * split; [lia|]. exists u. replace (j - k)%nat with (S (j - S k)) by lia. auto.
    + intros [Hle [u [Hn Hu]]].
      destruct (Nat.eq_dec k j) as [->|Hne]; [now left|right].
      split; [lia|]. exists u.
      replace (j - k)%nat with (S (j - S k)) in Hn by lia. auto.
    + intros [Hle [u [Hn Hu]]]. split; [lia|]. exists u.
      replace (j - k)%nat with (S (j - S k)) by lia. auto.
    + intros [Hle [u [Hn Hu]]].
      destruct (Nat.eq_dec k j) as [->|Hne].
      * rewrite Nat.sub_diag in Hn. simpl in Hn. congruence.
      * split; [lia|]. exists u.
        replace (j - k)%nat with (S (j - S k)) in Hn by lia. auto.
Qed.

(** A turn of the loop starts a thread for exactly the tasks that are
    enabled, idle and due. *)
Lemma dispatched_spec (s : AccommodationScheduler) (now : datetime) (j : nat) :
  scheduler_is_running s = true ->
  (In j (dispatched s now) <->
   exists t, nth_error (tasks s) j = Some t /\ due now t = true).
Proof.
  intro Hr. unfold dispatched. rewrite Hr, due_from_spec, Nat.sub_0_r.
  split; [tauto|]. intro H; split; [lia|exact H].
Qed.

(** The loop starts no thread for a task whose flag is set. *)
Lemma loop_visit_skips_running (sys : System) (i : nat) (now : datetime) (t : ScheduledTask) :
  nth_error (shared sys) i = Some t -> is_running t = true ->
  fire sys (LoopVisit i now) = sys.
Proof.
  intros Hn Hr. simpl. rewrite Hn. unfold due. rewrite Hr.
  now rewrite andb_false_r.
Qed.

Lemma run_task_runs (task : ScheduledTask) (now finished : datetime) (o : Outcome) :
  enabled task = true -> is_running task = false ->
  function task now = (o, finished) ->
  _run_task task now =
    (set_next_run (_calculate_next_run task finished)
       (set_is_running false (set_last_run now (set_is_running true task))),
     except_Exception o).
Proof.
  intros He Hr Hf. unfold _run_task. rewrite He, Hr. simpl.
  rewrite Hf. reflexivity.
Qed.

(** C10: a task whose [interval_type] is none of [minutes], [hours] and
    [days] is not rejected: [_calculate_next_run] gives one hour from
    now, and that is the [next_run] the task has after a run. *)
Theorem unknown_interval_type_means_one_hour
    (task : ScheduledTask) (now : datetime) :
  interval_type task <> "minutes" ->
  interval_type task <> "hours" ->
  interval_type task <> "days" ->
  _calculate_next_run task now = now + 3600 * us_per_second /\
  (enabled task = true -> is_running task = false ->
   next_run (fst (_run_task task now))
   = snd (function task now) + 3600 * us_per_second).
Proof.
  intros Hm Hh Hd.
  assert (Hcalc : forall t n, interval_type t = interval_type task ->
            _calculate_next_run t n = n + 3600 * us_per_second).
  { intros t n E. unfold _calculate_next_run. rewrite E.
    apply String.eqb_neq in Hm, Hh, Hd. rewrite Hm, Hh, Hd.
    unfold timedelta. lia. }
  split; [apply Hcalc; reflexivity|].
  intros He Hr. destruct (function task now) as [o finished] eqn:Hf.
  rewrite (run_task_runs task now finished o He Hr Hf). simpl.
  apply Hcalc. reflexivity.
Qed.

Lemma unknown_interval_type_means_one_hour_witness :
  _calculate_next_run Samples.weekly_task 0 = 0 + 3600 * us_per_second /\
  (enabled Samples.weekly_task = true -> is_running Samples.weekly_task = false ->
   next_run (fst (_run_task Samples.weekly_task 0))
   = snd (function Samples.weekly_task 0) + 3600 * us_per_second).
Proof.
  apply (unknown_interval_type_means_one_hour Samples.weekly_task 0);
    simpl; discriminate.
Defined.

(** C8: when a run of an enabled, idle task ends, by return or by an
    error, the task is idle again and its [next_run] is the clock at the
    end of the run plus the interval; the [next_run] it had before plays
    no part. *)
Theorem run_reschedules_from_completion
    (task : ScheduledTask) (now finished : datetime) (o : Outcome) :
  enabled task = true -> is_running task = false ->
  function task now = (o, finished) ->
  let task' := fst (_run_task task now) in
  is_running task' = false /\
  last_run task' = Some now /\
  next_run task' = _calculate_next_run task finished /\
  (interval_type task = "minutes" ->
   next_run task' = finished + interval_value task * 60 * us_per_second) /\
  (interval_type task = "hours" ->
   next_run task' = finished + interval_value task * 3600 * us_per_second) /\
  (interval_type task = "days" ->
   next_run task' = finished + interval_value task * 86400 * us_per_second) /\
  (forall scheduled : datetime,
     next_run (fst (_run_task (set_next_run scheduled task) now)) = next_run task').
Proof.
  intros He Hr Hf task'. subst task'.
  rewrite (run_task_runs task now finished o He Hr Hf). simpl.
  repeat split.
  - intro E. unfold _calculate_next_run. simpl. rewrite E. simpl.
    unfold timedelta. lia.
  - intro E. unfold _calculate_next_run. simpl. rewrite E. simpl.
    unfold timedelta. lia.
  - intro E. unfold _calculate_next_run. simpl. rewrite E. simpl.
    unfold timedelta. lia.
  - intro scheduled.
    rewrite (run_task_runs (set_next_run scheduled task) now finished o);
      auto.
Qed.

Lemma run_reschedules_from_completion_witness :
  let task' := fst (_run_task Samples.search_task 7) in
  is_running task' = false /\
  last_run task' = Some 7 /\
  next_run task' = _calculate_next_run Samples.search_task (7 + 45 * us_per_second) /\
  (interval_type Samples.search_task = "minutes" ->
   next_run task' = 7 + 45 * us_per_second
                    + interval_value Samples.search_task * 60 * us_per_second) /\
  (interval_type Samples.search_task = "hours" ->
   next_run task' = 7 + 45 * us_per_second
                    + interval_value Samples.search_task * 3600 * us_per_second) /\
  (interval_type Samples.search_task = "days" ->
   next_run task' = 7 + 45 * us_per_second
                    + interval_value Samples.search_task * 86400 * us_per_second) /\
  (forall scheduled : datetime,
     next_run (fst (_run_task (set_next_run scheduled Samples.search_task) 7))
     = next_run task').
Proof.
  apply (run_reschedules_from_completion Samples.search_task 7
           (7 + 45 * us_per_second) Returned); reflexivity.
Defined.

(** C7: when the function of a task raises, the thread that ran it
    leaves the scheduler running and the other tasks as they were, so
    that each of them is started on the turn of the loop at which it is
    due, and the failing task is idle again; an instance of [Exception]
    does not leave [_run_task]. *)
Theorem failing_task_is_isolated
    (s : AccommodationScheduler) (i : nat) (task : ScheduledTask)
    (now finished : datetime) (e : PyError) :
  nth_error (tasks s) i = Some task ->
  enabled task = true -> is_running task = false ->
  function task now = (Raised e, finished) ->
  let s' := fst (task_thread s i now) in
  let escaped := snd (task_thread s i now) in
  (forall message, e = ExceptionInstance message -> escaped = None) /\
  scheduler_is_running s' = scheduler_is_running s /\
  (exists task', nth_error (tasks s') i = Some task' /\ is_running task' = false) /\
  (forall j other, j <> i -> nth_error (tasks s) j = Some other ->
     nth_error (tasks s') j = Some other) /\
  (forall j other later, j <> i -> nth_error (tasks s) j = Some other ->
     scheduler_is_running s = true -> due later other = true ->
     In j (dispatched s' later)).
Proof.
  intros Hn He Hr Hf s' escaped. subst s' escaped.
  unfold task_thread. rewrite Hn.
  rewrite (run_task_runs task now finished (Raised e) He Hr Hf). simpl.
  split; [intros m ->; reflexivity|].
  split; [reflexivity|].
  split.
  { eexists. split; [eapply nth_error_replace_nth_same; eassumption|reflexivity]. }
  assert (Hother : forall j other, j <> i -> nth_error (tasks s) j = Some other ->
            nth_error (replace_nth i
              (set_next_run (_calculate_next_run task finished)
                 (set_is_running false (set_last_run now (set_is_running true task))))
              (tasks s)) j = Some other).
  { intros j other Hj Ho. rewrite nth_error_replace_nth_other; assumption. }
  split; [exact Hother|].
  intros j other later Hj Ho Hs Hd.
  apply dispatched_spec; [exact Hs|].
  exists other. split; [apply Hother; assumption|exact Hd].
Qed.

Lemma failing_task_is_isolated_witness :
  let s' := fst (task_thread Samples.two_tasks 0 0) in
  let escaped := snd (task_thread Samples.two_tasks 0 0) in
  (forall message, ExceptionInstance "connection refused" = ExceptionInstance message ->
     escaped = None) /\
  scheduler_is_running s' = scheduler_is_running Samples.two_tasks /\
  (exists task', nth_error (tasks s') 0 = Some task' /\ is_running task' = false) /\
  (forall j other, j <> 0%nat -> nth_error (tasks Samples.two_tasks) j = Some other ->
     nth_error (tasks s') j = Some other) /\
  (forall j other later, j <> 0%nat ->
     nth_error (tasks Samples.two_tasks) j = Some other ->
     scheduler_is_running Samples.two_tasks = true -> due later other = true ->
     In j (dispatched s' later)).
Proof.
  apply (failing_task_is_isolated Samples.two_tasks 0 Samples.alerts_task 0
           (0 + 1 * us_per_second) (ExceptionInstance "connection refused"));
    reflexivity.
Defined.

(** C3, on the code: with one task whose function sleeps 45 seconds, the
    loop's visits at 0 s and at 30 s both start a thread when the first
    thread has not yet set the flag, and the two threads are inside the
    function at once. *)
Theorem two_threads_in_one_task :
  executions 0 (run_events Samples.one_task_system Samples.late_start) = 2%nat.
Proof. vm_compute. reflexivity. Qed.

End SchedulerFacts.

(** ** Sorting *)

Module OrderingFacts.
Import Ordering.

Section Sorting.
Context {A : Type} (before : A -> A -> bool).

Lemma insert_by_perm (x : A) (l : list A) :
  Permutation (insert_by before x l) (x :: l).
Proof.
  induction l as [|y l IH]; simpl; [reflexivity|].
  destruct (before y x); [|reflexivity].
  rewrite IH. apply perm_swap.
Qed.

Lemma sort_by_perm (l : list A) : Permutation (sort_by before l) l.
Proof.
  induction l as [|x l IH]; simpl; [reflexivity|].
  rewrite insert_by_perm. now constructor.
Qed.

Lemma sort_by_In (l : list A) (x : A) : In x (sort_by before l) <-> In x l.
Proof.
  split; apply Permutation_in;
    [apply sort_by_perm | symmetry; apply sort_by_perm].
Qed.

Hypothesis before_asym : forall a b, before a b = true -> before b a = false.

(** [a] may stand before [b]: [b] does not go strictly before [a]. *)
Let ordered (a b : A) : Prop := before b a = false.

Lemma insert_by_sorted (x : A) (l : list A) :
  Sorted ordered l -> Sorted ordered (insert_by before x l).
Proof.
  induction 1 as [|y l Hs IH Hd]; simpl.
  - repeat constructor.
  - destruct (before y x) eqn:E.
    + constructor; [exact IH|].
      destruct l as [|z l]; simpl.
      * constructor. apply before_asym, E.
      * destruct (before z x) eqn:E'.
        -- constructor. now inversion Hd.
        -- constructor. apply before_asym, E.
    + constructor; [now constructor|]. constructor. exact E.
Qed.

Lemma sort_by_sorted (l : list A) : Sorted ordered (sort_by before l).
Proof.
  induction l as [|x l IH]; simpl; [constructor|].
  now apply insert_by_sorted.
Qed.

End Sorting.

Lemma Sorted_impl {A : Type} (R R' : A -> A -> Prop) (l : list A) :
  (forall a b, R a b -> R' a b) -> Sorted R l -> Sorted R' l.
Proof.
  intros H. induction 1 as [|x l Hs IH Hd]; constructor; [exact IH|].
  destruct Hd; constructor. now apply H.
Qed.

Lemma Sorted_impl_Forall {A : Type} (P : A -> Prop) (R R' : A -> A -> Prop) (l : list A) :
  (forall a b, P a -> P b -> R a b -> R' a b) ->
  Forall P l -> Sorted R l -> Sorted R' l.
Proof.
  intros H Hall Hs. induction Hs as [|x l Hs IH Hd]; constructor.
  - apply IH. now inversion Hall.
  - destruct Hd as [|y l Hxy]; constructor.
    inversion Hall as [|? ? Px Pl]; subst. inversion Pl; subst. now apply H.
Qed.

Lemma two_members {A : Type} (l : list A) (x y : A) :
  In x l -> In y l -> x <> y -> (2 <= List.length l)%nat.
Proof.
  destruct l as [|a [|b l]]; simpl; try tauto; try lia.
  intros [->|[]] [->|[]]. congruence.
Qed.

Lemma StronglySorted_filter {A : Type} (R : A -> A -> Prop) (f : A -> bool) (l : list A) :
  StronglySorted R l -> StronglySorted R (filter f l).
Proof.
  induction 1 as [|x l Hs IH Hall]; simpl; [constructor|].
  destruct (f x); [|exact IH].
  constructor; [exact IH|].
  rewrite Forall_forall in *. intros y Hy. apply filter_In in Hy. now apply Hall.
Qed.

Lemma StronglySorted_snoc {A : Type} (R : A -> A -> Prop) (l : list A) (x : A) :
  StronglySorted R l -> Forall (fun y => R y x) l -> StronglySorted R (l ++ [x]).
Proof.
  induction 1 as [|y l Hs IH Hall]; intro Hx; simpl.
  - repeat constructor.
  - inversion Hx; subst. constructor; [now apply IH|].
    apply Forall_app. split; [exact Hall|]. now repeat constructor.
Qed.

End OrderingFacts.

(** ** The store *)

Module StoreFacts.
Import Time Text Ordering Store TimeFacts OrderingFacts.

Section WithRuntime.
Variable rt : Runtime.

Lemma run_bind {A B : Type} (m : M A) (k : A -> M B) (w : World) :
  bind m k w = k (fst (m w)) (snd (m w)).
Proof. unfold bind. now destruct (m w). Qed.

Lemma run_bind_try {A B : Type} (m : M (Attempt A)) (k : A -> M (Attempt B))
    (w : World) :
  bind_try m k w
  = match fst (m w) with
    | Done a => k a (snd (m w))
    | Failed e => (Failed e, snd (m w))
    end.
Proof. unfold bind_try, bind. now destruct (m w) as [[a|e] w1]. Qed.

Lemma save_price_history_eq (i : Z) (p : Q) (c : string) (w : World) :
  save_price_history rt false i p c w
  = (Done tt,
     with_database
       (insert_observation (database w) i p c
          (whole_seconds (clock rt (clock_reads w))))
       (tick w)).
Proof. reflexivity. Qed.

Lemma save_price_history_locked (i : Z) (p : Q) (c : string) (w : World) :
  save_price_history rt true i p c w = (Failed database_is_locked, w).
Proof. reflexivity. Qed.

(** The three ways through [save_accommodation]. *)
Lemma save_accommodation_new (a : Accommodation) (w : World) :
  select_by_hash (_create_accommodation_hash rt a) (database w) = None ->
  save_accommodation rt a w = (Failed database_is_locked, tick w).
Proof.
  intros H. unfold save_accommodation, bind_try, bind, get_database.
  rewrite H. reflexivity.
Qed.

Lemma save_accommodation_same (a : Accommodation) (w : World) (e : AccommodationRow) :
  select_by_hash (_create_accommodation_hash rt a) (database w) = Some e ->
  Qeq_bool (acc_price e) (price a) = true ->
  (acc_currency e =? currency a) = true ->
  let d := database w in
  save_accommodation rt a w
  = (Done (acc_id e),
     with_database
       (with_accommodations
          (map (update_seen (whole_seconds (clock rt (clock_reads w))) a (acc_id e))
             (accommodations d))
          (seq_accommodations d) d)
       (tick w)).
Proof.
  intros H Hp Hc d. unfold save_accommodation, bind_try, bind, get_database.
  rewrite H, Hp, Hc. reflexivity.
Qed.

Lemma save_accommodation_changed (a : Accommodation) (w : World) (e : AccommodationRow) :
  select_by_hash (_create_accommodation_hash rt a) (database w) = Some e ->
  negb (Qeq_bool (acc_price e) (price a)) || negb (acc_currency e =? currency a) = true ->
  let d := insert_observation (database w) (acc_id e) (price a) (currency a)
             (whole_seconds (clock rt (clock_reads w))) in
  save_accommodation rt a w
  = (Done (acc_id e),
     with_database
       (with_accommodations
          (map (update_seen (whole_seconds (clock rt (S (clock_reads w)))) a (acc_id e))
             (accommodations d))
          (seq_accommodations d) d)
       (tick (tick w))).
Proof.
  intros H Hd d. unfold save_accommodation, bind_try, bind, get_database.
  rewrite H, Hd. reflexivity.
Qed.

Lemma saved_cases (a : Accommodation) (w : World) :
  let found := select_by_hash (_create_accommodation_hash rt a) (database w) in
  found = None \/
  (exists e, found = Some e /\
     Qeq_bool (acc_price e) (price a) = true /\
     (acc_currency e =? currency a) = true) \/
  (exists e, found = Some e /\
     negb (Qeq_bool (acc_price e) (price a))
     || negb (acc_currency e =? currency a) = true).
Proof.
  intro found. subst found.
  destruct (select_by_hash (_create_accommodation_hash rt a) (database w)) as [e|] eqn:H.
  - destruct (negb (Qeq_bool (acc_price e) (price a))
              || negb (acc_currency e =? currency a)) eqn:Hd.
    + right; right. exists e. auto.
    + apply orb_false_elim in Hd as [Hp Hc].
      apply negb_false_iff in Hp, Hc. right; left. exists e. auto.
  - now left.
Qed.

Lemma find_map_stable {A : Type} (p : A -> bool) (f : A -> A) (l : list A) :
  (forall x, p (f x) = p x) -> find p (map f l) = option_map f (find p l).
Proof.
  intro H. induction l as [|x l IH]; simpl; [reflexivity|].
  rewrite H. destruct (p x); [reflexivity|exact IH].
Qed.

Lemma find_app_none {A : Type} (p : A -> bool) (l : list A) (x : A) :
  find p l = None -> p x = true -> find p (l ++ [x]) = Some x.
Proof.
  intros Hn Hx. induction l as [|y l IH]; simpl in *.
  - now rewrite Hx.
  - destruct (p y); [discriminate|]. now apply IH.
Qed.

Lemma update_seen_hash (now : datetime) (a : Accommodation) (i : Z) (r : AccommodationRow) :
  accommodation_hash (update_seen now a i r) = accommodation_hash r.
Proof. unfold update_seen. destruct (acc_id r =? i)%Z; reflexivity. Qed.

Lemma update_seen_id (now : datetime) (a : Accommodation) (i : Z) (r : AccommodationRow) :
  acc_id (update_seen now a i r) = acc_id r.
Proof. unfold update_seen. destruct (acc_id r =? i)%Z; reflexivity. Qed.

Lemma tracked_after_update (now : datetime) (a : Accommodation) (i seq : Z)
    (h : string) (d : Database) :
  tracked h (with_accommodations (map (update_seen now a i) (accommodations d)) seq d)
  = option_map (update_seen now a i) (tracked h d).
Proof.
  unfold tracked. simpl. apply find_map_stable.
  intro x. now rewrite update_seen_hash.
Qed.

(** A candidate that is not stored is not stored by
    [save_accommodation]: the call raises and the tables are as they
    were. *)
Lemma unstored_is_not_saved (a : Accommodation) (w : World) :
  tracked (_create_accommodation_hash rt a) (database w) = None ->
  fst (save_accommodation rt a w) = Failed database_is_locked /\
  database (snd (save_accommodation rt a w)) = database w /\
  sent_accommodations (snd (save_accommodation rt a w)) = sent_accommodations w.
Proof.
  intro H. rewrite (save_accommodation_new a w H). auto.
Qed.

(** What the store holds for a stored item right after
    [save_accommodation]. *)
Lemma tracked_after_save (a : Accommodation) (w : World) (row0 : AccommodationRow) :
  let h := _create_accommodation_hash rt a in
  let r := save_accommodation rt a w in
  tracked h (database w) = Some row0 ->
  fst r = Done (acc_id row0) /\
  exists row,
    tracked h (database (snd r)) = Some row /\
    acc_id row = acc_id row0 /\
    acc_price row = price a /\
    acc_currency row = currency a /\
    acc_rating row = rating a /\
    times_seen row = times_seen row0 + 1 /\
    is_notified row = is_notified row0.
Proof.
  intros h r Ht. subst r.
  change (tracked h (database w)) with (select_by_hash h (database w)) in Ht.
  destruct (saved_cases a w) as [H | [[e [H [Hp Hc]]] | [e [H Hd]]]];
    fold h in H; rewrite Ht in H; [discriminate| |]; injection H as <-.
  - rewrite (save_accommodation_same a w row0 Ht Hp Hc). cbn [fst snd].
    split; [reflexivity|].
    change (database (with_database ?d _)) with d.
    rewrite tracked_after_update.
    change (tracked h (database w)) with (select_by_hash h (database w)).
    rewrite Ht. cbn [option_map].
    eexists. split; [reflexivity|].
    unfold update_seen. rewrite Z.eqb_refl. cbn. auto 10.
  - rewrite (save_accommodation_changed a w row0 Ht Hd). cbn [fst snd].
    split; [reflexivity|].
    change (database (with_database ?d _)) with d.
    rewrite tracked_after_update.
    change (tracked h (insert_observation (database w) ?i ?p ?c ?t))
      with (select_by_hash h (database w)).
    rewrite Ht. cbn [option_map].
    eexists. split; [reflexivity|].
    unfold update_seen. rewrite Z.eqb_refl. cbn. auto 10.
Qed.

Lemma row_after_save (a : Accommodation) (w : World) (row0 : AccommodationRow) :
  let h := _create_accommodation_hash rt a in
  tracked h (database w) = Some row0 ->
  exists now,
    tracked h (database (snd (save_accommodation rt a w)))
    = Some (update_seen now a (acc_id row0) row0).
Proof.
  intros h Ht.
  change (tracked h (database w)) with (select_by_hash h (database w)) in Ht.
  destruct (saved_cases a w) as [H | [[e [H [Hp Hc]]] | [e [H Hd]]]];
    fold h in H; rewrite Ht in H; [discriminate| |]; injection H as <-.
  - rewrite (save_accommodation_same a w row0 Ht Hp Hc). cbn [snd].
    change (database (with_database ?d _)) with d.
    rewrite tracked_after_update.
    change (tracked h (database w)) with (select_by_hash h (database w)).
    rewrite Ht. eexists. reflexivity.
  - rewrite (save_accommodation_changed a w row0 Ht Hd). cbn [snd].
    change (database (with_database ?d _)) with d.
    rewrite tracked_after_update.
    change (tracked h (insert_observation (database w) ?i ?p ?c ?t))
      with (select_by_hash h (database w)).
    rewrite Ht. eexists. reflexivity.
Qed.

(** [save_accommodation] adds a price observation, at the end of the
    table, exactly for a stored item whose price or currency changed;
    the observation carries the second of the clock reading at which the
    call began. *)
Lemma history_after_save (a : Accommodation) (w : World) :
  let r := save_accommodation rt a w in
  let h := _create_accommodation_hash rt a in
  let grown :=
    match tracked h (database w) with
    | None => false
    | Some e => negb (Qeq_bool (acc_price e) (price a))
                || negb (acc_currency e =? currency a)
    end in
  (grown = false /\
   price_history (database (snd r)) = price_history (database w)) \/
  (grown = true /\
   exists i e,
     tracked h (database w) = Some e /\
     fst r = Done (acc_id e) /\
     price_history (database (snd r))
     = (price_history (database w) ++
        [{| ph_id := i; accommodation_id := acc_id e; ph_price := price a;
            ph_currency := currency a;
            ph_timestamp := whole_seconds (clock rt (clock_reads w)) |}])%list).
Proof.
  intros r h grown. subst r grown.
  change (tracked h (database w)) with (select_by_hash h (database w)).
  destruct (saved_cases a w) as [H | [[e [H [Hp Hc]]] | [e [H Hd]]]];
    fold h in H; rewrite H.
  - left. split; [reflexivity|].
    rewrite (save_accommodation_new a w H). reflexivity.
  - left. rewrite Hp, Hc. split; [reflexivity|].
    rewrite (save_accommodation_same a w e H Hp Hc). reflexivity.
  - right. split; [exact Hd|].
    rewrite (save_accommodation_changed a w e H Hd). cbn.
    eexists. exists e. split; [reflexivity|]. split; reflexivity.
Qed.


Lemma find_none_all {A : Type} (p : A -> bool) (l : list A) (x : A) :
  find p l = None -> In x l -> p x = false.
Proof. intros H Hx. exact (find_none p l H x Hx). Qed.

Lemma map_update_seen_ids (now : datetime) (a : Accommodation) (i : Z)
    (l : list AccommodationRow) :
  map acc_id (map (update_seen now a i) l) = map acc_id l.
Proof.
  rewrite map_map. apply map_ext. intro r. apply update_seen_id.
Qed.

Lemma map_update_seen_hashes (now : datetime) (a : Accommodation) (i : Z)
    (l : list AccommodationRow) :
  map accommodation_hash (map (update_seen now a i) l) = map accommodation_hash l.
Proof.
  rewrite map_map. apply map_ext. intro r. apply update_seen_hash.
Qed.

(** [save_accommodation] changes no hash and no id: the same items are
    stored before and after. *)
Lemma save_keeps_hashes (a : Accommodation) (w : World) :
  map accommodation_hash (accommodations (database (snd (save_accommodation rt a w))))
  = map accommodation_hash (accommodations (database w)).
Proof.
  destruct (saved_cases a w) as [H | [[e [H [Hp Hc]]] | [e [H Hd]]]].
  - now rewrite (save_accommodation_new a w H).
  - rewrite (save_accommodation_same a w e H Hp Hc). cbn.
    apply map_update_seen_hashes.
  - rewrite (save_accommodation_changed a w e H Hd). cbn.
    apply map_update_seen_hashes.
Qed.

Lemma tracked_iff_hash (h : string) (d : Database) :
  tracked h d <> None <-> In h (map accommodation_hash (accommodations d)).
Proof.
  unfold tracked. split.
  - destruct (find _ (accommodations d)) as [r|] eqn:E; [|congruence].
    intros _. apply find_some in E as [Hr E]. apply String.eqb_eq in E.
    rewrite <- E. now apply in_map.
  - intros Hin E. apply in_map_iff in Hin as [r [Hr Hin]].
    pose proof (find_none _ _ E r Hin) as Hf. simpl in Hf.
    rewrite Hr, String.eqb_refl in Hf. discriminate.
Qed.

Lemma consistent_empty : consistent empty_database.
Proof. split; simpl; constructor. Qed.

Lemma consistent_insert_observation (d : Database) (i : Z) (p : Q) (c : string)
    (now : datetime) :
  consistent d -> i <= seq_accommodations d ->
  consistent (insert_observation d i p c now).
Proof.
  intros [H1 H2 H3 H4] Hi. split; simpl; auto.
  apply Forall_app. split; [exact H4|]. now repeat constructor.
Qed.

Lemma consistent_update_seen (d : Database) (now : datetime) (a : Accommodation) (i : Z) :
  consistent d ->
  consistent (with_accommodations (map (update_seen now a i) (accommodations d))
                (seq_accommodations d) d).
Proof.
  intros [H1 H2 H3 H4]. split; simpl; auto.
  - now rewrite map_update_seen_ids.
  - now rewrite map_update_seen_hashes.
  - rewrite Forall_forall in *. intros r Hr. apply in_map_iff in Hr as [r0 [<- Hr0]].
    rewrite update_seen_id. now apply H3.
Qed.

(** [save_accommodation] keeps the tables consistent. *)
Lemma consistent_after_save (a : Accommodation) (w : World) :
  consistent (database w) ->
  consistent (database (snd (save_accommodation rt a w))).
Proof.
  intro Hc.
  destruct (saved_cases a w) as [H | [[e [H [Hp Hcur]]] | [e [H Hd]]]].
  - rewrite (save_accommodation_new a w H). exact Hc.
  - rewrite (save_accommodation_same a w e H Hp Hcur). cbn [snd].
    change (database (with_database ?d _)) with d.
    now apply consistent_update_seen.
  - rewrite (save_accommodation_changed a w e H Hd). cbn [snd].
    change (database (with_database ?d _)) with d.
    apply (consistent_update_seen
             (insert_observation (database w) (acc_id e) (price a) (currency a) _)).
    apply consistent_insert_observation; [exact Hc|].
    apply find_some in H as [Hin _].
    destruct Hc as [_ _ H3 _]. rewrite Forall_forall in H3. now apply H3.
Qed.

Lemma hash_of_same_name (a b : Accommodation) :
  title b = title a -> location b = location a -> platform b = platform a ->
  _create_accommodation_hash rt b = _create_accommodation_hash rt a.
Proof.
  intros Ht Hl Hp. unfold _create_accommodation_hash. now rewrite Ht, Hl, Hp.
Qed.

Lemma update_seen_names (now : datetime) (a : Accommodation) (i : Z)
    (r : AccommodationRow) :
  acc_title (update_seen now a i r) = acc_title r /\
  acc_location (update_seen now a i r) = acc_location r /\
  acc_platform (update_seen now a i r) = acc_platform r.
Proof. unfold update_seen. destruct (acc_id r =? i)%Z; auto. Qed.

Lemma hashes_match_update_seen (d : Database) (now : datetime)
    (a : Accommodation) (i : Z) :
  hashes_match rt d ->
  hashes_match rt (with_accommodations (map (update_seen now a i) (accommodations d))
                     (seq_accommodations d) d).
Proof.
  unfold hashes_match. simpl. intro H.
  rewrite Forall_forall in *. intros r Hr.
  apply in_map_iff in Hr as [r0 [<- Hr0]].
  rewrite update_seen_hash, (H r0 Hr0).
  destruct (update_seen_names now a i r0) as [Ht [Hl Hp]].
  symmetry. apply hash_of_same_name; simpl; assumption.
Qed.

(** [save_accommodation] keeps every row under the hash of its own
    title, location and platform. *)
Lemma hashes_match_after_save (a : Accommodation) (w : World) :
  hashes_match rt (database w) ->
  hashes_match rt (database (snd (save_accommodation rt a w))).
Proof.
  intro Hm.
  destruct (saved_cases a w) as [H | [[e [H [Hp Hc]]] | [e [H Hd]]]].
  - rewrite (save_accommodation_new a w H). exact Hm.
  - rewrite (save_accommodation_same a w e H Hp Hc). cbn [snd].
    change (database (with_database ?d _)) with d.
    now apply hashes_match_update_seen.
  - rewrite (save_accommodation_changed a w e H Hd). cbn [snd].
    change (database (with_database ?d _)) with d.
    apply (hashes_match_update_seen
             (insert_observation (database w) (acc_id e) (price a) (currency a) _)).
    exact Hm.
Qed.

(** C4, on the code.  For a candidate that is not stored,
    [save_accommodation] raises [OperationalError] on the first call and
    on the second, and the tables are as they were: no identity key is
    returned, no [times_seen] is counted, no price observation is
    written.  For a candidate that is stored, both calls return the id
    of its row, each adds 1 to [times_seen], the first adds one price
    observation when the stored price or currency differs from the
    candidate's and none otherwise, and the second adds none. *)
Theorem save_twice (a : Accommodation) (w : World) :
  let h := _create_accommodation_hash rt a in
  let r1 := save_accommodation rt a w in
  let r2 := save_accommodation rt a (snd r1) in
  (tracked h (database w) = None ->
   fst r1 = Failed database_is_locked /\
   fst r2 = Failed database_is_locked /\
   database (snd r1) = database w /\
   database (snd r2) = database w) /\
  (forall row0,
     tracked h (database w) = Some row0 ->
     fst r1 = Done (acc_id row0) /\
     fst r2 = Done (acc_id row0) /\
     (exists row1 row2,
        tracked h (database (snd r1)) = Some row1 /\
        tracked h (database (snd r2)) = Some row2 /\
        acc_id row1 = acc_id row0 /\ acc_id row2 = acc_id row0 /\
        times_seen row1 = times_seen row0 + 1 /\
        times_seen row2 = times_seen row1 + 1) /\
     (price_history (database (snd r1)) = price_history (database w) \/
      exists row,
        price_history (database (snd r1))
        = (price_history (database w) ++ [row])%list) /\
     ((acc_price row0 == price a)%Q -> acc_currency row0 = currency a ->
      price_history (database (snd r1)) = price_history (database w)) /\
     price_history (database (snd r2)) = price_history (database (snd r1))).
Proof.
  intros h r1 r2. split.
  { intro Hnone.
    destruct (unstored_is_not_saved a w Hnone) as [H1 [H2 _]]. fold r1 in H1, H2.
    assert (Hnone1 : tracked (_create_accommodation_hash rt a) (database (snd r1)) = None)
      by (rewrite H2; exact Hnone).
    destruct (unstored_is_not_saved a (snd r1) Hnone1) as [H3 [H4 _]].
    fold r2 in H3, H4. repeat split; auto. congruence. }
  intros row0 Ht.
  destruct (tracked_after_save a w row0 Ht)
    as [Hf1 [row1 [Ht1 [Hid1 [Hp1 [Hc1 [_ [Hts1 _]]]]]]]].
  fold r1 in Hf1, Ht1.
  destruct (tracked_after_save a (snd r1) row1 Ht1)
    as [Hf2 [row2 [Ht2 [Hid2 [_ [_ [_ [Hts2 _]]]]]]]].
  fold r2 in Hf2, Ht2.
  assert (Hp' : Qeq_bool (acc_price row1) (price a) = true).
  { rewrite Hp1. apply Qeq_bool_refl. }
  assert (Hcur' : (acc_currency row1 =? currency a) = true).
  { rewrite Hc1. apply String.eqb_refl. }
  split; [exact Hf1|]. split; [rewrite Hf2; now rewrite Hid1|].
  split.
  { exists row1, row2. repeat split; auto. congruence. }
  split.
  { destruct (history_after_save a w) as [[_ E] | [_ [i [e [_ [_ E]]]]]];
      fold r1 in E; [now left|right; eexists; exact E]. }
  split.
  { intros Hp Hc.
    destruct (history_after_save a w) as [[_ E] | [Hg _]]; [exact E|].
    fold h in Hg. rewrite Ht in Hg.
    apply Qeq_bool_iff in Hp. apply String.eqb_eq in Hc.
    rewrite Hp, Hc in Hg. discriminate. }
  unfold r2.
  rewrite (save_accommodation_same a (snd r1) row1 Ht1 Hp' Hcur'). reflexivity.
Qed.

(** *** The price history is in the order of the clock *)








(** *** New items and the notified flag *)

Lemma get_new_accommodations_eq (hours_back : Z) (w : World) :
  get_new_accommodations rt hours_back w
  = (map _row_to_accommodation
       (sort_by newer_first
          (filter (is_new (clock rt (clock_reads w) - timedelta 0 hours_back 0))
             (accommodations (database w)))),
     tick w).
Proof. reflexivity. Qed.

Lemma is_new_spec (cutoff_time : datetime) (row : AccommodationRow) :
  is_new cutoff_time row = true <->
  cutoff_time <= first_seen row /\ is_notified row = false.
Proof.
  unfold is_new. rewrite andb_true_iff, Z.leb_le, negb_true_iff. tauto.
Qed.

Lemma mark_as_notified_eq (ids : list Z) (w : World) :
  ids <> [] ->
  mark_as_notified ids w
  = (tt, with_database
           (with_accommodations
              (map (set_notified ids) (accommodations (database w)))
              (seq_accommodations (database w)) (database w))
           w).
Proof. destruct ids; [congruence|reflexivity]. Qed.

Lemma set_notified_twice (ids : list Z) (row : AccommodationRow) :
  set_notified ids (set_notified ids row) = set_notified ids row.
Proof.
  unfold set_notified.
  destruct (existsb (Z.eqb (acc_id row)) ids) eqn:E; simpl; rewrite E; reflexivity.
Qed.

Lemma set_notified_marks (ids : list Z) (row : AccommodationRow) :
  In (acc_id row) ids -> is_notified (set_notified ids row) = true.
Proof.
  intro Hin. unfold set_notified.
  replace (existsb (Z.eqb (acc_id row)) ids) with true; [reflexivity|].
  symmetry. apply existsb_exists. exists (acc_id row). split; [exact Hin|apply Z.eqb_refl].
Qed.

Lemma set_notified_others (ids : list Z) (row : AccommodationRow) :
  ~ In (acc_id row) ids -> set_notified ids row = row.
Proof.
  intro Hout. unfold set_notified.
  destruct (existsb (Z.eqb (acc_id row)) ids) eqn:E; [|reflexivity].
  apply existsb_exists in E as [i [Hi E]]. apply Z.eqb_eq in E. now subst.
Qed.

Lemma set_notified_id (ids : list Z) (row : AccommodationRow) :
  acc_id (set_notified ids row) = acc_id row.
Proof.
  unfold set_notified. destruct (existsb (Z.eqb (acc_id row)) ids); reflexivity.
Qed.

Lemma filter_nil_all {A : Type} (f : A -> bool) (l : list A) :
  (forall x, In x l -> f x = false) -> filter f l = [].
Proof.
  induction l as [|x l IH]; intro H; simpl; [reflexivity|].
  rewrite (H x (or_introl eq_refl)). apply IH. intros y Hy. apply H. now right.
Qed.

Lemma row_of_new_row (i : Z) (now : datetime) (h : string) (a : Accommodation) :
  _row_to_accommodation (new_row i now h a) = a.
Proof. destruct a; reflexivity. Qed.

(** C6, on the code.  [get_new_accommodations] returns the stored rows
    whose [first_seen] is not before the cutoff, the clock minus the
    hours, and whose flag is not set, newest first, and leaves the
    tables as they are.  [mark_as_notified] sets the flag of the rows
    whose id it is given and changes nothing else, does nothing on
    [[]], and doing it twice is doing it once; a row it has marked is
    not returned again.  The scenario of the claim does not go through:
    on a store that does not hold [A], the empty one in particular,
    [save_accommodation A] raises and stores nothing, so that
    [get_new_accommodations] returns what it returned before, [[]] on
    the empty store and not [[A]]. *)
Theorem new_until_notified (A : Accommodation) (w : World) :
  (forall (w0 : World) (hours_back : Z),
     let cutoff_time := clock rt (clock_reads w0) - timedelta 0 hours_back 0 in
     let r := get_new_accommodations rt hours_back w0 in
     database (snd r) = database w0 /\
     exists rows,
       fst r = map _row_to_accommodation rows /\
       Permutation rows (filter (is_new cutoff_time) (accommodations (database w0))) /\
       Sorted (fun x y => first_seen y <= first_seen x) rows /\
       (forall row, In row rows <->
          In row (accommodations (database w0)) /\
          cutoff_time <= first_seen row /\ is_notified row = false)) /\
  (tracked (_create_accommodation_hash rt A) (database w) = None ->
   let r1 := save_accommodation rt A w in
   fst r1 = Failed database_is_locked /\
   snd r1 = tick w /\
   (database w = empty_database ->
    forall hours_back, fst (get_new_accommodations rt hours_back (snd r1)) = [])) /\
  (forall w0, mark_as_notified [] w0 = (tt, w0)) /\
  (forall w0 ids,
     snd (mark_as_notified ids (snd (mark_as_notified ids w0)))
     = snd (mark_as_notified ids w0)) /\
  (forall w0 ids,
     let w1 := snd (mark_as_notified ids w0) in
     accommodations (database w1)
     = map (set_notified ids) (accommodations (database w0)) /\
     price_history (database w1) = price_history (database w0) /\
     searches (database w1) = searches (database w0) /\
     notifications (database w1) = notifications (database w0) /\
     (forall row, In row (accommodations (database w0)) ->
        In (acc_id row) ids ->
        is_notified (set_notified ids row) = true /\
        first_seen (set_notified ids row) = first_seen row /\
        _row_to_accommodation (set_notified ids row) = _row_to_accommodation row) /\
     (forall row, In row (accommodations (database w0)) ->
        ~ In (acc_id row) ids -> set_notified ids row = row)) /\
  (forall w0 ids row,
     In row (accommodations (database (snd (mark_as_notified ids w0)))) ->
     In (acc_id row) ids ->
     is_notified row = true /\ forall cutoff_time, is_new cutoff_time row = false) /\
  (forall w0 ids hours_back,
     (forall row, In row (accommodations (database w0)) -> In (acc_id row) ids) ->
     fst (get_new_accommodations rt hours_back (snd (mark_as_notified ids w0))) = []).
Proof.
  split.
  { intros w0 hours_back cutoff_time r. subst r.
    rewrite get_new_accommodations_eq. cbn [fst snd].
    split; [reflexivity|].
    eexists. split; [reflexivity|].
    split; [apply sort_by_perm|].
    split.
    - apply Sorted_impl with (R := fun a b => newer_first b a = false).
      + unfold newer_first. intros a b Hab. apply Z.ltb_ge in Hab. exact Hab.
      + apply sort_by_sorted. unfold newer_first. intros a b Hab.
        apply Z.ltb_lt in Hab. apply Z.ltb_ge. lia.
    - intro row. rewrite sort_by_In, filter_In, is_new_spec. tauto. }
  split.
  { intros Hnone r1. subst r1.
    rewrite (save_accommodation_new A w Hnone). cbn [fst snd].
    split; [reflexivity|]. split; [reflexivity|].
    intros Hempty hours_back. rewrite get_new_accommodations_eq.
    cbn [fst tick database]. rewrite Hempty. reflexivity. }
  split; [reflexivity|].
  split.
  { intros w0 ids. destruct ids as [|i ids]; [reflexivity|].
    rewrite !mark_as_notified_eq by discriminate.
    cbn [snd database accommodations with_database with_accommodations
         seq_accommodations clock_reads sent_accommodations].
    unfold with_database, with_accommodations. cbn.
    rewrite map_map.
    erewrite map_ext; [reflexivity|]. intro row. apply set_notified_twice. }
  split.
  { intros w0 ids w1. subst w1.
    assert (Hrows : accommodations (database (snd (mark_as_notified ids w0)))
                    = map (set_notified ids) (accommodations (database w0))).
    { destruct ids as [|i ids].
      - cbn. symmetry. erewrite map_ext; [apply map_id|].
        intro row. reflexivity.
      - rewrite mark_as_notified_eq by discriminate. reflexivity. }
    split; [exact Hrows|].
    assert (Hrest : forall T (table : Database -> T),
              (forall rows seq d, table (with_accommodations rows seq d) = table d) ->
              table (database (snd (mark_as_notified ids w0))) = table (database w0)).
    { intros T table Htable. destruct ids as [|i ids]; [reflexivity|].
      rewrite mark_as_notified_eq by discriminate. cbn. apply Htable. }
    split; [now apply Hrest|]. split; [now apply Hrest|]. split; [now apply Hrest|].
    split.
    - intros row _ Hin. split; [now apply set_notified_marks|].
      unfold set_notified. destruct (existsb _ ids); split; reflexivity.
    - intros row _ Hout. now apply set_notified_others. }
  assert (Hflag : forall w0 ids row,
            In row (accommodations (database (snd (mark_as_notified ids w0)))) ->
            In (acc_id row) ids -> is_notified row = true).
  { intros w0 ids row Hrow Hin.
    destruct ids as [|i ids]; [contradiction|].
    rewrite mark_as_notified_eq in Hrow by discriminate. cbn in Hrow.
    apply in_map_iff in Hrow as [row0 [<- Hrow0]].
    apply set_notified_marks. now rewrite set_notified_id in Hin. }
  split.
  { intros w0 ids row Hrow Hin. pose proof (Hflag w0 ids row Hrow Hin) as Hf.
    split; [exact Hf|]. intro cutoff_time. unfold is_new. rewrite Hf.
    apply andb_false_r. }
  intros w0 ids hours_back Hall.
  rewrite get_new_accommodations_eq. cbn [fst].
  replace (filter _ _) with (@nil AccommodationRow); [reflexivity|].
  symmetry. apply filter_nil_all. intros row Hrow.
  unfold is_new. rewrite (Hflag w0 ids row Hrow); [apply andb_false_r|].
  destruct ids as [|i ids].
  - cbn in Hrow. now apply Hall.
  - rewrite mark_as_notified_eq in Hrow by discriminate. cbn in Hrow.
    apply in_map_iff in Hrow as [row0 [<- Hrow0]].
    rewrite set_notified_id. now apply Hall.
Qed.

(** *** Price drops *)

Lemma get_price_drops_eq (percentage_threshold : Q) (w : World) :
  get_price_drops rt percentage_threshold w
  = (sort_by larger_drop_first
       (filter (meets percentage_threshold)
          (price_changes (whole_seconds (clock rt (clock_reads w))) (database w))),
     tick w).
Proof. reflexivity. Qed.

Lemma joined_spec (now : datetime) (a : AccommodationRow) (ph1 ph2 : PriceHistoryRow) :
  joined now a ph1 ph2 = true <->
  accommodation_id ph1 = acc_id a /\ accommodation_id ph2 = acc_id a /\
  ph_timestamp ph2 < ph_timestamp ph1 /\
  now - timedelta 7 0 0 <= ph_timestamp ph1 /\
  now - timedelta 14 0 0 <= ph_timestamp ph2.
Proof.
  unfold joined. rewrite !andb_true_iff, !Z.eqb_eq, Z.ltb_lt, !Z.leb_le.
  intuition congruence.
Qed.

Lemma price_changes_In (now : datetime) (d : Database) (c : PriceChange) :
  In c (price_changes now d) <->
  exists a ph1 ph2,
    In a (accommodations d) /\ In ph1 (price_history d) /\ In ph2 (price_history d) /\
    joined now a ph1 ph2 = true /\ c = price_change a ph1 ph2.
Proof.
  unfold price_changes. rewrite in_flat_map. split.
  - intros [a [Ha H]]. apply in_flat_map in H as [ph1 [H1 H]].
    apply in_flat_map in H as [ph2 [H2 H]].
    destruct (joined now a ph1 ph2) eqn:E; [|contradiction].
    destruct H as [<-|[]]. exists a, ph1, ph2. auto.
  - intros [a [ph1 [ph2 [Ha [H1 [H2 [E ->]]]]]]].
    exists a. split; [exact Ha|].
    apply in_flat_map. exists ph1. split; [exact H1|].
    apply in_flat_map. exists ph2. split; [exact H2|].
    rewrite E. now left.
Qed.

Lemma meets_spec (percentage_threshold : Q) (a : AccommodationRow)
    (ph1 ph2 : PriceHistoryRow) :
  meets percentage_threshold (price_change a ph1 ph2) = true <->
  ~ (ph_price ph2 == 0)%Q /\
  (percentage_threshold <= (ph_price ph2 - ph_price ph1) / ph_price ph2 * 100)%Q.
Proof.
  unfold meets, price_change, drop_percentage, sql_div. cbn [price_drop_percentage].
  destruct (Qeq_bool (ph_price ph2) 0) eqn:E.
  - apply Qeq_bool_iff in E. split; [discriminate|tauto].
  - rewrite Qle_bool_iff. split; [|tauto].
    intro H. split; [|exact H].
    intro Hz. apply Qeq_bool_iff in Hz. congruence.
Qed.

Lemma larger_drop_first_asym (a b : PriceChange) :
  larger_drop_first a b = true -> larger_drop_first b a = false.
Proof.
  unfold larger_drop_first, Qlt_bool.
  destruct (price_drop_percentage a) as [pa|], (price_drop_percentage b) as [pb|];
    try reflexivity; try discriminate.
  rewrite negb_true_iff, negb_false_iff, Qle_bool_iff.
  rewrite <- not_true_iff_false, Qle_bool_iff.
  intro H. apply Qlt_le_weak, Qnot_le_lt, H.
Qed.

(** C1, as the code has it: [get_price_drops] returns one report for
    every pair of price observations of one item, a later one from the
    last 7 days and an earlier one from the last 14 days, whose drop
    [(old - new) / old * 100] is defined and at least the threshold, so
    that an item with several such pairs has several reports; the
    reports are in descending order of the drop; and an item with fewer
    than two observations in the last 14 days has none. *)
Theorem price_drops_are_pairs (percentage_threshold : Q) (w : World) :
  let d := database w in
  let now := whole_seconds (clock rt (clock_reads w)) in
  let reports := fst (get_price_drops rt percentage_threshold w) in
  Permutation reports (filter (meets percentage_threshold) (price_changes now d)) /\
  (forall c, In c reports <->
     exists a ph1 ph2,
       In a (accommodations d) /\
       In ph1 (price_history d) /\ In ph2 (price_history d) /\
       accommodation_id ph1 = acc_id a /\ accommodation_id ph2 = acc_id a /\
       ph_timestamp ph2 < ph_timestamp ph1 /\
       now - timedelta 7 0 0 <= ph_timestamp ph1 /\
       now - timedelta 14 0 0 <= ph_timestamp ph2 /\
       ~ (ph_price ph2 == 0)%Q /\
       (percentage_threshold
        <= (ph_price ph2 - ph_price ph1) / ph_price ph2 * 100)%Q /\
       c = price_change a ph1 ph2) /\
  Sorted (fun c1 c2 =>
            match price_drop_percentage c1, price_drop_percentage c2 with
            | Some p1, Some p2 => (p2 <= p1)%Q
            | _, _ => False
            end) reports /\
  (forall i,
     (List.length
        (filter (fun ph => (accommodation_id ph =? i)%Z
                           && (now - timedelta 14 0 0 <=? ph_timestamp ph)%Z)
           (price_history d)) < 2)%nat ->
     forall c, In c reports -> pc_id c <> i).
Proof.
  intros d now reports. subst reports.
  rewrite get_price_drops_eq. cbn [fst]. fold d now.
  assert (Hin : forall c,
    In c (sort_by larger_drop_first
            (filter (meets percentage_threshold) (price_changes now d))) <->
    exists a ph1 ph2,
      In a (accommodations d) /\
      In ph1 (price_history d) /\ In ph2 (price_history d) /\
      accommodation_id ph1 = acc_id a /\ accommodation_id ph2 = acc_id a /\
      ph_timestamp ph2 < ph_timestamp ph1 /\
      now - timedelta 7 0 0 <= ph_timestamp ph1 /\
      now - timedelta 14 0 0 <= ph_timestamp ph2 /\
      ~ (ph_price ph2 == 0)%Q /\
      (percentage_threshold
       <= (ph_price ph2 - ph_price ph1) / ph_price ph2 * 100)%Q /\
      c = price_change a ph1 ph2).
  { intro c. rewrite sort_by_In, filter_In, price_changes_In. split.
    - intros [[a [ph1 [ph2 [Ha [H1 [H2 [Hj ->]]]]]]] Hm].
      apply joined_spec in Hj. apply meets_spec in Hm.
      exists a, ph1, ph2. tauto.
    - intros [a [ph1 [ph2 [Ha [H1 [H2 [E1 [E2 [Hlt [H7 [H14 [Hz [Hthr ->]]]]]]]]]]]]].
      split.
      + exists a, ph1, ph2. repeat split; auto. apply joined_spec. auto.
      + apply meets_spec. auto. }
  split; [apply sort_by_perm|].
  split; [exact Hin|].
  split.
  { apply Sorted_impl_Forall with
      (P := fun c => meets percentage_threshold c = true)
      (R := fun a b => larger_drop_first b a = false).
    - unfold meets, larger_drop_first, Qlt_bool. intros a b Ha Hb Hab.
      destruct (price_drop_percentage a) as [pa|]; [|discriminate].
      destruct (price_drop_percentage b) as [pb|]; [|discriminate].
      apply negb_false_iff in Hab. now apply Qle_bool_iff.
    - apply Forall_forall. intros c Hc.
      apply sort_by_In, filter_In in Hc. tauto.
    - apply sort_by_sorted. exact larger_drop_first_asym. }
  intros i Hfew c Hc Hid.
  apply Hin in Hc
    as [a [ph1 [ph2 [Ha [H1 [H2 [E1 [E2 [Hlt [H7 [H14 [Hz [Hthr ->]]]]]]]]]]]]].
  cbn in Hid.
  assert (H14' : now - timedelta 14 0 0 <= ph_timestamp ph1).
  { unfold timedelta, us_per_second in *. lia. }
  enough (2 <= List.length
            (filter (fun ph => (accommodation_id ph =? i)%Z
                               && (now - timedelta 14 0 0 <=? ph_timestamp ph)%Z)
               (price_history d)))%nat by lia.
  apply two_members with (x := ph1) (y := ph2).
  - apply filter_In. split; [exact H1|].
    apply andb_true_iff. split; [apply Z.eqb_eq; congruence|now apply Z.leb_le].
  - apply filter_In. split; [exact H2|].
    apply andb_true_iff. split; [apply Z.eqb_eq; congruence|now apply Z.leb_le].
  - intros ->. lia.
Qed.

End WithRuntime.

End StoreFacts.

(** ** The search pass *)

Module AgentFacts.
Import Time Store Filter Notifier Agent StoreFacts.

Section WithRuntime.
Variable rt : Runtime.

(** A step that leaves table [searches] alone and does not turn the
    count of clock readings back. *)
Let quiet {A : Type} (m : M A) : Prop :=
  forall w,
    searches (database (snd (m w))) = searches (database w) /\
    (clock_reads w <= clock_reads (snd (m w)))%nat.

Lemma quiet_ret {A : Type} (a : A) : quiet (ret a).
Proof. intro w. simpl. split; [reflexivity|lia]. Qed.

Lemma quiet_bind {A B : Type} (m : M A) (k : A -> M B) :
  quiet m -> (forall a, quiet (k a)) -> quiet (bind m k).
Proof.
  intros Hm Hk w. unfold bind.
  destruct (Hm w) as [E1 L1]. destruct (m w) as [a w1]. simpl in *.
  destruct (Hk a w1) as [E2 L2]. split; [congruence|lia].
Qed.

Lemma quiet_bind_try {A B : Type} (m : M (Attempt A)) (k : A -> M (Attempt B)) :
  quiet m -> (forall a, quiet (k a)) -> quiet (bind_try m k).
Proof.
  intros Hm Hk. unfold bind_try. apply quiet_bind; [exact Hm|].
  intros [a|e]; [apply Hk|apply quiet_ret].
Qed.

Lemma quiet_try_each {A B : Type} (f : A -> M (Attempt B)) (l : list A) :
  (forall a, quiet (f a)) -> quiet (try_each f l).
Proof.
  intro Hf. induction l as [|x l IH]; simpl.
  - apply quiet_ret.
  - apply quiet_bind_try; [apply Hf|]. intro y.
    apply quiet_bind_try; [exact IH|]. intro ys. apply quiet_ret.
Qed.

Lemma quiet_save_accommodation (a : Accommodation) : quiet (save_accommodation rt a).
Proof.
  intro w.
  destruct (saved_cases rt a w) as [H | [[e [H [Hp Hc]]] | [e [H Hd]]]].
  - rewrite (save_accommodation_new rt a w H). cbn. split; [reflexivity|lia].
  - rewrite (save_accommodation_same rt a w e H Hp Hc). cbn. split; [reflexivity|lia].
  - rewrite (save_accommodation_changed rt a w e H Hd). cbn. split; [reflexivity|lia].
Qed.





Lemma send_if_needed_database (config : EmailConfig) (l : list Accommodation)
    (smtp : SmtpResult) (w : World) :
  database (snd (send_if_needed rt config l smtp w)) = database w.
Proof.
  unfold send_if_needed. rewrite run_bind.
  destruct l as [|x l]; [reflexivity|].
  cbn [should_send_notification fst snd].
  destruct (negb _); reflexivity.
Qed.


Lemma unstored_item_stops_the_saving (l : list Accommodation) (w : World) :
  (exists a, In a l /\ tracked (_create_accommodation_hash rt a) (database w) = None) ->
  fst (try_each (save_accommodation rt) l w) = Failed database_is_locked.
Proof.
  revert w. induction l as [|x l IH]; intros w [a [Ha Hnone]]; [contradiction|].
  cbn [try_each]. rewrite run_bind_try.
  destruct (tracked (_create_accommodation_hash rt x) (database w)) as [row0|] eqn:Ex.
  - destruct (tracked_after_save rt x w row0 Ex) as [Hf _]. rewrite Hf.
    rewrite run_bind_try.
    destruct Ha as [<-|Ha]; [congruence|].
    rewrite (IH (snd (save_accommodation rt x w))); [reflexivity|].
    exists a. split; [exact Ha|].
    destruct (tracked (_create_accommodation_hash rt a)
                (database (snd (save_accommodation rt x w)))) eqn:E; [|reflexivity].
    exfalso.
    assert (Hin : tracked (_create_accommodation_hash rt a)
                    (database (snd (save_accommodation rt x w))) <> None)
      by (rewrite E; discriminate).
    apply tracked_iff_hash in Hin. rewrite save_keeps_hashes in Hin.
    apply tracked_iff_hash in Hin. contradiction.
  - destruct (unstored_is_not_saved rt x w Ex) as [Hf _]. now rewrite Hf.
Qed.




(** A pass that finds an item it has not stored ends in the [except]
    branch: it returns [[]] and records no search. *)
Lemma unstored_item_ends_the_pass
    (agent : AccommodationAgent) (raw : list Accommodation)
    (smtp_new smtp_alert : SmtpResult) (w : World) :
  (exists a, In a (apply_all_filters (search_criteria agent) raw) /\
             tracked (_create_accommodation_hash rt a) (database w) = None) ->
  let r := search_and_process rt agent raw smtp_new smtp_alert w in
  fst r = [] /\ searches (database (snd r)) = searches (database w).
Proof.
  intros Hsome r. subst r. unfold search_and_process.
  rewrite run_bind. cbn [datetime_now fst snd].
  destruct raw as [|a0 raw'].
  { destruct Hsome as [a [[] _]]. }
  destruct (apply_all_filters (search_criteria agent) (a0 :: raw')) as [|f0 fs] eqn:Ef.
  { destruct Hsome as [a [[] _]]. }
  rewrite run_bind. unfold process, save_all. rewrite run_bind_try.
  rewrite (unstored_item_stops_the_saving (f0 :: fs) (tick w) Hsome).
  cbn [fst snd ret]. split; [reflexivity|].
  destruct (quiet_try_each (save_accommodation rt) (f0 :: fs)
              quiet_save_accommodation (tick w)) as [E _].
  exact E.
Qed.


End WithRuntime.

End AgentFacts.

(** ** The properties on the samples *)

Module Scenarios.
Import Time Store Filter Notifier Agent Samples StoreFacts AgentFacts.

Lemma fast_clock_monotone : monotone fast_clock.
Proof. intros i j H. unfold fast_clock. lia. Qed.

(** C1, as stated, fails: the hotel was seen at 100, 80 and 60 RON on
    three days in a row, and on the fourth day [get_price_drops 10]
    returns three reports for it, for 40, 25 and 20 per cent; the last
    one compares the observation of the second day, which is not the
    most recent one, with that of the first. *)
Lemma one_item_three_reports :
  let reports := fst (get_price_drops (runtime daily_clock) 10 falling) in
  List.length (accommodations (database falling)) = 1%nat /\
  map pc_id reports = [1; 1; 1] /\
  map (fun c => (current_price c, previous_price c)) reports
  = [(60, 100); (60, 80); (80, 100)]%Q /\
  map (fun c => (current_time c, previous_time c)) reports
  = [ (t0 + 2 * timedelta 1 0 0, t0);
      (t0 + 2 * timedelta 1 0 0, t0 + timedelta 1 0 0);
      (t0 + timedelta 1 0 0, t0) ].
Proof. vm_compute. repeat split; reflexivity. Qed.

(** The stores of the samples are consistent, and their rows are kept
    under the hashes of their own titles, locations and platforms. *)
Lemma stored_hotel_invariants :
  consistent (database seen_at_100) /\
  hashes_match (runtime fast_clock) (database seen_at_100).
Proof.
  split.
  - split; cbn.
    + repeat constructor. intros [].
    + repeat constructor. intros [].
    + repeat constructor. cbn. lia.
    + repeat constructor. cbn. lia.
  - repeat constructor.
Qed.

Lemma both_stored_invariants :
  consistent (database both_stored) /\
  hashes_match (runtime fast_clock) (database both_stored).
Proof.
  split.
  - split; cbn.
    + repeat constructor; cbn; intuition discriminate.
    + repeat constructor; cbn; intuition discriminate.
    + repeat constructor; cbn; lia.
    + repeat constructor; cbn; lia.
  - repeat constructor.
Qed.

(** On the empty store the hotel is not stored by [save_accommodation],
    however often it is called, and is never reported as new. *)
Lemma the_empty_store_stays_empty :
  let rt := runtime fast_clock in
  let r1 := save_accommodation rt (hotel 100) fresh in
  let r2 := save_accommodation rt (hotel 100) (snd r1) in
  fst r1 = Failed database_is_locked /\
  fst r2 = Failed database_is_locked /\
  database (snd r2) = empty_database /\
  fst (get_new_accommodations rt 24 (snd r1)) = [].
Proof. vm_compute. repeat split; reflexivity. Qed.




(** C2, on the code: three candidates are fetched, two of them the same
    hotel; no price or rating filter drops one and the duplicate is
    collapsed.  From the empty store, step 3 of the first pass raises on
    the first item: the pass returns [[]], the store holds no item,
    nothing is new and no search is recorded; the second pass ends the
    same way.  On a store that does hold the two items, seen once and
    not notified, both are new, and one pass with the mail delivered
    leaves them notified with [times_seen] at 3, not 2: the pass saves
    each item a second time to get its id for [mark_as_notified]. *)
Theorem two_passes_store_nothing :
  let rt := runtime fast_clock in
  List.length fetched = 3%nat /\
  _create_accommodation_hash rt (hotel 100) = _create_accommodation_hash rt hotel_again /\
  _create_accommodation_hash rt (hotel 100) <> _create_accommodation_hash rt flat /\
  filter_by_rating criteria (filter_by_price criteria fetched) = fetched /\
  apply_all_filters criteria fetched = [hotel 100; flat] /\
  fst (search_and_process rt agent fetched Delivered Delivered fresh) = [] /\
  accommodations (database first_pass) = [] /\
  searches (database first_pass) = [] /\
  fst (get_new_accommodations rt 24 first_pass) = [] /\
  fst (search_and_process rt agent fetched Delivered Delivered first_pass) = [] /\
  accommodations (database second_pass) = [] /\
  searches (database second_pass) = [] /\
  map times_seen (accommodations (database both_stored)) = [1; 1] /\
  fst (get_new_accommodations rt 24 both_stored) = [hotel 100; flat] /\
  fst (search_and_process rt agent fetched Delivered Delivered both_stored)
  = [hotel 100; flat] /\
  map times_seen (accommodations (database pass_on_stored)) = [3; 3] /\
  map is_notified (accommodations (database pass_on_stored)) = [true; true] /\
  fst (get_new_accommodations rt 24 pass_on_stored) = [].
Proof. vm_compute. repeat split; try reflexivity. discriminate. Qed.

End Scenarios.

(** ** The task list of the scheduler *)

Module TaskListFacts.
Import Time Scheduler SchedulerFacts.

Lemma enable_named_some (b : bool) (n : string) (ts ts' : list ScheduledTask) :
  enable_named b n ts = Some ts' ->
  exists i t,
    nth_error ts i = Some t /\ name t = n /\
    (forall j u, (j < i)%nat -> nth_error ts j = Some u -> name u <> n) /\
    ts' = replace_nth i (set_enabled b t) ts.
Proof.
  revert ts'. induction ts as [|x ts IH]; intros ts' H; simpl in H; [discriminate|].
  destruct (name x =? n) eqn:E.
  - injection H as <-. exists 0%nat, x. apply String.eqb_eq in E.
    repeat split; auto. intros j u Hj. lia.
  - destruct (enable_named b n ts) as [ts0|]; [|discriminate].
    injection H as <-.
    destruct (IH ts0 eq_refl) as [i [t [Hn [Ht [Hpre ->]]]]].
    exists (S i), t. repeat split; auto.
    intros [|j] u Hj Hu; simpl in Hu.
    + injection Hu as <-. now apply String.eqb_neq.
    + apply (Hpre j u); [lia|exact Hu].
Qed.

Lemma enable_named_none (b : bool) (n : string) (ts : list ScheduledTask) :
  enable_named b n ts = None -> forall u, In u ts -> name u <> n.
Proof.
  induction ts as [|x ts IH]; intros H u Hu; simpl in *; [contradiction|].
  destruct (name x =? n) eqn:E; [discriminate|].
  destruct (enable_named b n ts); [discriminate|].
  destruct Hu as [<-|Hu]; [now apply String.eqb_neq|now apply IH].
Qed.

(** X1: [disable_task] clears the flag of the first task with the name
    and of no other; from then on no turn of the loop starts that task,
    and [_run_task] on it returns at once, leaving it as it is.  With no
    task of that name the scheduler is unchanged and the answer is
    [False]. *)
Theorem disabled_task_is_never_started (s : AccommodationScheduler) (n : string) :
  let s' := fst (disable_task s n) in
  (snd (disable_task s n) = true ->
   exists i t,
     nth_error (tasks s) i = Some t /\ name t = n /\
     (forall j u, (j < i)%nat -> nth_error (tasks s) j = Some u -> name u <> n) /\
     nth_error (tasks s') i = Some (set_enabled false t) /\
     (forall j, j <> i -> nth_error (tasks s') j = nth_error (tasks s) j) /\
     scheduler_is_running s' = scheduler_is_running s /\
     (forall now, ~ In i (dispatched s' now)) /\
     (forall now, _run_task (set_enabled false t) now = (set_enabled false t, None))) /\
  (snd (disable_task s n) = false ->
   s' = s /\ forall u, In u (tasks s) -> name u <> n).
Proof.
  intro s'. subst s'. unfold disable_task.
  destruct (enable_named false n (tasks s)) as [ts|] eqn:E; simpl.
  - split; [intros _|discriminate].
    destruct (enable_named_some _ _ _ _ E) as [i [t [Hn [Ht [Hpre ->]]]]].
    exists i, t. repeat split; auto.
    + eapply nth_error_replace_nth_same; eassumption.
    + intros j Hj. now apply nth_error_replace_nth_other.
    + intros now Hin. unfold dispatched in Hin. simpl in Hin.
      destruct (scheduler_is_running s); [|contradiction].
      apply due_from_spec in Hin as [_ [u [Hu Hd]]].
      rewrite Nat.sub_0_r in Hu.
      erewrite nth_error_replace_nth_same in Hu by eassumption.
      injection Hu as <-. unfold due in Hd. simpl in Hd. discriminate.
  - split; [discriminate|intros _].
    split; [reflexivity|]. now apply enable_named_none with (b := false).
Qed.

Lemma set_enabled_twice (b c : bool) (t : ScheduledTask) :
  set_enabled b (set_enabled c t) = set_enabled b t.
Proof. reflexivity. Qed.

Lemma enable_named_twice (b c : bool) (n : string) (ts : list ScheduledTask) :
  match enable_named c n ts with
  | Some ts' => enable_named b n ts'
  | None => None
  end = enable_named b n ts.
Proof.
  induction ts as [|x ts IH]; simpl; [reflexivity|].
  destruct (name x =? n) eqn:E; simpl.
  - now rewrite E.
  - destruct (enable_named c n ts) as [ts0|]; simpl in *.
    + rewrite E, IH. reflexivity.
    + now rewrite <- IH.
Qed.

Lemma enable_named_answer (b c : bool) (n : string) (ts : list ScheduledTask) :
  enable_named b n ts = None <-> enable_named c n ts = None.
Proof.
  induction ts as [|x ts IH]; simpl; [tauto|].
  destruct (name x =? n); [split; discriminate|].
  destruct (enable_named b n ts), (enable_named c n ts); simpl;
    split; intro H; try discriminate; try reflexivity;
    destruct IH as [I1 I2];
    first [discriminate (I1 eq_refl) | discriminate (I2 eq_refl)].
Qed.

(** X2: [enable_task] and [disable_task] answer alike, each undoes the
    other on the task it names, and a task disabled and enabled again
    that was enabled before is as it was. *)
Theorem enable_undoes_disable (s : AccommodationScheduler) (n : string) :
  enable_task (fst (disable_task s n)) n = enable_task s n /\
  disable_task (fst (enable_task s n)) n = disable_task s n /\
  snd (enable_task s n) = snd (disable_task s n) /\
  ((forall t, In t (tasks s) -> enabled t = true) ->
   fst (enable_task (fst (disable_task s n)) n) = s).
Proof.
  assert (Hgen : forall b c,
    let after :=
      fst (match enable_named c n (tasks s) with
           | Some ts => (with_tasks ts s, true)
           | None => (s, false)
           end) in
    match enable_named b n (tasks after) with
    | Some ts => (with_tasks ts after, true)
    | None => (after, false)
    end
    = match enable_named b n (tasks s) with
      | Some ts => (with_tasks ts s, true)
      | None => (s, false)
      end).
  { intros b c after. subst after.
    pose proof (enable_named_twice b c n (tasks s)) as H.
    pose proof (enable_named_answer b c n (tasks s)) as Ha.
    destruct (enable_named c n (tasks s)) as [ts|] eqn:E; simpl.
    - rewrite H. destruct (enable_named b n (tasks s)); [reflexivity|].
      destruct Ha as [Ha _]. discriminate (Ha eq_refl).
    - rewrite <- H. reflexivity. }
  split; [exact (Hgen true false)|].
  split; [exact (Hgen false true)|].
  split.
  { unfold enable_task, disable_task.
    pose proof (enable_named_answer true false n (tasks s)) as [H1 H2].
    destruct (enable_named true n (tasks s)), (enable_named false n (tasks s));
      simpl; try reflexivity;
      first [discriminate (H1 eq_refl) | discriminate (H2 eq_refl)]. }
  intro Hall.
  change (fst (enable_task (fst (disable_task s n)) n))
    with (fst (match enable_named true n
                       (tasks (fst (match enable_named false n (tasks s) with
                                    | Some ts => (with_tasks ts s, true)
                                    | None => (s, false)
                                    end))) with
               | Some ts =>
                   (with_tasks ts
                      (fst (match enable_named false n (tasks s) with
                            | Some ts => (with_tasks ts s, true)
                            | None => (s, false)
                            end)), true)
               | None =>
                   (fst (match enable_named false n (tasks s) with
                         | Some ts => (with_tasks ts s, true)
                         | None => (s, false)
                         end), false)
               end)).
  rewrite (Hgen true false).
  assert (H : forall ts, (forall t, In t ts -> enabled t = true) ->
            match enable_named true n ts with Some ts' => ts' = ts | None => True end).
  { induction ts as [|x ts IH]; intro Hts; simpl; [exact I|].
    destruct (name x =? n).
    - f_equal. destruct x; simpl.
      specialize (Hts _ (or_introl eq_refl)). simpl in Hts. now subst.
    - specialize (IH (fun t Ht => Hts t (or_intror Ht))).
      destruct (enable_named true n ts); simpl; [now f_equal|exact I]. }
  specialize (H (tasks s) Hall).
  destruct (enable_named true n (tasks s)); simpl; [|reflexivity].
  subst. destruct s; reflexivity.
Qed.

Lemma remove_named_some (n : string) (ts ts' : list ScheduledTask) :
  remove_named n ts = Some ts' ->
  exists pre t post,
    ts = (pre ++ t :: post)%list /\ name t = n /\
    (forall u, In u pre -> name u <> n) /\ ts' = (pre ++ post)%list.
Proof.
  revert ts'. induction ts as [|x ts IH]; intros ts' H; simpl in H; [discriminate|].
  destruct (name x =? n) eqn:E.
  - injection H as <-. exists [], x, ts. apply String.eqb_eq in E.
    repeat split; auto.
  - destruct (remove_named n ts) as [ts0|]; [|discriminate].
    injection H as <-.
    destruct (IH ts0 eq_refl) as [pre [t [post [-> [Ht [Hpre ->]]]]]].
    exists (x :: pre), t, post. repeat split; auto.
    intros u [<-|Hu]; [now apply String.eqb_neq|now apply Hpre].
Qed.

Lemma remove_named_none (n : string) (ts : list ScheduledTask) :
  remove_named n ts = None -> forall u, In u ts -> name u <> n.
Proof.
  induction ts as [|x ts IH]; intros H u Hu; simpl in *; [contradiction|].
  destruct (name x =? n) eqn:E; [discriminate|].
  destruct (remove_named n ts); [discriminate|].
  destruct Hu as [<-|Hu]; [now apply String.eqb_neq|now apply IH].
Qed.

(** X3: [remove_task] deletes the first task with the name and nothing
    else, keeping the order of the others and the running flag; a later
    task with the same name stays.  With no task of that name it
    answers [False] and changes nothing. *)
Theorem remove_task_removes_the_first (s : AccommodationScheduler) (n : string) :
  let s' := fst (remove_task s n) in
  scheduler_is_running s' = scheduler_is_running s /\
  (snd (remove_task s n) = true ->
   exists pre t post,
     tasks s = (pre ++ t :: post)%list /\ name t = n /\
     (forall u, In u pre -> name u <> n) /\
     tasks s' = (pre ++ post)%list) /\
  (snd (remove_task s n) = false ->
   s' = s /\ forall u, In u (tasks s) -> name u <> n) /\
  (forall task, snd (remove_task (add_task (add_task s task) task) (name task)) = true /\
     exists u, In u (tasks (fst (remove_task (add_task (add_task s task) task) (name task))))
               /\ name u = name task).
Proof.
  intro s'. subst s'. unfold remove_task.
  destruct (remove_named n (tasks s)) as [ts|] eqn:E; simpl.
  - split; [reflexivity|]. split; [intros _|split; [discriminate|]].
    + now apply remove_named_some.
    + intro task. clear E.
      assert (H : forall l, exists l',
                remove_named (name task) ((l ++ [task]) ++ [task])
                = Some (l' ++ [task])%list).
      { induction l as [|x l [l' IH]]; simpl.
        - rewrite String.eqb_refl. now exists [].
        - destruct (name x =? name task).
          + exists (l ++ [task])%list. reflexivity.
          + rewrite IH. exists (x :: l'). reflexivity. }
      destruct (H (tasks s)) as [l' Hl']. simpl. rewrite Hl'. simpl.
      split; [reflexivity|]. exists task. split; [|reflexivity].
      apply in_or_app. right. now left.
  - split; [reflexivity|]. split; [discriminate|]. split.
    + intros _. split; [reflexivity|]. now apply remove_named_none.
    + intro task.
      assert (H : forall l, exists l',
                remove_named (name task) ((l ++ [task]) ++ [task])
                = Some (l' ++ [task])%list).
      { induction l as [|x l [l' IH]]; simpl.
        - rewrite String.eqb_refl. now exists [].
        - destruct (name x =? name task).
          + exists (l ++ [task])%list. reflexivity.
          + rewrite IH. exists (x :: l'). reflexivity. }
      destruct (H (tasks s)) as [l' Hl']. simpl. rewrite Hl'. simpl.
      split; [reflexivity|]. exists task. split; [|reflexivity].
      apply in_or_app. right. now left.
Qed.

(** X4: the scheduler of [create_default_scheduler] holds the search
    task (hours), the price-alert task (minutes), the cleanup task
    (days) and the heartbeat (minutes) under four different names, all
    enabled and due from their creation: the first turn of the loop
    after [start] starts all four. *)
Theorem default_tasks_all_start_at_once
    (search_function alert_function cleanup_function : Callable)
    (config : option SchedulerConfig) (created : nat -> datetime) (now : datetime) :
  (forall k, (k < 4)%nat -> created k <= now) ->
  let s := start (create_default_scheduler search_function alert_function
                    cleanup_function config created) in
  map name (tasks s)
  = ["accommodation_search"; "price_alerts"; "database_cleanup"; "system_heartbeat"] /\
  NoDup (map name (tasks s)) /\
  map interval_type (tasks s) = ["hours"; "minutes"; "days"; "minutes"] /\
  (config = None -> map interval_value (tasks s) = [6; 30; 1; 15]) /\
  dispatched s now = [0; 1; 2; 3]%nat.
Proof.
  intros Hnow s. subst s.
  pose proof (Hnow 0%nat ltac:(lia)) as H0.
  pose proof (Hnow 1%nat ltac:(lia)) as H1.
  pose proof (Hnow 2%nat ltac:(lia)) as H2.
  pose proof (Hnow 3%nat ltac:(lia)) as H3.
  apply Z.leb_le in H0, H1, H2, H3.
  split; [reflexivity|]. split.
  { simpl. repeat constructor; simpl; intuition discriminate. }
  split; [reflexivity|]. split; [intros ->; reflexivity|].
  unfold dispatched. simpl. unfold due. simpl.
  now rewrite H0, H1, H2, H3.
Qed.

End TaskListFacts.

(** ** Normalised text and identity *)

Module TextFacts.
Import Text.

Lemma lower_app (s t : string) : lower (s ++ t) = lower s ++ lower t.
Proof. induction s as [|c s IH]; simpl; [reflexivity|now rewrite IH]. Qed.

Lemma isspace_lower_char (c : ascii) : isspace (lower_char c) = isspace c.
Proof. destruct c as [[] [] [] [] [] [] [] []]; reflexivity. Qed.

Lemma lower_char_twice (c : ascii) : lower_char (lower_char c) = lower_char c.
Proof. destruct c as [[] [] [] [] [] [] [] []]; reflexivity. Qed.

Lemma lower_twice (s : string) : lower (lower s) = lower s.
Proof.
  induction s as [|c s IH]; simpl; [reflexivity|].
  now rewrite lower_char_twice, IH.
Qed.

Lemma rstrip_starts (c : ascii) (s : string) :
  isspace c = false -> rstrip (String c s) <> "".
Proof. intro H. simpl. destruct (rstrip s); [rewrite H|]; discriminate. Qed.

(** A text that [strip] empties is made of blanks. *)
Lemma strip_empty_lstrip (s : string) : strip s = "" -> lstrip s = "".
Proof.
  unfold strip. induction s as [|c s IH]; simpl; [reflexivity|].
  destruct (isspace c) eqn:E; [exact IH|].
  intro H. exfalso. revert H. now apply rstrip_starts.
Qed.

Lemma lstrip_empty_rstrip (s : string) : lstrip s = "" -> rstrip s = "".
Proof.
  induction s as [|c s IH]; simpl; [reflexivity|].
  destruct (isspace c) eqn:E; [|discriminate].
  intro H. now rewrite (IH H).
Qed.

Lemma lstrip_empty_lower (s : string) : lstrip s = "" -> lstrip (lower s) = "".
Proof.
  induction s as [|c s IH]; simpl; [reflexivity|].
  rewrite isspace_lower_char. destruct (isspace c); [exact IH|discriminate].
Qed.

Lemma lstrip_pad (pad s : string) : lstrip pad = "" -> lstrip (pad ++ s) = lstrip s.
Proof.
  induction pad as [|c pad IH]; simpl; [reflexivity|].
  destruct (isspace c); [exact IH|discriminate].
Qed.

Lemma rstrip_pad (s pad : string) : lstrip pad = "" -> rstrip (s ++ pad) = rstrip s.
Proof.
  intro H. induction s as [|c s IH]; simpl.
  - now apply lstrip_empty_rstrip.
  - now rewrite IH.
Qed.

Lemma strip_pad_right (s pad : string) : lstrip pad = "" -> strip (s ++ pad) = strip s.
Proof.
  intro H. unfold strip. induction s as [|c s IH]; simpl.
  - rewrite H. reflexivity.
  - destruct (isspace c); [exact IH|].
    change (String c (s ++ pad)) with (String c s ++ pad).
    now apply rstrip_pad.
Qed.

Lemma strip_pad (pre s post : string) :
  strip pre = "" -> strip post = "" -> strip (pre ++ s ++ post) = strip s.
Proof.
  intros Hpre Hpost. apply strip_empty_lstrip in Hpre, Hpost.
  unfold strip. rewrite lstrip_pad by exact Hpre.
  now apply strip_pad_right.
Qed.

Lemma strip_lower_pad (pre s post : string) :
  strip pre = "" -> strip post = "" ->
  strip (lower (pre ++ s ++ post)) = strip (lower s).
Proof.
  intros Hpre Hpost. rewrite !lower_app.
  unfold strip at 1. apply strip_empty_lstrip in Hpre, Hpost.
  rewrite lstrip_pad by now apply lstrip_empty_lower.
  apply strip_pad_right. now apply lstrip_empty_lower.
Qed.

End TextFacts.

(** ** More on the store *)

Module StoreMore.
Import Time Text Ordering Store TimeFacts OrderingFacts TextFacts StoreFacts.

Section WithRuntime.
Variable rt : Runtime.

(** X5: the identity of a candidate does not see capitals, blanks
    around the title or around the location, nor any field other than
    title, location and platform: two candidates that differ in these
    ways only have the same hash. *)
Theorem identity_ignores_case_and_blanks
    (a b : Accommodation) (pre post pre' post' : string) :
  strip pre = "" -> strip post = "" -> strip pre' = "" -> strip post' = "" ->
  lower (title b) = lower (pre ++ title a ++ post) ->
  lower (location b) = lower (pre' ++ location a ++ post') ->
  platform b = platform a ->
  _create_accommodation_hash rt b = _create_accommodation_hash rt a.
Proof.
  intros H1 H2 H3 H4 Ht Hl Hp. unfold _create_accommodation_hash.
  rewrite Ht, Hl, Hp. now rewrite !strip_lower_pad.
Qed.

(** X6: the hash of the search criteria does not see the two dates, so
    the rows that [save_search_record] writes for searches that differ
    in their dates only carry the same [criteria_hash]. *)
Theorem criteria_hash_ignores_dates
    (c c' : SearchCriteria) (n m n' m' : Z) (w w' : World) :
  destination c' = destination c -> guests c' = guests c ->
  max_price c' = max_price c -> criteria_currency c' = criteria_currency c ->
  property_types c' = property_types c -> min_rating c' = min_rating c ->
  _create_criteria_hash rt c' = _create_criteria_hash rt c /\
  forall row row',
    In row (searches (database (snd (save_search_record rt c n m w)))) ->
    ~ In row (searches (database w)) ->
    In row' (searches (database (snd (save_search_record rt c' n' m' w')))) ->
    ~ In row' (searches (database w')) ->
    criteria_hash row' = criteria_hash row.
Proof.
  intros H1 H2 H3 H4 H5 H6.
  assert (E : _create_criteria_hash rt c' = _create_criteria_hash rt c).
  { unfold _create_criteria_hash, asdict. cbn [dict_pop filter fst String.eqb
      Ascii.eqb Bool.eqb negb andb].
    cbn. now rewrite H1, H2, H3, H4, H5, H6. }
  split; [exact E|].
  intros row row' Hr Hn Hr' Hn'. cbn in Hr, Hr'.
  apply in_app_or in Hr as [Hr|[<-|[]]]; [contradiction|].
  apply in_app_or in Hr' as [Hr'|[<-|[]]]; [contradiction|].
  exact E.
Qed.

(** *** Saving again, and looking up by id *)

Lemma NoDup_map_same {A B : Type} (f : A -> B) (l : list A) (x y : A) :
  NoDup (map f l) -> In x l -> In y l -> f x = f y -> x = y.
Proof.
  induction l as [|z l IH]; simpl; [contradiction|].
  intros Hnd Hx Hy E. inversion Hnd as [|? ? Hz Hl]; subst.
  destruct Hx as [->|Hx], Hy as [->|Hy]; auto.
  - exfalso. apply Hz. rewrite E. now apply in_map.
  - exfalso. apply Hz. rewrite <- E. now apply in_map.
Qed.

Lemma tracked_of_member (d : Database) (row : AccommodationRow) :
  consistent d -> In row (accommodations d) ->
  tracked (accommodation_hash row) d = Some row.
Proof.
  intros [_ Hh _ _] Hin. unfold tracked.
  destruct (find (fun r => accommodation_hash r =? accommodation_hash row)
              (accommodations d)) as [r|] eqn:E.
  - apply find_some in E as [Hr Er]. apply String.eqb_eq in Er.
    f_equal. now apply (NoDup_map_same accommodation_hash (accommodations d)).
  - pose proof (find_none _ _ E row Hin) as H. simpl in H.
    now rewrite String.eqb_refl in H.
Qed.

Lemma lookup_of_member (d : Database) (row : AccommodationRow) :
  consistent d -> In row (accommodations d) ->
  find (fun r => (acc_id r =? acc_id row)%Z) (accommodations d) = Some row.
Proof.
  intros [Hi _ _ _] Hin.
  destruct (find (fun r => (acc_id r =? acc_id row)%Z) (accommodations d))
    as [r|] eqn:E.
  - apply find_some in E as [Hr Er]. apply Z.eqb_eq in Er.
    f_equal. now apply (NoDup_map_same acc_id (accommodations d)).
  - pose proof (find_none _ _ E row Hin) as H. simpl in H.
    now rewrite Z.eqb_refl in H.
Qed.

Lemma save_stored_keeps_history (row : AccommodationRow) (w : World) :
  consistent (database w) ->
  hashes_match rt (database w) ->
  In row (accommodations (database w)) ->
  price_history (database (snd (save_accommodation rt (_row_to_accommodation row) w)))
  = price_history (database w).
Proof.
  intros Hc Hm Hin.
  assert (Hh : _create_accommodation_hash rt (_row_to_accommodation row)
               = accommodation_hash row).
  { unfold hashes_match in Hm. rewrite Forall_forall in Hm.
    symmetry. now apply Hm. }
  assert (Hsel : select_by_hash
                   (_create_accommodation_hash rt (_row_to_accommodation row))
                   (database w) = Some row)
    by (rewrite Hh; exact (tracked_of_member _ _ Hc Hin)).
  rewrite (save_accommodation_same rt _ w row Hsel);
    [reflexivity|apply Qeq_bool_refl|apply String.eqb_refl].
Qed.

(** X7: an item read back from the store and saved again is found
    again: [save_accommodation] returns the id of its row, adds no row
    and no price observation, and only counts one more sighting; the
    tables stay consistent. *)
Theorem saving_a_stored_item_again (row : AccommodationRow) (w : World) :
  consistent (database w) ->
  hashes_match rt (database w) ->
  In row (accommodations (database w)) ->
  let r := save_accommodation rt (_row_to_accommodation row) w in
  fst r = Done (acc_id row) /\
  price_history (database (snd r)) = price_history (database w) /\
  List.length (accommodations (database (snd r)))
  = List.length (accommodations (database w)) /\
  (exists row',
     tracked (accommodation_hash row) (database (snd r)) = Some row' /\
     acc_id row' = acc_id row /\
     times_seen row' = times_seen row + 1 /\
     is_notified row' = is_notified row /\
     acc_price row' = acc_price row /\ acc_currency row' = acc_currency row) /\
  consistent (database (snd r)) /\
  hashes_match rt (database (snd r)).
Proof.
  intros Hc Hm Hin r. subst r.
  assert (Hh : _create_accommodation_hash rt (_row_to_accommodation row)
               = accommodation_hash row).
  { unfold hashes_match in Hm. rewrite Forall_forall in Hm.
    symmetry. now apply Hm. }
  pose proof (tracked_of_member _ _ Hc Hin) as Ht.
  assert (Hsel : select_by_hash
                   (_create_accommodation_hash rt (_row_to_accommodation row))
                   (database w) = Some row) by (rewrite Hh; exact Ht).
  assert (Hp : Qeq_bool (acc_price row) (price (_row_to_accommodation row)) = true)
    by apply Qeq_bool_refl.
  assert (Hcur : (acc_currency row =? currency (_row_to_accommodation row)) = true)
    by apply String.eqb_refl.
  destruct (tracked_after_save rt (_row_to_accommodation row) w row Hsel)
    as [Hf [row' [Ht' [Hid [Hpr [Hcu [_ [Hts Hnot]]]]]]]].
  rewrite Hh in Ht'.
  split; [exact Hf|].
  split; [now rewrite (save_accommodation_same rt _ w row Hsel Hp Hcur)|].
  split.
  { rewrite (save_accommodation_same rt _ w row Hsel Hp Hcur). cbn.
    apply length_map. }
  split.
  { exists row'. split; [exact Ht'|]. repeat split; auto. }
  split; [now apply consistent_after_save|now apply hashes_match_after_save].
Qed.

Lemma get_accommodation_by_id_eq (i : Z) (w : World) :
  get_accommodation_by_id i w
  = (option_map _row_to_accommodation
       (find (fun r => (acc_id r =? i)%Z) (accommodations (database w))), w).
Proof. reflexivity. Qed.

(** X8: for a stored item, [get_accommodation_by_id] on the id that
    [save_accommodation] returns gives the item as it is stored, with
    the candidate's price, currency and rating.  For an item that is
    not stored no id is returned, and every lookup gives what it gave
    before.  An id above the counter of the table gives [None]; the
    lookup changes nothing. *)
Theorem lookup_after_save (a : Accommodation) (w : World) :
  consistent (database w) ->
  let r := save_accommodation rt a w in
  (forall row0,
     tracked (_create_accommodation_hash rt a) (database w) = Some row0 ->
     fst r = Done (acc_id row0) /\
     fst (get_accommodation_by_id (acc_id row0) (snd r))
     = Some {| title := acc_title row0; price := price a;
               currency := currency a; rating := rating a;
               location := acc_location row0; url := acc_url row0;
               image_url := acc_image_url row0;
               description := acc_description row0;
               amenities := acc_amenities row0; platform := acc_platform row0 |}) /\
  (tracked (_create_accommodation_hash rt a) (database w) = None ->
   fst r = Failed database_is_locked /\
   forall i, fst (get_accommodation_by_id i (snd r))
             = fst (get_accommodation_by_id i w)) /\
  (forall i, seq_accommodations (database (snd r)) < i ->
     fst (get_accommodation_by_id i (snd r)) = None) /\
  (forall i w0, snd (get_accommodation_by_id i w0) = w0).
Proof.
  intros Hc r.
  pose proof (consistent_after_save rt a w Hc) as Hc'. fold r in Hc'.
  split.
  { intros row0 Ht.
    destruct (tracked_after_save rt a w row0 Ht) as [Hf _]. fold r in Hf.
    split; [exact Hf|].
    destruct (row_after_save rt a w row0 Ht) as [now Hrow]. fold r in Hrow.
    assert (Hin : In (update_seen now a (acc_id row0) row0)
                    (accommodations (database (snd r)))).
    { unfold tracked in Hrow. now apply find_some in Hrow. }
    pose proof (lookup_of_member _ _ Hc' Hin) as Hfind.
    rewrite update_seen_id in Hfind.
    rewrite get_accommodation_by_id_eq. cbn [fst]. rewrite Hfind.
    unfold update_seen. rewrite Z.eqb_refl. reflexivity. }
  split.
  { intro Hnone. subst r. rewrite (save_accommodation_new rt a w Hnone).
    split; reflexivity. }
  split.
  { intros i Hi. rewrite get_accommodation_by_id_eq. cbn [fst].
    destruct (find (fun r0 => (acc_id r0 =? i)%Z) (accommodations (database (snd r))))
      as [r0|] eqn:E; [|reflexivity].
    apply find_some in E as [Hr0 E0]. apply Z.eqb_eq in E0.
    destruct Hc' as [_ _ Hb _]. rewrite Forall_forall in Hb.
    specialize (Hb r0 Hr0). lia. }
  reflexivity.
Qed.

(** *** Retention *)

Lemma whole_seconds_gt (t : Z) : t - us_per_second < whole_seconds t.
Proof.
  unfold whole_seconds, us_per_second.
  pose proof (Z.mod_pos_bound t 1000000 ltac:(lia)).
  pose proof (Z.div_mod t 1000000 ltac:(lia)). lia.
Qed.

Lemma clean_old_data_eq (days_to_keep : Z) (w : World) :
  let d := database w in
  let cutoff_time := clock rt (clock_reads w) - timedelta days_to_keep 0 0 in
  clean_old_data rt days_to_keep w
  = (tt, with_database
           {| accommodations := accommodations d;
              price_history :=
                filter (fun r => (cutoff_time <=? ph_timestamp r)%Z) (price_history d);
              searches :=
                filter (fun r => (cutoff_time <=? search_timestamp r)%Z) (searches d);
              notifications :=
                filter (fun r => (cutoff_time <=? notification_timestamp r)%Z)
                  (notifications d);
              seq_accommodations := seq_accommodations d;
              seq_price_history := seq_price_history d;
              seq_searches := seq_searches d;
              seq_notifications := seq_notifications d |}
           (tick w)).
Proof. reflexivity. Qed.

Lemma filter_none {A : Type} (f : A -> bool) (l : list A) :
  Forall (fun x => f x = false) l -> filter f l = [].
Proof.
  induction 1 as [|x l Hx _ IH]; simpl; [reflexivity|]. now rewrite Hx.
Qed.

(** X9: [clean_old_data] deletes from the three history tables exactly
    the rows stamped before the cutoff and nothing from table
    [accommodations]: every item stays tracked, the counters of the keys
    are kept and the tables stay consistent.  An item whose price
    observations are all older than the cutoff is left with none, and
    saving it again at its stored price gives it none either. *)
Theorem retention_keeps_the_items (days_to_keep : Z) (w : World) :
  consistent (database w) ->
  let cutoff_time := clock rt (clock_reads w) - timedelta days_to_keep 0 0 in
  let w' := snd (clean_old_data rt days_to_keep w) in
  accommodations (database w') = accommodations (database w) /\
  (forall h, tracked h (database w') = tracked h (database w)) /\
  seq_price_history (database w') = seq_price_history (database w) /\
  consistent (database w') /\
  (forall r, In r (price_history (database w')) <->
             In r (price_history (database w)) /\ cutoff_time <= ph_timestamp r) /\
  (forall r, In r (searches (database w')) <->
             In r (searches (database w)) /\ cutoff_time <= search_timestamp r) /\
  (forall r, In r (notifications (database w')) <->
             In r (notifications (database w)) /\
             cutoff_time <= notification_timestamp r) /\
  (forall row,
     In row (accommodations (database w)) ->
     Forall (fun r => ph_timestamp r < cutoff_time)
       (observations (acc_id row) (database w)) ->
     observations (acc_id row) (database w') = [] /\
     (hashes_match rt (database w) ->
      observations (acc_id row)
        (database (snd (save_accommodation rt (_row_to_accommodation row) w'))) = [])).
Proof.
  intros Hc cutoff_time w'. subst w'. rewrite clean_old_data_eq.
  cbn [snd]. change (database (with_database ?d _)) with d.
  cbn [accommodations price_history searches notifications seq_price_history].
  fold cutoff_time.
  assert (Hc' : consistent
    {| accommodations := accommodations (database w);
       price_history :=
         filter (fun r => (cutoff_time <=? ph_timestamp r)%Z)
           (price_history (database w));
       searches :=
         filter (fun r => (cutoff_time <=? search_timestamp r)%Z)
           (searches (database w));
       notifications :=
         filter (fun r => (cutoff_time <=? notification_timestamp r)%Z)
           (notifications (database w));
       seq_accommodations := seq_accommodations (database w);
       seq_price_history := seq_price_history (database w);
       seq_searches := seq_searches (database w);
       seq_notifications := seq_notifications (database w) |}).
  { destruct Hc as [H1 H2 H3 H4]. split; simpl; auto.
    rewrite Forall_forall in *. intros r Hr. apply filter_In in Hr. now apply H4. }
  split; [reflexivity|]. split; [reflexivity|]. split; [reflexivity|].
  split; [exact Hc'|].
  split; [intro r; rewrite filter_In, Z.leb_le; tauto|].
  split; [intro r; rewrite filter_In, Z.leb_le; tauto|].
  split; [intro r; rewrite filter_In, Z.leb_le; tauto|].
  intros row Hin Hold.
  assert (Hnone :
    observations (acc_id row)
      {| accommodations := accommodations (database w);
         price_history :=
           filter (fun r => (cutoff_time <=? ph_timestamp r)%Z)
             (price_history (database w));
         searches :=
           filter (fun r => (cutoff_time <=? search_timestamp r)%Z)
             (searches (database w));
         notifications :=
           filter (fun r => (cutoff_time <=? notification_timestamp r)%Z)
             (notifications (database w));
         seq_accommodations := seq_accommodations (database w);
         seq_price_history := seq_price_history (database w);
         seq_searches := seq_searches (database w);
         seq_notifications := seq_notifications (database w) |} = []).
  { unfold observations in *. simpl.
    apply filter_none. rewrite Forall_forall in *. intros r Hr.
    apply filter_In in Hr as [Hr Hk]. apply Z.leb_le in Hk.
    destruct (Z.eqb_spec (accommodation_id r) (acc_id row)) as [E|]; [|reflexivity].
    assert (Hobs : In r (filter (fun r0 => (accommodation_id r0 =? acc_id row)%Z)
                           (price_history (database w)))).
    { apply filter_In. split; [exact Hr|now apply Z.eqb_eq]. }
    specialize (Hold r Hobs). simpl in Hold. lia. }
  split; [exact Hnone|].
  intro Hm.
  match goal with
  | |- observations _ (database (snd (save_accommodation rt _ ?w1))) = [] =>
      pose proof (save_stored_keeps_history row w1 Hc' Hm Hin) as Hph
  end.
  unfold observations in *. rewrite Hph. exact Hnone.
Qed.

Lemma flat_map_same {A B : Type} (f g : A -> list B) (l : list A) :
  (forall x, In x l -> f x = g x) -> flat_map f l = flat_map g l.
Proof.
  induction l as [|x l IH]; intro H; simpl; [reflexivity|].
  rewrite (H x (or_introl eq_refl)), IH; [reflexivity|].
  intros y Hy. apply H. now right.
Qed.

Lemma flat_map_filter_nil {A B : Type} (keep : A -> bool) (g : A -> list B) (l : list A) :
  (forall x, In x l -> keep x = false -> g x = []) ->
  flat_map g (filter keep l) = flat_map g l.
Proof.
  induction l as [|x l IH]; intro H; simpl; [reflexivity|].
  destruct (keep x) eqn:E; simpl.
  - rewrite IH; [reflexivity|]. intros y Hy. apply H. now right.
  - rewrite (H x (or_introl eq_refl) E), IH; [reflexivity|].
    intros y Hy. apply H. now right.
Qed.

Lemma flat_map_nil {A B : Type} (g : A -> list B) (l : list A) :
  (forall x, In x l -> g x = []) -> flat_map g l = [].
Proof.
  induction l as [|x l IH]; intro H; simpl; [reflexivity|].
  rewrite (H x (or_introl eq_refl)), IH; [reflexivity|].
  intros y Hy. apply H. now right.
Qed.

Lemma price_drops_after_cleaning
    (days_to_keep : Z) (percentage_threshold : Q) (w : World) :
  monotone (clock rt) ->
  15 <= days_to_keep ->
  fst (get_price_drops rt percentage_threshold (snd (clean_old_data rt days_to_keep w)))
  = fst (get_price_drops rt percentage_threshold (tick w)).
Proof.
  intros Hmono Hdays.
  rewrite clean_old_data_eq. rewrite !get_price_drops_eq. cbn [fst snd].
  change (clock_reads (with_database ?d (tick w))) with (S (clock_reads w)).
  change (clock_reads (tick w)) with (S (clock_reads w)).
  change (database (with_database ?d _)) with d.
  change (database (tick w)) with (database w).
  set (now := whole_seconds (clock rt (S (clock_reads w)))).
  set (cutoff_time := clock rt (clock_reads w) - timedelta days_to_keep 0 0).
  set (keep := fun r => (cutoff_time <=? ph_timestamp r)%Z).
  assert (Hgap : cutoff_time <= now - timedelta 14 0 0).
  { pose proof (whole_seconds_gt (clock rt (S (clock_reads w)))) as Hg.
    pose proof (Hmono (clock_reads w) (S (clock_reads w)) ltac:(lia)) as Hm.
    subst now cutoff_time. unfold timedelta, us_per_second in *. lia. }
  assert (Hold1 : forall a ph1 ph2, keep ph1 = false -> joined now a ph1 ph2 = false).
  { intros a ph1 ph2 Hk. subst keep. simpl in Hk. apply Z.leb_gt in Hk.
    apply not_true_is_false. rewrite joined_spec.
    unfold timedelta, us_per_second in *. lia. }
  assert (Hold2 : forall a ph1 ph2, keep ph2 = false -> joined now a ph1 ph2 = false).
  { intros a ph1 ph2 Hk. subst keep. simpl in Hk. apply Z.leb_gt in Hk.
    apply not_true_is_false. rewrite joined_spec.
    unfold timedelta, us_per_second in *. lia. }
  do 2 f_equal. unfold price_changes.
  cbn [accommodations price_history].
  apply flat_map_same. intros a _.
  rewrite flat_map_filter_nil.
  - apply flat_map_same. intros ph1 _.
    apply flat_map_filter_nil. intros ph2 _ Hk. now rewrite Hold2.
  - intros ph1 _ Hk. apply flat_map_nil. intros ph2 _. now rewrite Hold1.
Qed.

(** X10: with a retention of 15 days or more and a clock that does not
    run backwards, [clean_old_data] does not change what
    [get_price_drops] reports next: the rows it deletes are older than
    the 14 days that query looks back. *)
Theorem retention_leaves_price_drops
    (days_to_keep : Z) (percentage_threshold : Q) (w : World) :
  monotone (clock rt) ->
  15 <= days_to_keep ->
  fst (get_price_drops rt percentage_threshold (snd (clean_old_data rt days_to_keep w)))
  = fst (get_price_drops rt percentage_threshold (tick w)).
Proof. apply price_drops_after_cleaning. Qed.

(** *** Statistics *)

Lemma get_search_statistics_eq (days_back : Z) (w : World) :
  let cutoff_time := clock rt (clock_reads w) - timedelta days_back 0 0 in
  let recent :=
    filter (fun r => (cutoff_time <=? search_timestamp r)%Z) (searches (database w)) in
  get_search_statistics rt days_back w
  = ({| total_searches := Z.of_nat (List.length recent);
        avg_results := or_zero (sql_avg (map results_count recent));
        platform_breakdown :=
          group_by_platform
            (filter (fun r => (cutoff_time <=? first_seen r)%Z)
               (accommodations (database w))) |},
     tick w).
Proof. reflexivity. Qed.

Lemma sum_perm (l l' : list Z) :
  Permutation l l' -> fold_right Z.add 0 l = fold_right Z.add 0 l'.
Proof. induction 1; simpl; lia. Qed.

Lemma count_platform_cons (p : string) (r : AccommodationRow)
    (rows : list AccommodationRow) :
  count_platform p (r :: rows)
  = (if acc_platform r =? p then 1 else 0) + count_platform p rows.
Proof.
  unfold count_platform. cbn [filter].
  destruct (acc_platform r =? p); cbn [List.length]; lia.
Qed.

Lemma sum_indicator (x : string) (keys : list string) :
  NoDup keys -> In x keys ->
  fold_right Z.add 0 (map (fun p => if x =? p then 1 else 0) keys) = 1.
Proof.
  induction 1 as [|k keys Hk Hnd IH]; simpl; [contradiction|].
  intros [->|Hin].
  - rewrite String.eqb_refl.
    replace (fold_right Z.add 0 (map (fun p => if x =? p then 1 else 0) keys))
      with 0; [reflexivity|].
    clear IH Hnd. induction keys as [|k keys IH]; simpl; [reflexivity|].
    destruct (String.eqb_spec x k) as [->|_].
    + exfalso. apply Hk. now left.
    + rewrite <- IH; [reflexivity|]. intro H. apply Hk. now right.
  - destruct (String.eqb_spec x k) as [->|_]; [contradiction|].
    now rewrite IH.
Qed.

Lemma sum_counts (keys : list string) (rows : list AccommodationRow) :
  NoDup keys ->
  (forall r, In r rows -> In (acc_platform r) keys) ->
  fold_right Z.add 0 (map (fun p => count_platform p rows) keys)
  = Z.of_nat (List.length rows).
Proof.
  intros Hnd. induction rows as [|r rows IH]; intro Hall.
  - simpl. induction keys as [|k keys IHk]; simpl; [reflexivity|].
    inversion Hnd; subst. now rewrite IHk.
  - assert (E : forall ks,
      fold_right Z.add 0 (map (fun p => count_platform p (r :: rows)) ks)
      = fold_right Z.add 0 (map (fun p => if acc_platform r =? p then 1 else 0) ks)
        + fold_right Z.add 0 (map (fun p => count_platform p rows) ks)).
    { induction ks as [|k ks IHk]; simpl; [reflexivity|].
      rewrite IHk, count_platform_cons. lia. }
    rewrite E, IH, sum_indicator.
    + simpl List.length. lia.
    + exact Hnd.
    + apply Hall. now left.
    + intros r0 Hr0. apply Hall. now right.
Qed.

(** X11: the platform breakdown of [get_search_statistics] lists each
    platform of the items first seen in the window once, with the
    number of those items, largest first; the counts add up to the
    number of items in the window.  The query changes nothing in the
    database. *)
Theorem breakdown_counts_every_item (days_back : Z) (w : World) :
  let cutoff_time := clock rt (clock_reads w) - timedelta days_back 0 0 in
  let recent :=
    filter (fun r => (cutoff_time <=? first_seen r)%Z) (accommodations (database w)) in
  let r := get_search_statistics rt days_back w in
  let breakdown := platform_breakdown (fst r) in
  database (snd r) = database w /\
  NoDup (map fst breakdown) /\
  (forall p n, In (p, n) breakdown <->
     In p (map acc_platform recent) /\ n = count_platform p recent) /\
  (forall p n, In (p, n) breakdown -> 1 <= n) /\
  fold_right Z.add 0 (map snd breakdown) = Z.of_nat (List.length recent) /\
  Sorted (fun x y => snd y <= snd x) breakdown.
Proof.
  intros cutoff_time recent r breakdown. subst r breakdown.
  rewrite get_search_statistics_eq. cbn [fst snd platform_breakdown].
  fold cutoff_time. fold recent. unfold group_by_platform.
  set (keys := nodup string_dec (map acc_platform recent)).
  set (counted := map (fun p => (p, count_platform p recent)) keys).
  assert (Hperm : Permutation
            (sort_by (fun y x : string * Z => (snd x <? snd y)%Z) counted) counted)
    by apply sort_by_perm.
  assert (Hkeys : NoDup keys) by apply NoDup_nodup.
  assert (Hin : forall p n,
            In (p, n) (sort_by (fun y x : string * Z => (snd x <? snd y)%Z) counted) <->
            In p (map acc_platform recent) /\ n = count_platform p recent).
  { intros p n. rewrite sort_by_In. unfold counted. rewrite in_map_iff. split.
    - intros [q [E Hq]]. injection E as <- <-.
      split; [|reflexivity]. unfold keys in Hq. now apply nodup_In in Hq.
    - intros [Hp ->]. exists p. split; [reflexivity|].
      unfold keys. now apply nodup_In. }
  split; [reflexivity|].
  split.
  { apply Permutation_NoDup with (l := map fst counted).
    - symmetry. now apply Permutation_map.
    - unfold counted. rewrite map_map. simpl. now rewrite map_id. }
  split; [exact Hin|].
  split.
  { intros p n H. apply Hin in H as [Hp ->].
    apply in_map_iff in Hp as [row [<- Hrow]].
    unfold count_platform.
    assert (Hm : In row (filter (fun r => acc_platform r =? acc_platform row) recent)).
    { apply filter_In. split; [exact Hrow|apply String.eqb_refl]. }
    destruct (filter (fun r => acc_platform r =? acc_platform row) recent);
      [contradiction|simpl; lia]. }
  split.
  { rewrite (sum_perm _ (map snd counted)) by now apply Permutation_map.
    unfold counted. rewrite map_map. simpl.
    apply sum_counts; [exact Hkeys|].
    intros row Hrow. unfold keys. apply nodup_In. now apply in_map. }
  apply Sorted_impl
    with (R := fun a b : string * Z => (snd a <? snd b)%Z = false).
  - intros a b H. now apply Z.ltb_ge in H.
  - apply (sort_by_sorted (fun y x : string * Z => (snd x <? snd y)%Z)).
    intros a b H. apply Z.ltb_lt in H. apply Z.ltb_ge. lia.
Qed.

(** X12: [get_search_statistics] counts the searches of the window; with
    none it reports an average of 0 instead of dividing by zero, and
    otherwise the average times the count is the sum of the result
    counts. *)
Theorem statistics_of_the_window (days_back : Z) (w : World) :
  let cutoff_time := clock rt (clock_reads w) - timedelta days_back 0 0 in
  let recent :=
    filter (fun r => (cutoff_time <=? search_timestamp r)%Z) (searches (database w)) in
  let st := fst (get_search_statistics rt days_back w) in
  total_searches st = Z.of_nat (List.length recent) /\
  (recent = [] -> total_searches st = 0 /\ avg_results st = 0%Q) /\
  (avg_results st * inject_Z (total_searches st)
   == inject_Z (fold_right Z.add 0%Z (map results_count recent)))%Q.
Proof.
  intros cutoff_time recent st. subst st.
  rewrite get_search_statistics_eq. cbn [fst total_searches avg_results].
  fold cutoff_time. fold recent.
  split; [reflexivity|].
  split; [intros ->; split; reflexivity|].
  destruct recent as [|x l] eqn:E; [reflexivity|].
  unfold sql_avg. cbn [map]. unfold or_zero.
  set (total := fold_right Z.add 0 (results_count x :: map results_count l)).
  set (n := Z.of_nat (List.length (results_count x :: map results_count l))).
  assert (Hn : ~ (inject_Z n == 0)%Q).
  { unfold n. simpl List.length. unfold Qeq. simpl. lia. }
  assert (Hlen : Z.of_nat (List.length (x :: l)) = n).
  { unfold n. simpl. now rewrite length_map. }
  rewrite Hlen.
  assert (Hq : (inject_Z total / inject_Z n * inject_Z n == inject_Z total)%Q)
    by now apply Qdiv_mult_l.
  destruct (Qeq_bool (inject_Z total / inject_Z n) 0) eqn:Ez; [|exact Hq].
  apply Qeq_bool_iff in Ez. rewrite <- Hq, Ez. reflexivity.
Qed.

End WithRuntime.

End StoreMore.

(** ** The filters *)

Module FilterFacts.
Import Text Ordering Store Filter OrderingFacts.

Ltac split_on_currencies :=
  repeat match goal with
         | |- context [String.eqb ?x ?y] =>
             let E := fresh "E" in
             destruct (String.eqb x y) eqn:E;
             [apply String.eqb_eq in E | apply String.eqb_neq in E];
             subst; try congruence; try discriminate
         end.

(** X13: [_convert_currency] leaves an amount alone when the two
    currencies are the same; a source currency that is neither EUR nor
    USD is taken for RON, and a target currency that is neither EUR nor
    USD (and not the source) gets the amount in RON. *)
Theorem unknown_currency_counts_as_ron (amount : Q) (from_currency to_currency : string) :
  _convert_currency amount from_currency from_currency = amount /\
  (from_currency <> "EUR" -> from_currency <> "USD" ->
   _convert_currency amount from_currency to_currency
   = _convert_currency amount "RON" to_currency) /\
  (to_currency <> "EUR" -> to_currency <> "USD" -> to_currency <> from_currency ->
   _convert_currency amount from_currency to_currency
   = _convert_currency amount from_currency "RON").
Proof.
  split.
  { unfold _convert_currency. now rewrite String.eqb_refl. }
  split.
  - intros He Hu. unfold _convert_currency, convert_with_ron, exchange_rate.
    split_on_currencies; reflexivity.
  - intros He Hu Hf. unfold _convert_currency, convert_with_ron, exchange_rate.
    split_on_currencies; reflexivity.
Qed.

Lemma existsb_eqb_In (key : string) (seen : list string) :
  existsb (String.eqb key) seen = true <-> In key seen.
Proof.
  rewrite existsb_exists. split.
  - intros [x [Hx E]]. apply String.eqb_eq in E. now subst.
  - intro H. exists key. split; [exact H|apply String.eqb_refl].
Qed.

Lemma unique_from_first (seen : list string) (l : list Accommodation) (x : Accommodation) :
  In x (unique_from seen l) ->
  find (fun y => duplicate_key y =? duplicate_key x) l = Some x /\
  ~ In (duplicate_key x) seen.
Proof.
  revert seen. induction l as [|y l IH]; intros seen Hx; simpl in *; [contradiction|].
  destruct (existsb (String.eqb (duplicate_key y)) seen) eqn:E.
  - destruct (IH seen Hx) as [Hf Hn]. split; [|exact Hn].
    destruct (String.eqb_spec (duplicate_key y) (duplicate_key x)) as [Ek|_];
      [|exact Hf].
    exfalso. apply Hn. rewrite <- Ek. now apply existsb_eqb_In.
  - destruct Hx as [->|Hx].
    + rewrite String.eqb_refl. split; [reflexivity|].
      intro H. apply existsb_eqb_In in H. congruence.
    + destruct (IH _ Hx) as [Hf Hn]. simpl in Hn.
      split; [|tauto].
      destruct (String.eqb_spec (duplicate_key y) (duplicate_key x)) as [Ek|_];
        [tauto|exact Hf].
Qed.

Lemma unique_from_keys (seen : list string) (l : list Accommodation) :
  NoDup (map duplicate_key (unique_from seen l)).
Proof.
  revert seen. induction l as [|y l IH]; intro seen; simpl; [constructor|].
  destruct (existsb (String.eqb (duplicate_key y)) seen); [apply IH|].
  simpl. constructor; [|apply IH].
  intro H. apply in_map_iff in H as [x [Ek Hx]].
  apply unique_from_first in Hx as [_ Hn]. apply Hn. rewrite Ek. now left.
Qed.

Lemma unique_from_covers (seen : list string) (l : list Accommodation) (x : Accommodation) :
  In x l ->
  In (duplicate_key x) seen \/
  In (duplicate_key x) (map duplicate_key (unique_from seen l)).
Proof.
  revert seen. induction l as [|y l IH]; intros seen Hx; simpl in *; [contradiction|].
  destruct (existsb (String.eqb (duplicate_key y)) seen) eqn:E.
  - destruct Hx as [->|Hx]; [left; now apply existsb_eqb_In|now apply IH].
  - destruct Hx as [->|Hx]; [right; now left|].
    destruct (IH (duplicate_key y :: seen) Hx) as [[Ek|Hs]|Hr].
    + right. left. exact Ek.
    + now left.
    + right. now right.
Qed.

Lemma unique_from_fixed (seen : list string) (l : list Accommodation) :
  NoDup (map duplicate_key l) ->
  (forall x, In x l -> ~ In (duplicate_key x) seen) ->
  unique_from seen l = l.
Proof.
  revert seen. induction l as [|y l IH]; intros seen Hnd Hs; simpl; [reflexivity|].
  inversion Hnd as [|? ? Hy Hl]; subst.
  destruct (existsb (String.eqb (duplicate_key y)) seen) eqn:E.
  - apply existsb_eqb_In in E. exfalso. apply (Hs y); [now left|exact E].
  - f_equal. apply IH; [exact Hl|].
    intros x Hx [Ek|Hin].
    + apply Hy. rewrite Ek. now apply in_map.
    + apply (Hs x); [now right|exact Hin].
Qed.

(** X14: [filter_duplicates] keeps, for every normalised title and
    location in the list, the first item that has them and no other:
    the keys of the result are pairwise different, every key of the
    input is still there, and filtering again changes nothing. *)
Theorem duplicates_keep_the_first (l : list Accommodation) :
  let r := filter_duplicates l in
  NoDup (map duplicate_key r) /\
  (forall x, In x r ->
     In x l /\ find (fun y => duplicate_key y =? duplicate_key x) l = Some x) /\
  (forall x, In x l -> In (duplicate_key x) (map duplicate_key r)) /\
  filter_duplicates r = r.
Proof.
  intro r. subst r. unfold filter_duplicates.
  split; [apply unique_from_keys|].
  split.
  { intros x Hx. apply unique_from_first in Hx as [Hf _].
    split; [|exact Hf]. now apply find_some in Hf. }
  split.
  { intros x Hx. destruct (unique_from_covers [] l x Hx) as [[]|H]. exact H. }
  apply unique_from_fixed; [apply unique_from_keys|]. intros x _ [].
Qed.

Lemma filter_by_price_In (c : SearchCriteria) (l : list Accommodation) (x : Accommodation) :
  In x (filter_by_price c l) <->
  exists y, In y l /\
    Qle_bool (_convert_currency (price y) (currency y) (criteria_currency c))
      (max_price c) = true /\
    x = with_price (_convert_currency (price y) (currency y) (criteria_currency c))
          (criteria_currency c) y.
Proof.
  induction l as [|z l IH]; simpl.
  - split; [contradiction|]. intros [y [[] _]].
  - destruct (Qle_bool _ (max_price c)) eqn:E; simpl; rewrite IH; split.
    + intros [<-|[y [Hy H]]]; [exists z; auto|exists y; tauto].
    + intros [y [[->|Hy] [Hq ->]]]; [now left|right; exists y; auto].
    + intros [y [Hy H]]. exists y. tauto.
    + intros [y [[->|Hy] [Hq ->]]]; [congruence|exists y; auto].
Qed.

Lemma filter_by_price_length (c : SearchCriteria) (l : list Accommodation) :
  (List.length (filter_by_price c l) <= List.length l)%nat.
Proof.
  induction l as [|z l IH]; cbn [filter_by_price List.length]; [lia|].
  destruct (Qle_bool _ (max_price c)); cbn [List.length]; lia.
Qed.

Lemma unique_from_length (seen : list string) (m : list Accommodation) :
  (List.length (unique_from seen m) <= List.length m)%nat.
Proof.
  revert seen.
  induction m as [|z m IH]; intro seen; cbn [unique_from List.length]; [lia|].
  destruct (existsb _ seen); cbn [List.length];
    [specialize (IH seen)|specialize (IH (duplicate_key z :: seen))]; lia.
Qed.

Lemma Qlt_bool_asym (x y : Q) :
  Ordering.Qlt_bool x y = true -> Ordering.Qlt_bool y x = false.
Proof.
  unfold Ordering.Qlt_bool. rewrite negb_true_iff, negb_false_iff, Qle_bool_iff.
  rewrite <- not_true_iff_false, Qle_bool_iff.
  intro H. apply Qlt_le_weak, Qnot_le_lt, H.
Qed.

Lemma filter_duplicates_In (l : list Accommodation) (x : Accommodation) :
  In x (filter_duplicates l) -> In x l.
Proof.
  unfold filter_duplicates. intro Hx.
  apply unique_from_first in Hx as [Hf _]. now apply find_some in Hf.
Qed.

Lemma apply_all_filters_In (c : SearchCriteria) (l : list Accommodation)
    (x : Accommodation) :
  In x (apply_all_filters c l) ->
  (min_rating c <= rating x)%Q /\
  exists y, In y l /\
    (_convert_currency (price y) (currency y) (criteria_currency c) <= max_price c)%Q /\
    x = with_price (_convert_currency (price y) (currency y) (criteria_currency c))
          (criteria_currency c) y.
Proof.
  unfold apply_all_filters, sort_accommodations.
  change ("price" =? "price") with true. cbv iota.
  intro Hx. apply sort_by_In, filter_duplicates_In in Hx.
  unfold filter_by_rating in Hx. apply filter_In in Hx as [Hx Hr].
  apply Qle_bool_iff in Hr. split; [exact Hr|].
  apply filter_by_price_In in Hx as [y [Hy [Hq ->]]].
  apply Qle_bool_iff in Hq. now exists y.
Qed.

(** X15: what [apply_all_filters] hands on: every item is one of the
    candidates with its price converted to the currency of the
    criteria, at most the price ceiling and at least the minimum
    rating; no two items share a normalised title and location; the
    items are in ascending order of price; none is invented. *)
Theorem filtered_items_meet_the_criteria (c : SearchCriteria) (l : list Accommodation) :
  let r := apply_all_filters c l in
  (forall x, In x r ->
     currency x = criteria_currency c /\
     (price x <= max_price c)%Q /\ (min_rating c <= rating x)%Q /\
     exists y, In y l /\
       x = with_price (_convert_currency (price y) (currency y) (criteria_currency c))
             (criteria_currency c) y) /\
  NoDup (map duplicate_key r) /\
  Sorted (fun x y => (price x <= price y)%Q) r /\
  (List.length r <= List.length l)%nat.
Proof.
  intro r. subst r. unfold apply_all_filters, sort_accommodations.
  change ("price" =? "price") with true. cbv iota.
  set (before := fun y x => Ordering.Qlt_bool (price y) (price x)).
  set (deduped := filter_duplicates (filter_by_rating c (filter_by_price c l))).
  assert (Hnd : NoDup (map duplicate_key deduped))
    by (unfold deduped, filter_duplicates; apply unique_from_keys).
  split.
  { intros x Hx.
    destruct (apply_all_filters_In c l x) as [Hr [y [Hy [Hq ->]]]].
    { unfold apply_all_filters, sort_accommodations.
      change ("price" =? "price") with true. exact Hx. }
    simpl in *. repeat split; auto. now exists y. }
  split.
  { apply Permutation_NoDup with (l := map duplicate_key deduped); [|exact Hnd].
    symmetry. apply Permutation_map, sort_by_perm. }
  split.
  { apply Sorted_impl with (R := fun a b => before b a = false).
    - unfold before, Ordering.Qlt_bool. intros a b H.
      apply negb_false_iff in H. now apply Qle_bool_iff.
    - apply sort_by_sorted. intros a b. unfold before. apply Qlt_bool_asym. }
  rewrite (Permutation_length (sort_by_perm before deduped)).
  pose proof (filter_by_price_length c l) as H1.
  pose proof (filter_length_le
                (fun acc => Qle_bool (min_rating c) (rating acc))
                (filter_by_price c l)) as H3.
  pose proof (unique_from_length []
                (filter (fun acc => Qle_bool (min_rating c) (rating acc))
                   (filter_by_price c l))) as H2.
  unfold deduped, filter_duplicates, filter_by_rating.
  lia.
Qed.

End FilterFacts.

(** ** More on the passes *)

Module PassFacts.
Import Time Store Filter Notifier Agent Scraper StoreFacts StoreMore FilterFacts AgentFacts.

(** X16: the price alert of an agent is in RON, the filtered items are
    in the currency of the criteria: when that currency is not RON,
    [check_alerts] finds nothing among them, whatever they cost. *)
Theorem no_alert_outside_ron (criteria : SearchCriteria) (config : EmailConfig)
    (l : list Accommodation) :
  criteria_currency criteria <> "RON" ->
  check_alerts (price_alert (new_agent criteria config))
    (apply_all_filters criteria l) = [].
Proof.
  intro Hc. unfold check_alerts. apply StoreMore.filter_none.
  apply Forall_forall. intros x Hx.
  destruct (apply_all_filters_In criteria l x Hx) as [_ [y [_ [_ ->]]]].
  simpl.
  apply String.eqb_neq in Hc. now rewrite Hc.
Qed.

(** X17: [search_all_platforms] puts together what the platforms return,
    in their order; a platform that has no scraper or whose scraper
    raises adds nothing and stops nothing; without a list of platforms
    the supported ones are searched. *)
Theorem one_platform_failing_stops_nothing (scrape : string -> ScrapeOutcome) :
  (forall p1 p2,
     search_all_platforms scrape (Some (p1 ++ p2)%list)
     = (search_all_platforms scrape (Some p1)
        ++ search_all_platforms scrape (Some p2))%list) /\
  (forall p1 p p2 message,
     search_on scrape p = ScrapeRaised message ->
     search_all_platforms scrape (Some (p1 ++ p :: p2)%list)
     = search_all_platforms scrape (Some (p1 ++ p2)%list)) /\
  (forall p1 p p2,
     ~ In p get_supported_platforms ->
     search_all_platforms scrape (Some (p1 ++ p :: p2)%list)
     = search_all_platforms scrape (Some (p1 ++ p2)%list)) /\
  (forall platforms x,
     In x (search_all_platforms scrape (Some platforms)) <->
     exists p l, In p platforms /\ In p get_supported_platforms /\
                 scrape p = Scraped l /\ In x l) /\
  search_all_platforms scrape None
  = search_all_platforms scrape (Some get_supported_platforms).
Proof.
  assert (Happ : forall p1 p2,
            search_each scrape (p1 ++ p2) = (search_each scrape p1 ++ search_each scrape p2)%list).
  { intros p1 p2. induction p1 as [|p p1 IH]; simpl; [reflexivity|].
    destruct (search_on scrape p); [|exact IH]. now rewrite IH, app_assoc. }
  assert (Hskip : forall p1 p p2 message,
            search_on scrape p = ScrapeRaised message ->
            search_each scrape (p1 ++ p :: p2) = search_each scrape (p1 ++ p2)).
  { intros p1 p p2 message H. rewrite !Happ. simpl. now rewrite H. }
  unfold search_all_platforms.
  split; [exact Happ|]. split; [exact Hskip|]. split.
  { intros p1 p p2 Hp. apply Hskip with (message := "ValueError").
    unfold search_on.
    destruct (existsb (String.eqb p) get_supported_platforms) eqn:E; [|reflexivity].
    apply existsb_eqb_In in E. contradiction. }
  split; [|reflexivity].
  intros platforms x. induction platforms as [|p ps IH]; simpl.
  - split; [contradiction|]. intros [p [l [[] _]]].
  - unfold search_on at 1.
    destruct (existsb (String.eqb p) get_supported_platforms) eqn:E.
    + apply existsb_eqb_In in E.
      destruct (scrape p) as [l|m] eqn:Es.
      * rewrite in_app_iff, IH. split.
        -- intros [Hx|[q [l' [Hq H]]]]; [exists p, l; auto|exists q, l'; tauto].
        -- intros [q [l' [[<-|Hq] [Hs [Hl Hx]]]]].
           ++ left. congruence.
           ++ right. exists q, l'. auto.
      * rewrite IH. split.
        -- intros [q [l' [Hq H]]]. exists q, l'. tauto.
        -- intros [q [l' [[<-|Hq] [Hs [Hl Hx]]]]]; [congruence|exists q, l'; auto].
    + rewrite IH. split.
      * intros [q [l' [Hq H]]]. exists q, l'. tauto.
      * intros [q [l' [[<-|Hq] [Hs [Hl Hx]]]]]; [|exists q, l'; auto].
        assert (Ht : existsb (String.eqb p) get_supported_platforms = true)
          by (apply existsb_eqb_In; exact Hs).
        congruence.
Qed.

Section WithRuntime.
Variable rt : Runtime.

Lemma collect_new_known (sent : list string) (l : list Accommodation) :
  (forall x, In x l -> In (acc_key rt x) sent) ->
  collect_new rt sent l = ([], sent).
Proof.
  induction l as [|x l IH]; intro H; simpl; [reflexivity|].
  replace (existsb (String.eqb (acc_key rt x)) sent) with true.
  - apply IH. intros y Hy. apply H. now right.
  - symmetry. apply existsb_eqb_In. apply H. now left.
Qed.

Lemma collect_new_grows (sent : list string) (l : list Accommodation) :
  (forall k, In k sent -> In k (snd (collect_new rt sent l))) /\
  (forall x, In x l -> In (acc_key rt x) (snd (collect_new rt sent l))) /\
  ((exists x, In x l /\ ~ In (acc_key rt x) sent) ->
   fst (collect_new rt sent l) <> []).
Proof.
  revert sent. induction l as [|x l IH]; intro sent; simpl.
  - split; [auto|]. split; [contradiction|]. intros [x [[] _]].
  - destruct (existsb (String.eqb (acc_key rt x)) sent) eqn:E.
    + destruct (IH sent) as [H1 [H2 H3]]. apply existsb_eqb_In in E.
      split; [exact H1|]. split.
      * intros y [<-|Hy]; [now apply H1|now apply H2].
      * intros [y [[<-|Hy] Hn]]; [contradiction|]. apply H3. now exists y.
    + destruct (IH (acc_key rt x :: sent)) as [H1 [H2 H3]].
      destruct (collect_new rt (acc_key rt x :: sent) l) as [new sent'] eqn:Ec.
      simpl in *. split; [intros k Hk; apply H1; now right|]. split.
      * intros y [<-|Hy]; [apply H1; now left|now apply H2].
      * intros _. discriminate.
Qed.

(** X18: [send_if_needed] remembers every item it is given, whether the
    mail goes out or not.  The first call with an item not seen before
    answers what [_send_email] answers; a second call with the same
    list answers [True] whatever the mail server would do: a mail that
    failed is not tried again.  The database is not touched. *)
Theorem a_failed_mail_is_not_retried (config : EmailConfig)
    (l : list Accommodation) (smtp1 smtp2 : SmtpResult) (w : World) :
  let r1 := send_if_needed rt config l smtp1 w in
  let r2 := send_if_needed rt config l smtp2 (snd r1) in
  ((exists x, In x l /\ ~ In (acc_key rt x) (sent_accommodations w)) ->
   fst r1 = _send_email config smtp1) /\
  (forall x, In x l -> In (acc_key rt x) (sent_accommodations (snd r1))) /\
  fst r2 = true /\
  sent_accommodations (snd r2) = sent_accommodations (snd r1) /\
  database (snd r1) = database w /\ database (snd r2) = database w.
Proof.
  intros r1 r2. subst r1 r2. unfold send_if_needed.
  rewrite !run_bind. destruct l as [|x l].
  - cbn. repeat split; auto; [intros [y [[] _]]|intros y []].
  - cbn [should_send_notification fst snd sent_accommodations database].
    destruct (collect_new_grows (sent_accommodations w) (x :: l)) as [H1 [H2 H3]].
    split.
    { intro Hnew. specialize (H3 Hnew).
      destruct (fst (collect_new rt (sent_accommodations w) (x :: l))) as [|n0 ns];
        [congruence|]. reflexivity. }
    assert (Hsnd : forall b : bool, snd ((if b
                     then ret (send_accommodation_alert config (x :: l) smtp1)
                     else ret true)
                    {| database := database w; clock_reads := clock_reads w;
                       sent_accommodations :=
                         snd (collect_new rt (sent_accommodations w) (x :: l)) |})
                   = {| database := database w; clock_reads := clock_reads w;
                        sent_accommodations :=
                          snd (collect_new rt (sent_accommodations w) (x :: l)) |})
      by (intros []; reflexivity).
    rewrite Hsnd. cbn [sent_accommodations database clock_reads].
    rewrite (collect_new_known _ (x :: l) H2). cbn.
    repeat split; auto.
Qed.

(** A step that leaves a part of the database alone. *)
Let keeps {T A : Type} (part : Database -> T) (m : M A) : Prop :=
  forall w, part (database (snd (m w))) = part (database w).

Lemma keeps_ret {T A : Type} (part : Database -> T) (a : A) : keeps part (ret a).
Proof. intro w. reflexivity. Qed.

Lemma keeps_bind {T A B : Type} (part : Database -> T) (m : M A) (k : A -> M B) :
  keeps part m -> (forall a, keeps part (k a)) -> keeps part (bind m k).
Proof.
  intros Hm Hk w. rewrite run_bind. rewrite Hk. apply Hm.
Qed.

Lemma keeps_bind_try {T A B : Type} (part : Database -> T)
    (m : M (Attempt A)) (k : A -> M (Attempt B)) :
  keeps part m -> (forall a, keeps part (k a)) -> keeps part (bind_try m k).
Proof.
  intros Hm Hk. unfold bind_try. apply keeps_bind; [exact Hm|].
  intros [a|e]; [apply Hk|apply keeps_ret].
Qed.

Lemma keeps_try_each {T A B : Type} (part : Database -> T)
    (f : A -> M (Attempt B)) (l : list A) :
  (forall a, keeps part (f a)) -> keeps part (try_each f l).
Proof.
  intro Hf. induction l as [|x l IH]; simpl.
  - apply keeps_ret.
  - apply keeps_bind_try; [apply Hf|]. intro y.
    apply keeps_bind_try; [exact IH|]. intro ys. apply keeps_ret.
Qed.

Lemma keeps_notifications_save (a : Accommodation) :
  keeps notifications (save_accommodation rt a).
Proof.
  intro w.
  destruct (saved_cases rt a w) as [H | [[e [H [Hp Hc]]] | [e [H Hd]]]].
  - now rewrite (save_accommodation_new rt a w H).
  - now rewrite (save_accommodation_same rt a w e H Hp Hc).
  - now rewrite (save_accommodation_changed rt a w e H Hd).
Qed.

Lemma keeps_notifications_notify_new (agent : AccommodationAgent) (smtp : SmtpResult) :
  keeps notifications (notify_new rt agent smtp).
Proof.
  unfold notify_new. apply keeps_bind; [intro w; reflexivity|].
  intros [|a l]; [apply keeps_ret|].
  apply keeps_bind.
  { intro w. apply (f_equal notifications), send_if_needed_database. }
  intro success. apply keeps_bind_try; [|intro; apply keeps_ret].
  destruct success; [|apply keeps_ret].
  apply keeps_bind_try.
  - apply keeps_try_each. intro. apply keeps_notifications_save.
  - intro ids. apply keeps_bind; [|intro; apply keeps_ret].
    intro w. destruct ids; reflexivity.
Qed.

Lemma alerted_reads_only (drops : list PriceChange) (w : World) :
  snd (alerted drops w) = w.
Proof.
  unfold alerted. rewrite run_bind. cbn [ret snd].
  revert w. induction drops as [|d drops IH]; intro w; [reflexivity|].
  cbn [for_each]. rewrite !run_bind. cbn [ret snd].
  rewrite get_accommodation_by_id_eq. cbn [snd]. apply IH.
Qed.

(** X19: no pass writes the table of notifications: after
    [search_and_process], whatever was fetched and however the mails
    went, and after [run_price_alerts], the table is what it was.
    [run_price_alerts] changes nothing at all in the database, and hands
    to the mail one accommodation for each report of [get_price_drops]
    whose item is found. *)
Theorem passes_leave_no_notification_record
    (agent : AccommodationAgent) (raw : list Accommodation)
    (smtp_new smtp_alert : SmtpResult) (w : World) :
  notifications (database (snd (search_and_process rt agent raw smtp_new smtp_alert w)))
  = notifications (database w) /\
  database (snd (run_price_alerts rt agent smtp_alert w)) = database w /\
  (forall l, fst (run_price_alerts rt agent smtp_alert w) = Some l ->
     (List.length l <= List.length (fst (get_price_drops rt 10 w)))%nat /\
     forall a, In a l ->
       exists c row,
         In c (fst (get_price_drops rt 10 w)) /\
         In row (accommodations (database w)) /\
         acc_id row = pc_id c /\ a = _row_to_accommodation row).
Proof.
  split.
  { unfold search_and_process. rewrite run_bind. cbn [datetime_now fst snd].
    destruct raw as [|a0 raw']; [reflexivity|].
    destruct (apply_all_filters (search_criteria agent) (a0 :: raw')) as [|f0 fs];
      [reflexivity|].
    change (notifications (database w)) with (notifications (database (tick w))).
    apply keeps_bind; [|intros [result|e]; apply keeps_ret].
    unfold process, save_all. apply keeps_bind_try.
    - apply keeps_try_each. intro. apply keeps_notifications_save.
    - intro. apply keeps_bind_try; [apply keeps_notifications_notify_new|].
      intro. apply keeps_bind; [|intro; apply keeps_ret].
      unfold record_search. apply keeps_bind; [intro w0; reflexivity|].
      intro. intro w0. reflexivity. }
  unfold run_price_alerts. rewrite run_bind.
  rewrite get_price_drops_eq. cbn [fst snd].
  set (drops := Ordering.sort_by larger_drop_first
                  (filter (meets 10)
                     (price_changes (whole_seconds (clock rt (clock_reads w)))
                        (database w)))).
  assert (Hfound : forall ds w0,
    database w0 = database w ->
    (List.length (fst (alerted ds w0)) <= List.length ds)%nat /\
    forall a, In a (fst (alerted ds w0)) ->
      exists c row, In c ds /\ In row (accommodations (database w)) /\
                    acc_id row = pc_id c /\ a = _row_to_accommodation row).
  { intros ds w0 Hdb. unfold alerted. rewrite run_bind. cbn [ret fst].
    revert w0 Hdb. induction ds as [|d ds IH]; intros w0 Hdb.
    - cbn. split; [lia|contradiction].
    - cbn [for_each]. rewrite !run_bind. cbn [ret fst snd].
      rewrite get_accommodation_by_id_eq. cbn [fst snd flat_map].
      destruct (IH w0 Hdb) as [Hlen Hin]. split.
      + rewrite length_app.
        destruct (find _ (accommodations (database w0))); cbn [option_map List.length];
          cbn [List.length] in *; lia.
      + intros a Ha. apply in_app_or in Ha as [Ha|Ha].
        * destruct (find (fun r => (acc_id r =? pc_id d)%Z) (accommodations (database w0)))
            as [row|] eqn:E; cbn in Ha; [|contradiction].
          destruct Ha as [<-|[]]. apply find_some in E as [Hrow Hid].
          apply Z.eqb_eq in Hid. exists d, row. rewrite <- Hdb.
          repeat split; auto. now left.
        * destruct (Hin a Ha) as [c [row [Hc H]]]. exists c, row.
          split; [now right|exact H]. }
  destruct drops as [|d0 ds] eqn:Ed.
  { cbn. split; [reflexivity|]. intros l H. discriminate. }
  rewrite run_bind.
  pose proof (alerted_reads_only (d0 :: ds) (tick w)) as Hsame.
  destruct (Hfound (d0 :: ds) (tick w) eq_refl) as [Hlen Hin].
  destruct (fst (alerted (d0 :: ds) (tick w))) as [|a1 l1] eqn:El.
  - cbn [ret fst snd]. rewrite Hsame. split; [reflexivity|]. intros l H. discriminate.
  - cbn [ret fst snd]. rewrite Hsame. split; [reflexivity|].
    intros l H. injection H as <-. split; [exact Hlen|exact Hin].
Qed.

(** X20: a pass that fetches nothing, or whose filters leave nothing,
    returns the empty list and stops there: it saves nothing, marks
    nothing, and records no search. *)
Theorem empty_pass_records_nothing
    (agent : AccommodationAgent) (raw : list Accommodation)
    (smtp_new smtp_alert : SmtpResult) (w : World) :
  raw = [] \/ apply_all_filters (search_criteria agent) raw = [] ->
  search_and_process rt agent raw smtp_new smtp_alert w = ([], tick w).
Proof.
  intro H. unfold search_and_process. rewrite run_bind. cbn [datetime_now fst snd].
  destruct raw as [|a0 raw']; [reflexivity|].
  destruct H as [H|H]; [discriminate|]. now rewrite H.
Qed.

(** *** Marking without a mail *)

(** What [save_accommodation] never changes in a row that exists. *)
Let mark_of (r : AccommodationRow) : Z * string * bool * datetime :=
  (acc_id r, accommodation_hash r, is_notified r, first_seen r).

Lemma mark_of_update_seen (now : datetime) (a : Accommodation) (i : Z)
    (r : AccommodationRow) :
  mark_of (update_seen now a i r) = mark_of r.
Proof. unfold mark_of, update_seen. destruct (acc_id r =? i)%Z; reflexivity. Qed.

Lemma find_by_hash_marks (h : string) (l l' : list AccommodationRow) :
  map mark_of l = map mark_of l' ->
  option_map mark_of (find (fun r => accommodation_hash r =? h) l)
  = option_map mark_of (find (fun r => accommodation_hash r =? h) l').
Proof.
  revert l'. induction l as [|x l IH]; intros [|y l'] E; simpl in *;
    try discriminate; [reflexivity|].
  pose proof (f_equal (fun m => match m with [] => None | k :: _ => Some k end) E)
    as Exy.
  pose proof (f_equal (@tl _) E) as Et. cbn in Exy, Et.
  assert (Eh : accommodation_hash x = accommodation_hash y)
    by (unfold mark_of in Exy; congruence).
  rewrite Eh. destruct (accommodation_hash y =? h); simpl; [exact Exy|now apply IH].
Qed.

Lemma save_existing_keeps_marks (a : Accommodation) (w : World) (e : AccommodationRow) :
  tracked (_create_accommodation_hash rt a) (database w) = Some e ->
  fst (save_accommodation rt a w) = Done (acc_id e) /\
  map mark_of (accommodations (database (snd (save_accommodation rt a w))))
  = map mark_of (accommodations (database w)).
Proof.
  intro Ht. change (tracked ?h ?d) with (select_by_hash h d) in Ht.
  destruct (saved_cases rt a w) as [H | [[e' [H [Hp Hc]]] | [e' [H Hd]]]];
    rewrite Ht in H; [discriminate| |]; injection H as <-.
  - rewrite (save_accommodation_same rt a w e Ht Hp Hc). cbn.
    split; [reflexivity|]. rewrite map_map. apply map_ext.
    intro r. apply mark_of_update_seen.
  - rewrite (save_accommodation_changed rt a w e Ht Hd). cbn.
    split; [reflexivity|]. rewrite map_map. apply map_ext.
    intro r. apply mark_of_update_seen.
Qed.

Lemma save_all_existing (l : list Accommodation) (w : World) :
  (forall a, In a l ->
     exists e, tracked (_create_accommodation_hash rt a) (database w) = Some e) ->
  exists ids,
    fst (try_each (save_accommodation rt) l w) = Done ids /\
    map mark_of (accommodations (database (snd (try_each (save_accommodation rt) l w))))
    = map mark_of (accommodations (database w)) /\
    sent_accommodations (snd (try_each (save_accommodation rt) l w))
    = sent_accommodations w /\
    forall a e, In a l ->
      tracked (_create_accommodation_hash rt a) (database w) = Some e ->
      In (acc_id e) ids.
Proof.
  revert w. induction l as [|x l IH]; intros w Hall.
  - exists []. repeat split; auto.
  - cbn [try_each]. rewrite !run_bind_try.
    destruct (Hall x (or_introl eq_refl)) as [ex Hx].
    destruct (save_existing_keeps_marks x w ex Hx) as [Hid Hmarks].
    assert (Hsent1 : sent_accommodations (snd (save_accommodation rt x w))
                     = sent_accommodations w).
    { destruct (saved_cases rt x w) as [H | [[e [H [Hp Hcu]]] | [e [H Hd]]]].
      - now rewrite (save_accommodation_new rt x w H).
      - now rewrite (save_accommodation_same rt x w e H Hp Hcu).
      - now rewrite (save_accommodation_changed rt x w e H Hd). }
    rewrite Hid.
    set (w1 := snd (save_accommodation rt x w)) in *.
    assert (Hall1 : forall a, In a l ->
              exists e, tracked (_create_accommodation_hash rt a) (database w1) = Some e).
    { intros a Ha. destruct (Hall a (or_intror Ha)) as [e He].
      pose proof (find_by_hash_marks (_create_accommodation_hash rt a) _ _ Hmarks) as Hf.
      unfold tracked in *. rewrite He in Hf.
      destruct (find _ (accommodations (database w1))) as [e1|]; [now exists e1|].
      discriminate. }
    destruct (IH w1 Hall1) as [ids [Hids [Hm1 [Hs1 Hin1]]]].
    rewrite run_bind_try, Hids. cbn [ret fst snd].
    exists (acc_id ex :: ids). split; [reflexivity|].
    split; [congruence|]. split; [congruence|].
    intros a e [<-|Ha] He.
    + left. congruence.
    + right.
      pose proof (find_by_hash_marks (_create_accommodation_hash rt a) _ _ Hmarks) as Hf.
      unfold tracked in He. rewrite He in Hf.
      destruct (find (fun r => accommodation_hash r =? _create_accommodation_hash rt a)
                  (accommodations (database w1))) as [e1|] eqn:E1; [|discriminate].
      injection Hf as Hf.
      replace (acc_id e) with (acc_id e1) by (unfold mark_of in Hf; congruence).
      now apply (Hin1 a e1 Ha).
Qed.

(** X21: when every item that is new has been handed to
    [send_if_needed] before, the notification step sends no mail and
    still marks the items: whatever the mail server would do, every
    item first seen in the window is notified afterwards, and the next
    query for new items finds none. *)
Theorem known_items_are_marked_without_mail
    (agent : AccommodationAgent) (smtp : SmtpResult) (w : World) :
  consistent (database w) ->
  hashes_match rt (database w) ->
  (forall a, In a (fst (get_new_accommodations rt 24 w)) ->
     In (acc_key rt a) (sent_accommodations w)) ->
  let cutoff_time := clock rt (clock_reads w) - timedelta 0 24 0 in
  let r := notify_new rt agent smtp w in
  fst r = Done (fst (get_new_accommodations rt 24 w)) /\
  sent_accommodations (snd r) = sent_accommodations w /\
  (forall row, In row (accommodations (database (snd r))) ->
     cutoff_time <= first_seen row -> is_notified row = true) /\
  (forall hours_back,
     cutoff_time <= clock rt (clock_reads (snd r)) - timedelta 0 hours_back 0 ->
     fst (get_new_accommodations rt hours_back (snd r)) = []).
Proof.
  intros Hc Hm Hknown cutoff_time r.
  assert (Hmarked :
    fst r = Done (fst (get_new_accommodations rt 24 w)) /\
    sent_accommodations (snd r) = sent_accommodations w /\
    forall row, In row (accommodations (database (snd r))) ->
      cutoff_time <= first_seen row -> is_notified row = true).
  { subst r. unfold notify_new. rewrite run_bind.
    rewrite get_new_accommodations_eq in Hknown |- *.
    cbn [fst snd] in Hknown |- *. fold cutoff_time in Hknown |- *.
    set (rows := Ordering.sort_by newer_first
                   (filter (is_new cutoff_time) (accommodations (database w))))
      in Hknown |- *.
    assert (Hrows : forall row, In row rows <->
              In row (accommodations (database w)) /\ is_new cutoff_time row = true).
    { intro row. unfold rows. rewrite OrderingFacts.sort_by_In, filter_In. tauto. }
    destruct (map _row_to_accommodation rows) as [|a0 l0] eqn:El.
    { cbn. split; [reflexivity|]. split; [reflexivity|].
      intros row Hrow Hfs. destruct (is_notified row) eqn:En; [reflexivity|].
      assert (Hr : In row rows).
      { apply Hrows. split; [exact Hrow|]. apply is_new_spec. auto. }
      destruct rows; [contradiction|discriminate]. }
    rewrite <- El in *. rewrite !run_bind.
    unfold send_if_needed. rewrite !run_bind.
    assert (Hne : map _row_to_accommodation rows <> []) by (rewrite El; discriminate).
    assert (Hshould :
      should_send_notification rt (map _row_to_accommodation rows) (tick w)
      = (false, tick w)).
    { destruct (map _row_to_accommodation rows) as [|a1 l1] eqn:E1; [congruence|].
      cbn [should_send_notification sent_accommodations tick].
      rewrite (collect_new_known _ (a1 :: l1) Hknown). reflexivity. }
    rewrite Hshould. cbn [fst snd ret].
    set (saved := try_each (save_accommodation rt) (map _row_to_accommodation rows) (tick w)).
    assert (Htracked : forall row, In row rows ->
              tracked (_create_accommodation_hash rt (_row_to_accommodation row))
                (database (tick w)) = Some row).
    { intros row Hrow. apply Hrows in Hrow as [Hrow _].
      unfold hashes_match in Hm. rewrite Forall_forall in Hm.
      rewrite <- (Hm row Hrow). now apply tracked_of_member. }
    destruct (save_all_existing (map _row_to_accommodation rows) (tick w))
      as [ids [Hdone [Hmarks [Hsent Hids]]]].
    { intros a Ha. apply in_map_iff in Ha as [row [<- Hrow]].
      exists row. now apply Htracked. }
    fold saved in Hdone, Hmarks, Hsent, Hids.
    rewrite !run_bind_try. fold saved. rewrite Hdone.
    rewrite !run_bind. cbn [ret fst snd].
    split; [reflexivity|].
    destruct ids as [|i0 ids0] eqn:Eids.
    { exfalso. destruct rows as [|row0 rows0]; [now apply Hne|].
      apply (Hids (_row_to_accommodation row0) row0); [now left|].
      apply Htracked. now left. }
    rewrite <- Eids in *. rewrite mark_as_notified_eq by (rewrite Eids; discriminate).
    cbn [snd sent_accommodations with_database database accommodations with_accommodations].
    split; [exact Hsent|].
    intros row' Hrow' Hfs.
    apply in_map_iff in Hrow' as [r1 [<- Hr1]].
    assert (Hfs1 : cutoff_time <= first_seen r1).
    { unfold set_notified in Hfs. now destruct (existsb _ _) in Hfs. }
    destruct (is_notified r1) eqn:En1.
    { unfold set_notified. destruct (existsb _ _); [reflexivity|exact En1]. }
    assert (Hmark1 : In (mark_of r1) (map mark_of (accommodations (database (tick w))))).
    { rewrite <- Hmarks. now apply in_map. }
    apply in_map_iff in Hmark1 as [r0 [E0 Hr0]].
    unfold mark_of in E0. injection E0 as Eid Eh En Ef.
    assert (Hnew0 : In r0 rows).
    { apply Hrows. split; [exact Hr0|]. apply is_new_spec. split; congruence. }
    apply set_notified_marks. rewrite <- Eid.
    apply (Hids (_row_to_accommodation r0) r0).
    - now apply in_map.
    - now apply Htracked. }
  destruct Hmarked as [H1 [H2 H3]].
  split; [exact H1|]. split; [exact H2|]. split; [exact H3|].
  intros hours_back Hlater. rewrite get_new_accommodations_eq. cbn [fst].
  rewrite StoreMore.filter_none; [reflexivity|].
  apply Forall_forall. intros row Hrow.
  destruct (is_new _ row) eqn:E; [|reflexivity].
  apply is_new_spec in E as [Hfs Hn].
  rewrite (H3 row Hrow) in Hn; [discriminate|lia].
Qed.

Lemma for_each_lookup (drops : list PriceChange) (w : World) :
  for_each (fun drop => get_accommodation_by_id (pc_id drop)) drops w
  = (map (fun drop =>
            option_map _row_to_accommodation
              (find (fun r => (acc_id r =? pc_id drop)%Z) (accommodations (database w))))
       drops, w).
Proof.
  induction drops as [|d drops IH]; [reflexivity|].
  cbn [for_each map]. rewrite run_bind, get_accommodation_by_id_eq. cbn [fst snd].
  rewrite run_bind, IH. reflexivity.
Qed.

Lemma alerted_same_items (drops : list PriceChange) (w1 w2 : World) :
  accommodations (database w1) = accommodations (database w2) ->
  fst (alerted drops w1) = fst (alerted drops w2).
Proof.
  intro H. unfold alerted. rewrite !run_bind, !for_each_lookup. cbn [ret fst snd].
  now rewrite H.
Qed.

(** X22: the cleanup of the agent keeps 30 days, the price alerts look
    back 14: with a clock that does not run backwards,
    [run_price_alerts] after [cleanup_database] hands to the mail what
    it would have handed without the cleanup. *)
Theorem the_cleanup_loses_no_price_alert
    (agent : AccommodationAgent) (smtp : SmtpResult) (w : World) :
  monotone (clock rt) ->
  fst (run_price_alerts rt agent smtp (snd (cleanup_database rt w)))
  = fst (run_price_alerts rt agent smtp (tick w)).
Proof.
  intro Hmono. unfold run_price_alerts, cleanup_database.
  rewrite !run_bind.
  rewrite (price_drops_after_cleaning rt 30 10 w Hmono ltac:(lia)).
  destruct (fst (get_price_drops rt 10 (tick w))) as [|d drops]; [reflexivity|].
  rewrite !run_bind.
  rewrite (alerted_same_items (d :: drops)
             (snd (get_price_drops rt 10 (snd (clean_old_data rt 30 w))))
             (snd (get_price_drops rt 10 (tick w)))) by reflexivity.
  destruct (fst (alerted (d :: drops) (snd (get_price_drops rt 10 (tick w)))));
    reflexivity.
Qed.

End WithRuntime.

End PassFacts.

(** ** The further properties on the samples *)

Module MoreScenarios.
Import Time Scheduler Store Filter Notifier Agent Samples.
Import StoreFacts StoreMore TaskListFacts PassFacts Scenarios.

Lemma default_tasks_all_start_at_once_witness :
  (forall k, (k < 4)%nat -> built_at k <= t0 + 30 * us_per_second) /\
  dispatched (start (create_default_scheduler sleeper failing sleeper None built_at))
    (t0 + 30 * us_per_second)
  = [0; 1; 2; 3]%nat.
Proof.
  assert (H : forall k, (k < 4)%nat -> built_at k <= t0 + 30 * us_per_second)
    by (intros k Hk; unfold built_at, us_per_second; lia).
  split; [exact H|].
  exact (proj2 (proj2 (proj2 (proj2
    (default_tasks_all_start_at_once sleeper failing sleeper None built_at _ H))))).
Defined.

Lemma identity_ignores_case_and_blanks_witness :
  Text.strip "  " = "" /\ Text.strip "" = "" /\
  Text.lower (title hotel_shouting) = Text.lower ("  " ++ title (hotel 100) ++ "") /\
  Text.lower (location hotel_shouting) = Text.lower ("" ++ location (hotel 100) ++ "  ") /\
  platform hotel_shouting = platform (hotel 100) /\
  _create_accommodation_hash (runtime fast_clock) hotel_shouting
  = _create_accommodation_hash (runtime fast_clock) (hotel 100).
Proof.
  repeat (split; [reflexivity|]).
  apply (identity_ignores_case_and_blanks (runtime fast_clock)
           (hotel 100) hotel_shouting "  " "" "" "  "); reflexivity.
Defined.

Lemma criteria_hash_ignores_dates_witness :
  check_in criteria_next_month <> check_in criteria /\
  _create_criteria_hash (runtime fast_clock) criteria_next_month
  = _create_criteria_hash (runtime fast_clock) criteria.
Proof.
  split; [discriminate|].
  exact (proj1 (criteria_hash_ignores_dates (runtime fast_clock)
                  criteria criteria_next_month 0 0 0 0 fresh fresh
                  eq_refl eq_refl eq_refl eq_refl eq_refl eq_refl)).
Defined.

Lemma saving_a_stored_item_again_witness :
  let r := save_accommodation (runtime fast_clock)
             (_row_to_accommodation hotel_row) both_stored in
  consistent (database both_stored) /\
  hashes_match (runtime fast_clock) (database both_stored) /\
  In hotel_row (accommodations (database both_stored)) /\
  fst r = Done 1 /\
  price_history (database (snd r)) = price_history (database both_stored).
Proof.
  assert (Hin : In hotel_row (accommodations (database both_stored)))
    by (left; reflexivity).
  destruct both_stored_invariants as [Hc Hm].
  split; [exact Hc|]. split; [exact Hm|]. split; [exact Hin|].
  destruct (saving_a_stored_item_again (runtime fast_clock) hotel_row both_stored
              Hc Hm Hin) as [H1 [H2 _]].
  split; [exact H1|exact H2].
Defined.

Lemma lookup_after_save_witness :
  let r := save_accommodation (runtime fast_clock) (hotel 80) seen_at_100 in
  consistent (database seen_at_100) /\
  fst r = Done 1 /\
  fst (get_accommodation_by_id 1 (snd r)) = Some (hotel 80) /\
  fst (get_accommodation_by_id 2 (snd r)) = None.
Proof.
  pose proof (proj1 stored_hotel_invariants) as Hc.
  destruct (lookup_after_save (runtime fast_clock) (hotel 80) seen_at_100 Hc)
    as [H1 [_ [H3 _]]].
  destruct (H1 hotel_row eq_refl) as [Hf Hfound].
  split; [exact Hc|]. split; [exact Hf|]. split; [exact Hfound|].
  apply H3. vm_compute. reflexivity.
Defined.

Lemma seen_at_100_consistent : consistent (database seen_at_100).
Proof. exact (proj1 stored_hotel_invariants). Qed.

Lemma retention_keeps_the_items_witness :
  let w' := snd (clean_old_data (runtime fast_clock) 30 seen_at_100) in
  consistent (database seen_at_100) /\
  accommodations (database w') = accommodations (database seen_at_100) /\
  consistent (database w').
Proof.
  destruct (retention_keeps_the_items (runtime fast_clock) 30 seen_at_100
              seen_at_100_consistent) as [H1 [_ [_ [H4 _]]]].
  split; [exact seen_at_100_consistent|]. split; [exact H1|exact H4].
Defined.

Lemma retention_leaves_price_drops_witness :
  monotone (clock (runtime fast_clock)) /\ 15 <= 30 /\
  fst (get_price_drops (runtime fast_clock) 10
         (snd (clean_old_data (runtime fast_clock) 30 quick)))
  = fst (get_price_drops (runtime fast_clock) 10 (tick quick)).
Proof.
  assert (H : 15 <= 30) by lia.
  split; [exact fast_clock_monotone|]. split; [exact H|].
  exact (retention_leaves_price_drops (runtime fast_clock) 30 10 quick
           fast_clock_monotone H).
Defined.

Lemma the_cleanup_loses_no_price_alert_witness :
  monotone (clock (runtime fast_clock)) /\
  fst (run_price_alerts (runtime fast_clock) agent Delivered
         (snd (cleanup_database (runtime fast_clock) quick)))
  = fst (run_price_alerts (runtime fast_clock) agent Delivered (tick quick)).
Proof.
  split; [exact fast_clock_monotone|].
  exact (the_cleanup_loses_no_price_alert (runtime fast_clock) agent Delivered quick
           fast_clock_monotone).
Defined.

Lemma no_alert_outside_ron_witness :
  criteria_currency criteria_in_euros <> "RON" /\
  check_alerts (price_alert (new_agent criteria_in_euros mailbox))
    (apply_all_filters criteria_in_euros fetched) = [].
Proof.
  assert (H : criteria_currency criteria_in_euros <> "RON") by discriminate.
  split; [exact H|].
  exact (no_alert_outside_ron criteria_in_euros mailbox fetched H).
Defined.

Lemma empty_pass_records_nothing_witness :
  (@nil Accommodation = [] \/ apply_all_filters (search_criteria agent) [] = []) /\
  search_and_process (runtime fast_clock) agent [] Delivered Delivered fresh
  = ([], tick fresh).
Proof.
  assert (H : @nil Accommodation = []
              \/ apply_all_filters (search_criteria agent) [] = [])
    by (left; reflexivity).
  split; [exact H|].
  exact (empty_pass_records_nothing (runtime fast_clock) agent [] Delivered Delivered
           fresh H).
Defined.

Lemma after_failed_mail_invariants :
  consistent (database after_failed_mail) /\
  hashes_match (runtime fast_clock) (database after_failed_mail).
Proof.
  change (database after_failed_mail) with (database both_stored).
  exact both_stored_invariants.
Qed.

Lemma known_items_are_marked_without_mail_witness :
  let rt := runtime fast_clock in
  let r := notify_new rt agent SMTPRecipientsRefused after_failed_mail in
  consistent (database after_failed_mail) /\
  hashes_match rt (database after_failed_mail) /\
  (forall a, In a (fst (get_new_accommodations rt 24 after_failed_mail)) ->
     In (acc_key rt a) (sent_accommodations after_failed_mail)) /\
  map is_notified (accommodations (database after_failed_mail)) = [false; false] /\
  forall row, In row (accommodations (database (snd r))) ->
    clock rt (clock_reads after_failed_mail) - timedelta 0 24 0 <= first_seen row ->
    is_notified row = true.
Proof.
  destruct after_failed_mail_invariants as [Hc Hm].
  assert (Hknown : forall a,
            In a (fst (get_new_accommodations (runtime fast_clock) 24 after_failed_mail)) ->
            In (acc_key (runtime fast_clock) a) (sent_accommodations after_failed_mail)).
  { intros a Ha. vm_compute in Ha. destruct Ha as [<-|[<-|[]]]; vm_compute; tauto. }
  split; [exact Hc|]. split; [exact Hm|]. split; [exact Hknown|].
  split; [vm_compute; reflexivity|].
  exact (proj1 (proj2 (proj2
    (known_items_are_marked_without_mail (runtime fast_clock) agent
       SMTPRecipientsRefused after_failed_mail Hc Hm Hknown)))).
Defined.

End MoreScenarios.
